(** * Smart Broker: access control, campaign execution and agent loop

    A shallow embedding of the service layer of the Smart Broker module
    (properties, contacts, campaigns, agencies, auth and agents services)
    together with the properties of the access-control model, the campaign
    executor, the template renderer and the agent orchestration loop. *)

From Stdlib Require Import String Ascii List ZArith Bool Arith Lia.
Import ListNotations.

Local Open Scope string_scope.
Local Open Scope list_scope.

Set Implicit Arguments.

(** ** JavaScript values *)

(** [!!s] for an optional string: [undefined] and [''] are falsy. *)
Definition truthy (o : option string) : bool :=
  match o with
  | Some s => negb (String.eqb s "")
  | None => false
  end.

(** [a || b] on an optional string with a string default. *)
Definition orElse (o : option string) (d : string) : string :=
  match o with
  | Some s => if String.eqb s "" then d else s
  | None => d
  end.

(** [s === o] for a string and an optional string. *)
Definition sameString (s : string) (o : option string) : bool :=
  match o with
  | Some t => String.eqb s t
  | None => false
  end.

Definition inb (x : string) (l : list string) : bool :=
  existsb (String.eqb x) l.

Definition isSome {A} (o : option A) : bool :=
  match o with
  | Some _ => true
  | None => false
  end.

(** The [required: true] validator of a string path. *)
Definition required (s : string) : bool := negb (String.eqb s "").

(** *** [String.prototype.replace] with a global literal pattern

    [GetSubstitution] for a pattern without capture groups: [$$], [$&],
    [$`] and [$'] are expanded, every other [$] stays as it is. *)
Fixpoint getSubstitution (matched before after repl : string) : string :=
  match repl with
  | EmptyString => EmptyString
  | String c r =>
      if Ascii.eqb c "$" then
        match r with
        | EmptyString => String c EmptyString
        | String d r' =>
            if Ascii.eqb d "$" then
              String "$" (getSubstitution matched before after r')
            else if Ascii.eqb d "`" then
              before ++ getSubstitution matched before after r'
            else if Ascii.eqb d "&" then
              matched ++ getSubstitution matched before after r'
            else if Ascii.eqb d "'" then
              after ++ getSubstitution matched before after r'
            else String c (getSubstitution matched before after r)
        end
      else String c (getSubstitution matched before after r)
  end.

(** Whether [s] starts with [pat]. *)
Fixpoint startsWith (pat s : string) : bool :=
  match pat, s with
  | EmptyString, _ => true
  | String a p, String b r => Ascii.eqb a b && startsWith p r
  | String _ _, EmptyString => false
  end.

Fixpoint dropChars (n : nat) (s : string) : string :=
  match n, s with
  | S k, String _ r => dropChars k r
  | _, _ => s
  end.

(** Left-to-right scan for the non-overlapping occurrences of [pat];
    [skip] counts the characters of the current match still to be passed
    over and [before] is the part of the input already scanned. *)
Fixpoint replaceScan (pat repl : string) (skip : nat) (before s : string) : string :=
  match s with
  | EmptyString => EmptyString
  | String c r =>
      match skip with
      | S k => replaceScan pat repl k (before ++ String c EmptyString) r
      | O =>
          if startsWith pat s then
            getSubstitution pat before (dropChars (String.length pat) s) repl
            ++ replaceScan pat repl (String.length pat - 1)
                 (before ++ String c EmptyString) r
          else String c (replaceScan pat repl O (before ++ String c EmptyString) r)
      end
  end.

(** [s.replace(/pat/g, repl)] for a non-empty literal [pat]. *)
Definition replaceAllLiteral (pat repl s : string) : string :=
  replaceScan pat repl O EmptyString s.

(** ASCII part of [String.prototype.toUpperCase]. *)
Definition upperChar (c : ascii) : ascii :=
  let n := nat_of_ascii c in
  if andb (Nat.leb 97 n) (Nat.leb n 122) then ascii_of_nat (n - 32) else c.

Fixpoint toUpperCase (s : string) : string :=
  match s with
  | EmptyString => EmptyString
  | String c r => String (upperChar c) (toUpperCase r)
  end.

(** ** Exceptions (src/exceptions) and results *)

Inductive HttpException : Type :=
| BadRequestException
| UnauthorizedException
| ForbiddenException
| NotFoundException
| ConflictException
| InternalError. (* any other throw: BSONError, CastError, TypeError, ValidationError *)

Inductive Result (A : Type) : Type :=
| Ok (a : A)
| Throw (e : HttpException).

Arguments Ok {A} a.
Arguments Throw {A} e.

Definition bind {A B} (r : Result A) (k : A -> Result B) : Result B :=
  match r with
  | Ok a => k a
  | Throw e => Throw e
  end.

Notation "x <- r ;; k" := (bind r (fun x => k))
  (at level 61, r at next level, right associativity).

Definition orThrow {A} (o : option A) (e : HttpException) : Result A :=
  match o with
  | Some a => Ok a
  | None => Throw e
  end.

(** ** Roles (types/roles.enum.ts) and the authenticated user *)

Inductive UserRole : Type := ADMIN | MANAGER | AGENT | VIEWER.

Definition UserRole_value (r : UserRole) : string :=
  match r with
  | ADMIN => "admin"
  | MANAGER => "manager"
  | AGENT => "agent"
  | VIEWER => "viewer"
  end.

Definition UserRoles : list UserRole := [ADMIN; MANAGER; AGENT; VIEWER].

Definition role_eqb (a b : UserRole) : bool :=
  match a, b with
  | ADMIN, ADMIN | MANAGER, MANAGER | AGENT, AGENT | VIEWER, VIEWER => true
  | _, _ => false
  end.

Record AuthenticatedUser : Type := {
  userId : string;
  email : string;
  role : UserRole;
  agencyId : option string
}.

(** ** Object ids

    An [ObjectId] is identified with its [toString()] rendering. *)

Record ObjectId : Type := { toString : string }.

Definition oid_eqb (a b : ObjectId) : bool :=
  String.eqb (toString a) (toString b).

Definition ooid_eqb (a : option ObjectId) (b : ObjectId) : bool :=
  match a with
  | Some x => oid_eqb x b
  | None => false
  end.

(** A reference runtime for ids: 24 hexadecimal digits are a valid id and
    the constructor lower-cases them; anything else makes it throw. *)

Definition isHexDigit (c : ascii) : bool :=
  let n := nat_of_ascii c in
  orb (andb (Nat.leb 48 n) (Nat.leb n 57))
      (orb (andb (Nat.leb 97 n) (Nat.leb n 102))
           (andb (Nat.leb 65 n) (Nat.leb n 70))).

Definition lowerChar (c : ascii) : ascii :=
  let n := nat_of_ascii c in
  if andb (Nat.leb 65 n) (Nat.leb n 90) then ascii_of_nat (n + 32) else c.

Fixpoint allChars (f : ascii -> bool) (s : string) : bool :=
  match s with
  | EmptyString => true
  | String c r => andb (f c) (allChars f r)
  end.

Fixpoint mapChars (f : ascii -> ascii) (s : string) : string :=
  match s with
  | EmptyString => EmptyString
  | String c r => String (f c) (mapChars f r)
  end.

Definition hexIsValid (s : string) : bool :=
  andb (Nat.eqb (String.length s) 24) (allChars isHexDigit s).

Definition hexObjectId (s : string) : option ObjectId :=
  if hexIsValid s then Some {| toString := mapChars lowerChar s |} else None.

(** A regular-expression engine that knows no pattern: every dynamic
    [new RegExp(src)] throws.  It stands in where no dynamic pattern is built. *)
Definition noRegexI (src : string) : option (string -> bool) := None.
Definition noRegexReplaceAll (src input replacement : string) : option string := None.

(** ** The document store

    [Model.find(query).sort({ createdAt: -1 })], [Model.findById(id)] and
    [doc.save()] over a collection kept as a list of documents. *)

Section Collections.
Variable D : Type.
Variable createdAt : D -> Z.
Variable idOf : D -> ObjectId.

Fixpoint insertDesc (d : D) (l : list D) : list D :=
  match l with
  | [] => [d]
  | x :: r => if (createdAt x <? createdAt d)%Z then d :: l
              else x :: insertDesc d r
  end.

Fixpoint sortDesc (l : list D) : list D :=
  match l with
  | [] => []
  | x :: r => insertDesc x (sortDesc r)
  end.

Definition findSorted (matches : D -> bool) (coll : list D) : list D :=
  sortDesc (filter matches coll).

Definition findById (id : ObjectId) (coll : list D) : option D :=
  List.find (fun x => oid_eqb (idOf x) id) coll.

Definition save (d : D) (coll : list D) : list D :=
  map (fun x => if oid_eqb (idOf x) (idOf d) then d else x) coll.
End Collections.

(** Optional query constraints: an absent key constrains nothing. *)
Definition optMatch {A} (c : option A) (test : A -> bool) : bool :=
  match c with
  | Some a => test a
  | None => true
  end.

Definition geZ (field bound : Z) : bool := (bound <=? field)%Z.
Definition leZ (field bound : Z) : bool := (field <=? bound)%Z.

(** [if (x) query.k = x] for an optional string. *)
Definition keepTruthy (o : option string) : option string :=
  if truthy o then o else None.

(** [Object.assign(doc, dto)] on one field. *)
Definition assign {A} (new : option A) (old : A) : A :=
  match new with
  | Some v => v
  | None => old
  end.

(** ** Documents (models/*.model.ts)

    Numbers are kept as integers; enum-valued string fields that the
    services compare with caller-supplied strings stay strings. *)

Record IProperty : Type := {
  p_id : ObjectId;
  p_type : string;
  p_transactionType : string;
  p_status : string;
  p_price : Z;
  p_area : Z;
  p_city : string;
  p_state : string;
  p_neighborhood : string;
  p_bedrooms : Z;
  p_bathrooms : Z;
  p_parkingSpaces : Z;
  p_agency : ObjectId;
  p_owner : ObjectId;
  p_isActive : bool;
  p_createdAt : Z
}.

Record IContact : Type := {
  c_id : ObjectId;
  c_name : option string;
  c_phone : string;
  c_email : option string;
  c_origin : string;
  c_status : string;
  c_agency : option ObjectId;
  c_assignedTo : option ObjectId;
  c_tags : list string;
  c_urgency : option string;
  c_isActive : bool;
  c_createdAt : Z
}.

Inductive CampaignStatus : Type :=
| DRAFT | SCHEDULED | RUNNING | PAUSED | COMPLETED | CANCELLED.

Definition status_eqb (a b : CampaignStatus) : bool :=
  match a, b with
  | DRAFT, DRAFT | SCHEDULED, SCHEDULED | RUNNING, RUNNING
  | PAUSED, PAUSED | COMPLETED, COMPLETED | CANCELLED, CANCELLED => true
  | _, _ => false
  end.

Record Audience : Type := {
  targetStatus : list string;
  targetTags : list string;
  specificContacts : list ObjectId
}.

Record Message : Type := {
  template : string;
  variables : option (list (string * string))   (* a Map, in insertion order *)
}.

Record Statistics : Type := {
  totalContacts : nat;
  sent : nat;
  failed : nat
}.

Record ICampaign : Type := {
  k_id : ObjectId;
  k_name : string;
  k_type : string;
  k_status : CampaignStatus;
  k_audience : Audience;
  k_message : Message;
  k_evolutionInstanceId : string;
  k_statistics : Statistics;
  k_createdBy : ObjectId;
  k_agency : option ObjectId;
  k_isActive : bool;
  k_rateLimitMs : Z;
  k_createdAt : Z
}.

(** ** Schema validators (models/*.model.ts) *)

Definition PropertyTypes : list string :=
  ["house"; "apartment"; "commercial"; "land"; "farm"; "penthouse"; "studio"].

Definition TransactionTypes : list string := ["sale"; "rent"; "both"].

Definition PropertyStatuses : list string :=
  ["available"; "sold"; "rented"; "reserved"; "unavailable"].

Definition ContactStatuses : list string :=
  ["new"; "contacted"; "qualified"; "negotiating"; "converted";
   "not_interested"; "lost"].

Definition ContactOrigins : list string :=
  ["whatsapp"; "website"; "phone"; "email"; "referral"; "social_media";
   "walk_in"; "AI_ASSISTANT"; "other"].

Definition CampaignTypes : list string := ["broadcast"; "drip"; "targeted"].


(** An enum validator on an assigned path: an absent key is not checked. *)
Definition optIn (o : option string) (l : list string) : bool :=
  match o with
  | Some s => inb s l
  | None => true
  end.

(** The [required] validator on an assigned string path. *)
Definition optRequired (o : option string) : bool :=
  match o with
  | Some s => required s
  | None => true
  end.

(** ** Filters and data-transfer objects *)

Record PropertyFilters : Type := {
  pf_type : option string;
  pf_transactionType : option string;
  pf_status : option string;
  pf_minPrice : option Z;
  pf_maxPrice : option Z;
  pf_minArea : option Z;
  pf_maxArea : option Z;
  pf_city : option string;
  pf_state : option string;
  pf_neighborhood : option string;
  pf_bedrooms : option Z;
  pf_bathrooms : option Z;
  pf_parkingSpaces : option Z;
  pf_agency : option string
}.

(** The body of an update request.  [Object.assign(doc, body)] copies every
    key of the body, so the body has a key for each path the document model
    keeps, apart from [_id] and [createdAt]; the values are of the JSON
    type of the path.  An [address] or [features] object replaces the
    stored one; it is taken to give the components the model keeps. *)
Record AddressDto : Type := {
  addr_city : string;
  addr_state : string;
  addr_neighborhood : string
}.

Record FeaturesDto : Type := {
  ft_bedrooms : Z;
  ft_bathrooms : Z;
  ft_parkingSpaces : Z
}.

Record UpdatePropertyDto : Type := {
  up_type : option string;
  up_transactionType : option string;
  up_status : option string;
  up_price : option Z;
  up_area : option Z;
  up_address : option AddressDto;
  up_features : option FeaturesDto;
  up_agency : option string;
  up_owner : option string;
  up_isActive : option bool
}.

Record ContactFilters : Type := {
  cf_status : option string;
  cf_origin : option string;
  cf_agency : option string;
  cf_assignedTo : option string;
  cf_tags : option (list string);
  cf_urgency : option string
}.

Record UpdateContactDto : Type := {
  uc_name : option string;
  uc_phone : option string;
  uc_email : option string;
  uc_origin : option string;
  uc_status : option string;
  uc_agency : option string;
  uc_assignedTo : option string;
  uc_tags : option (list string);
  uc_urgency : option string;
  uc_isActive : option bool
}.

Record CampaignFilters : Type := {
  kf_agency : option string;
  kf_status : option CampaignStatus;
  kf_type : option string
}.

(** The body of a campaign update.  A [status] is one of the values of the
    enum: [save()] rejects any other, and the document model keeps the
    status as a value of the enum. *)
Record UpdateCampaignDto : Type := {
  uk_name : option string;
  uk_type : option string;
  uk_status : option CampaignStatus;
  uk_audience : option Audience;
  uk_message : option Message;
  uk_evolutionInstanceId : option string;
  uk_statistics : option Statistics;
  uk_createdBy : option string;
  uk_agency : option string;
  uk_isActive : option bool;
  uk_rateLimitMs : option Z
}.

(** ** Queries handed to the store *)

Record PropertyQuery : Type := {
  pq_isActive : option bool;
  pq_agency : option ObjectId;
  pq_type : option string;
  pq_transactionType : option string;
  pq_status : option string;
  pq_price_gte : option Z;
  pq_price_lte : option Z;
  pq_area_gte : option Z;
  pq_area_lte : option Z;
  pq_city : option (string -> bool);
  pq_state : option string;
  pq_neighborhood : option (string -> bool);
  pq_bedrooms_gte : option Z;
  pq_bathrooms_gte : option Z;
  pq_parkingSpaces_gte : option Z
}.

Definition property_matches (q : PropertyQuery) (p : IProperty) : bool :=
  optMatch (pq_isActive q) (Bool.eqb (p_isActive p)) &&
  optMatch (pq_agency q) (oid_eqb (p_agency p)) &&
  optMatch (pq_type q) (String.eqb (p_type p)) &&
  optMatch (pq_transactionType q) (String.eqb (p_transactionType p)) &&
  optMatch (pq_status q) (String.eqb (p_status p)) &&
  optMatch (pq_price_gte q) (geZ (p_price p)) &&
  optMatch (pq_price_lte q) (leZ (p_price p)) &&
  optMatch (pq_area_gte q) (geZ (p_area p)) &&
  optMatch (pq_area_lte q) (leZ (p_area p)) &&
  optMatch (pq_city q) (fun test => test (p_city p)) &&
  optMatch (pq_state q) (String.eqb (p_state p)) &&
  optMatch (pq_neighborhood q) (fun test => test (p_neighborhood p)) &&
  optMatch (pq_bedrooms_gte q) (geZ (p_bedrooms p)) &&
  optMatch (pq_bathrooms_gte q) (geZ (p_bathrooms p)) &&
  optMatch (pq_parkingSpaces_gte q) (geZ (p_parkingSpaces p)).

Record ContactQuery : Type := {
  cq_ids : option (list ObjectId);      (* _id: { $in: [...] } *)
  cq_isActive : option bool;
  cq_agency : option ObjectId;
  cq_assignedTo : option ObjectId;
  cq_status : option string;
  cq_status_in : option (list string);  (* status: { $in: [...] } *)
  cq_origin : option string;
  cq_urgency : option string;
  cq_tags_in : option (list string)     (* tags: { $in: [...] } *)
}.

Definition contact_matches (q : ContactQuery) (c : IContact) : bool :=
  optMatch (cq_ids q) (existsb (oid_eqb (c_id c))) &&
  optMatch (cq_isActive q) (Bool.eqb (c_isActive c)) &&
  optMatch (cq_agency q) (ooid_eqb (c_agency c)) &&
  optMatch (cq_assignedTo q) (ooid_eqb (c_assignedTo c)) &&
  optMatch (cq_status q) (String.eqb (c_status c)) &&
  optMatch (cq_status_in q) (inb (c_status c)) &&
  optMatch (cq_origin q) (String.eqb (c_origin c)) &&
  optMatch (cq_urgency q)
    (fun u => match c_urgency c with Some v => String.eqb v u | None => false end) &&
  optMatch (cq_tags_in q) (fun l => existsb (fun t => inb t l) (c_tags c)).

Definition contactQuery0 : ContactQuery :=
  {| cq_ids := None; cq_isActive := Some true; cq_agency := None;
     cq_assignedTo := None; cq_status := None; cq_status_in := None;
     cq_origin := None; cq_urgency := None; cq_tags_in := None |}.

Definition set_cq_ids (v : list ObjectId) (q : ContactQuery) : ContactQuery :=
  {| cq_ids := Some v; cq_isActive := cq_isActive q; cq_agency := cq_agency q;
     cq_assignedTo := cq_assignedTo q; cq_status := cq_status q;
     cq_status_in := cq_status_in q; cq_origin := cq_origin q;
     cq_urgency := cq_urgency q; cq_tags_in := cq_tags_in q |}.

Definition set_cq_agency (v : ObjectId) (q : ContactQuery) : ContactQuery :=
  {| cq_ids := cq_ids q; cq_isActive := cq_isActive q; cq_agency := Some v;
     cq_assignedTo := cq_assignedTo q; cq_status := cq_status q;
     cq_status_in := cq_status_in q; cq_origin := cq_origin q;
     cq_urgency := cq_urgency q; cq_tags_in := cq_tags_in q |}.

Definition set_cq_assignedTo (v : ObjectId) (q : ContactQuery) : ContactQuery :=
  {| cq_ids := cq_ids q; cq_isActive := cq_isActive q; cq_agency := cq_agency q;
     cq_assignedTo := Some v; cq_status := cq_status q;
     cq_status_in := cq_status_in q; cq_origin := cq_origin q;
     cq_urgency := cq_urgency q; cq_tags_in := cq_tags_in q |}.

Definition set_cq_status (v : string) (q : ContactQuery) : ContactQuery :=
  {| cq_ids := cq_ids q; cq_isActive := cq_isActive q; cq_agency := cq_agency q;
     cq_assignedTo := cq_assignedTo q; cq_status := Some v;
     cq_status_in := cq_status_in q; cq_origin := cq_origin q;
     cq_urgency := cq_urgency q; cq_tags_in := cq_tags_in q |}.

Definition set_cq_status_in (v : list string) (q : ContactQuery) : ContactQuery :=
  {| cq_ids := cq_ids q; cq_isActive := cq_isActive q; cq_agency := cq_agency q;
     cq_assignedTo := cq_assignedTo q; cq_status := cq_status q;
     cq_status_in := Some v; cq_origin := cq_origin q;
     cq_urgency := cq_urgency q; cq_tags_in := cq_tags_in q |}.

Definition set_cq_origin (v : string) (q : ContactQuery) : ContactQuery :=
  {| cq_ids := cq_ids q; cq_isActive := cq_isActive q; cq_agency := cq_agency q;
     cq_assignedTo := cq_assignedTo q; cq_status := cq_status q;
     cq_status_in := cq_status_in q; cq_origin := Some v;
     cq_urgency := cq_urgency q; cq_tags_in := cq_tags_in q |}.

Definition set_cq_urgency (v : string) (q : ContactQuery) : ContactQuery :=
  {| cq_ids := cq_ids q; cq_isActive := cq_isActive q; cq_agency := cq_agency q;
     cq_assignedTo := cq_assignedTo q; cq_status := cq_status q;
     cq_status_in := cq_status_in q; cq_origin := cq_origin q;
     cq_urgency := Some v; cq_tags_in := cq_tags_in q |}.

Definition set_cq_tags_in (v : list string) (q : ContactQuery) : ContactQuery :=
  {| cq_ids := cq_ids q; cq_isActive := cq_isActive q; cq_agency := cq_agency q;
     cq_assignedTo := cq_assignedTo q; cq_status := cq_status q;
     cq_status_in := cq_status_in q; cq_origin := cq_origin q;
     cq_urgency := cq_urgency q; cq_tags_in := Some v |}.

Record CampaignQuery : Type := {
  kq_isActive : option bool;
  kq_agency : option ObjectId;
  kq_status : option CampaignStatus;
  kq_type : option string
}.

Definition campaign_matches (q : CampaignQuery) (k : ICampaign) : bool :=
  optMatch (kq_isActive q) (Bool.eqb (k_isActive k)) &&
  optMatch (kq_agency q) (ooid_eqb (k_agency k)) &&
  optMatch (kq_status q) (status_eqb (k_status k)) &&
  optMatch (kq_type q) (String.eqb (k_type k)).

(** [if (c) q.k = v] as a query transformer. *)
Definition when {Q} (c : bool) (f : Q -> Q) (q : Q) : Q :=
  if c then f q else q.

(** ** The runtime the services rest on

    [Types.ObjectId.isValid], [new Types.ObjectId(s)] ([None] when the
    constructor throws), [new RegExp(src, 'i')] as a test on strings and
    [s.replace(new RegExp(src, 'g'), r)] ([None] when the pattern is
    rejected). *)
Class Runtime : Type := {
  isValid : string -> bool;
  newObjectId : string -> option ObjectId;
  regexI : string -> option (string -> bool);
  regexReplaceAll : string -> string -> string -> option string
}.

Section Services.
Context {rt : Runtime}.

(** [x && Types.ObjectId.isValid(x)] *)
Definition truthyValid (o : option string) : bool :=
  match o with
  | Some s => negb (String.eqb s "") && isValid s
  | None => false
  end.

(** [new Types.ObjectId(x)] for an [x] already known to be defined. *)
Definition mkId (o : option string) : Result ObjectId :=
  match o with
  | Some s => orThrow (newObjectId s) InternalError
  | None => Throw InternalError
  end.

(** The cast of an ObjectId path that the body assigns: an absent key
    assigns nothing, a value that does not cast makes [save()] fail. *)
Definition castKey (o : option string) : Result (option ObjectId) :=
  match o with
  | Some s => a <- orThrow (newObjectId s) InternalError ;; Ok (Some a)
  | None => Ok None
  end.

(** [if (x) query.k = new RegExp(x, 'i')] *)
Definition compileOpt (o : option string) : Result (option (string -> bool)) :=
  match o with
  | Some src =>
      if String.eqb src "" then Ok None
      else t <- orThrow (regexI src) InternalError ;; Ok (Some t)
  | None => Ok None
  end.

(** [Model.findById(id)] with a string id, which Mongoose casts. *)
Definition findByIdString {D} (idOf : D -> ObjectId) (id : string)
    (coll : list D) : Result (option D) :=
  oid <- orThrow (newObjectId id) InternalError ;;
  Ok (findById idOf oid coll).

(** ** PropertiesService *)

(** The agency scoping at the head of [findAll]. *)
Definition PropertiesService_scope (user : AuthenticatedUser)
    (filterAgency : option string) : Result (option ObjectId) :=
  if role_eqb (role user) ADMIN then
    if truthyValid filterAgency then o <- mkId filterAgency ;; Ok (Some o)
    else Ok None
  else if negb (truthy (agencyId user)) then Throw ForbiddenException
  else o <- mkId (agencyId user) ;; Ok (Some o).

Definition PropertiesService_query (user : AuthenticatedUser)
    (filters : option PropertyFilters) : Result PropertyQuery :=
  agency <- PropertiesService_scope user
              (match filters with Some f => pf_agency f | None => None end) ;;
  match filters with
  | None =>
      Ok {| pq_isActive := Some true; pq_agency := agency;
            pq_type := None; pq_transactionType := None; pq_status := None;
            pq_price_gte := None; pq_price_lte := None;
            pq_area_gte := None; pq_area_lte := None;
            pq_city := None; pq_state := None; pq_neighborhood := None;
            pq_bedrooms_gte := None; pq_bathrooms_gte := None;
            pq_parkingSpaces_gte := None |}
  | Some f =>
      city <- compileOpt (pf_city f) ;;
      neighborhood <- compileOpt (pf_neighborhood f) ;;
      Ok {| pq_isActive := Some true; pq_agency := agency;
            pq_type := keepTruthy (pf_type f);
            pq_transactionType := keepTruthy (pf_transactionType f);
            pq_status := keepTruthy (pf_status f);
            pq_price_gte := pf_minPrice f; pq_price_lte := pf_maxPrice f;
            pq_area_gte := pf_minArea f; pq_area_lte := pf_maxArea f;
            pq_city := city;
            pq_state := option_map toUpperCase (keepTruthy (pf_state f));
            pq_neighborhood := neighborhood;
            pq_bedrooms_gte := pf_bedrooms f;
            pq_bathrooms_gte := pf_bathrooms f;
            pq_parkingSpaces_gte := pf_parkingSpaces f |}
  end.

Definition PropertiesService_findAll (user : AuthenticatedUser)
    (filters : option PropertyFilters) (db : list IProperty)
    : Result (list IProperty) :=
  query <- PropertiesService_query user filters ;;
  Ok (findSorted p_createdAt (property_matches query) db).

(** [Object.assign(property, dto)], the ObjectId paths already cast. *)
Definition assignProperty (dto : UpdatePropertyDto)
    (agency owner : option ObjectId) (p : IProperty) : IProperty :=
  {| p_id := p_id p;
     p_type := assign (up_type dto) (p_type p);
     p_transactionType := assign (up_transactionType dto) (p_transactionType p);
     p_status := assign (up_status dto) (p_status p);
     p_price := assign (up_price dto) (p_price p);
     p_area := assign (up_area dto) (p_area p);
     p_city := assign (option_map addr_city (up_address dto)) (p_city p);
     p_state := assign (option_map addr_state (up_address dto)) (p_state p);
     p_neighborhood :=
       assign (option_map addr_neighborhood (up_address dto)) (p_neighborhood p);
     p_bedrooms := assign (option_map ft_bedrooms (up_features dto)) (p_bedrooms p);
     p_bathrooms :=
       assign (option_map ft_bathrooms (up_features dto)) (p_bathrooms p);
     p_parkingSpaces :=
       assign (option_map ft_parkingSpaces (up_features dto)) (p_parkingSpaces p);
     p_agency := assign agency (p_agency p);
     p_owner := assign owner (p_owner p);
     p_isActive := assign (up_isActive dto) (p_isActive p);
     p_createdAt := p_createdAt p |}.

(** The validators of [save()] on the paths an update assigns.  The other
    paths hold what an earlier, validated [save()] stored. *)
Definition validPropertyUpdate (dto : UpdatePropertyDto) : bool :=
  optIn (up_type dto) PropertyTypes
  && optIn (up_transactionType dto) TransactionTypes
  && optIn (up_status dto) PropertyStatuses.

(** [property.isActive = false] *)
Definition deactivateProperty (p : IProperty) : IProperty :=
  {| p_id := p_id p; p_type := p_type p;
     p_transactionType := p_transactionType p; p_status := p_status p;
     p_price := p_price p; p_area := p_area p; p_city := p_city p;
     p_state := p_state p; p_neighborhood := p_neighborhood p;
     p_bedrooms := p_bedrooms p; p_bathrooms := p_bathrooms p;
     p_parkingSpaces := p_parkingSpaces p; p_agency := p_agency p;
     p_owner := p_owner p; p_isActive := false; p_createdAt := p_createdAt p |}.

(** The permission check shared by [update] and [remove] of properties. *)
Definition PropertiesService_mayModify (user : AuthenticatedUser)
    (p : IProperty) : Result unit :=
  match role user with
  | ADMIN => Ok tt
  | MANAGER =>
      if negb (sameString (toString (p_agency p)) (agencyId user))
      then Throw ForbiddenException else Ok tt
  | _ => Throw ForbiddenException
  end.

Definition PropertiesService_update (id : string) (dto : UpdatePropertyDto)
    (user : AuthenticatedUser) (db : list IProperty)
    : Result IProperty * list IProperty :=
  if negb (isValid id) then (Throw BadRequestException, db) else
  match findByIdString p_id id db with
  | Throw e => (Throw e, db)
  | Ok None => (Throw NotFoundException, db)
  | Ok (Some property) =>
      match PropertiesService_mayModify user property with
      | Throw e => (Throw e, db)
      | Ok _ =>
          match castKey (up_agency dto), castKey (up_owner dto) with
          | Ok agency, Ok owner =>
              if validPropertyUpdate dto then
                let property' := assignProperty dto agency owner property in
                (Ok property', save p_id property' db)
              else (Throw InternalError, db)
          | _, _ => (Throw InternalError, db)
          end
      end
  end.

Definition PropertiesService_remove (id : string)
    (user : AuthenticatedUser) (db : list IProperty)
    : Result unit * list IProperty :=
  if negb (isValid id) then (Throw BadRequestException, db) else
  match findByIdString p_id id db with
  | Throw e => (Throw e, db)
  | Ok None => (Throw NotFoundException, db)
  | Ok (Some property) =>
      match PropertiesService_mayModify user property with
      | Throw e => (Throw e, db)
      | Ok _ => (Ok tt, save p_id (deactivateProperty property) db)
      end
  end.

(** ** ContactsService *)

Definition ContactsService_query (user : AuthenticatedUser)
    (filters : option ContactFilters) : Result ContactQuery :=
  let query := contactQuery0 in
  scoped <-
    (if role_eqb (role user) ADMIN then
       if truthyValid (match filters with Some f => cf_agency f | None => None end)
       then o <- mkId (match filters with Some f => cf_agency f | None => None end) ;;
            Ok (set_cq_agency o query)
       else Ok query
     else if negb (truthy (agencyId user)) then Throw ForbiddenException
     else
       o <- mkId (agencyId user) ;;
       let query := set_cq_agency o query in
       if role_eqb (role user) AGENT then
         u <- orThrow (newObjectId (userId user)) InternalError ;;
         Ok (set_cq_assignedTo u query)
       else Ok query) ;;
  match filters with
  | None => Ok scoped
  | Some f =>
      let query := scoped in
      let query := when (truthy (cf_status f)) (set_cq_status (orElse (cf_status f) "")) query in
      let query := when (truthy (cf_origin f)) (set_cq_origin (orElse (cf_origin f) "")) query in
      let query := when (truthy (cf_urgency f)) (set_cq_urgency (orElse (cf_urgency f) "")) query in
      query <-
        (if truthyValid (cf_assignedTo f)
         then a <- mkId (cf_assignedTo f) ;; Ok (set_cq_assignedTo a query)
         else Ok query) ;;
      match cf_tags f with
      | Some (t :: ts) => Ok (set_cq_tags_in (t :: ts) query)
      | _ => Ok query
      end
  end.

Definition ContactsService_findAll (user : AuthenticatedUser)
    (filters : option ContactFilters) (db : list IContact)
    : Result (list IContact) :=
  query <- ContactsService_query user filters ;;
  Ok (findSorted c_createdAt (contact_matches query) db).

(** [contact.agency && contact.agency.toString() !== user.agencyId] *)
Definition foreignAgency (agency : option ObjectId) (user : AuthenticatedUser) : bool :=
  match agency with
  | Some a => negb (sameString (toString a) (agencyId user))
  | None => false
  end.

(** [contact.assignedTo?.toString() !== user.userId] *)
Definition notAssignedTo (assignee : option ObjectId) (user : AuthenticatedUser) : bool :=
  match assignee with
  | Some a => negb (String.eqb (toString a) (userId user))
  | None => true
  end.

Definition ContactsService_findOne (id : string) (user : AuthenticatedUser)
    (db : list IContact) : Result IContact :=
  if negb (isValid id) then Throw BadRequestException else
  found <- findByIdString c_id id db ;;
  match found with
  | None => Throw NotFoundException
  | Some contact =>
      if role_eqb (role user) ADMIN then Ok contact
      else if foreignAgency (c_agency contact) user then Throw ForbiddenException
      else if role_eqb (role user) AGENT && notAssignedTo (c_assignedTo contact) user
      then Throw ForbiddenException
      else Ok contact
  end.

(** [Object.assign(contact, dto)] followed by the two explicit casts, the
    ObjectId paths already cast. *)
Definition assignContact (dto : UpdateContactDto)
    (agency assignee : option ObjectId) (c : IContact) : IContact :=
  {| c_id := c_id c;
     c_name := match uc_name dto with Some v => Some v | None => c_name c end;
     c_phone := assign (uc_phone dto) (c_phone c);
     c_email := match uc_email dto with Some v => Some v | None => c_email c end;
     c_origin := assign (uc_origin dto) (c_origin c);
     c_status := assign (uc_status dto) (c_status c);
     c_agency := match agency with Some a => Some a | None => c_agency c end;
     c_assignedTo := match assignee with Some a => Some a | None => c_assignedTo c end;
     c_tags := assign (uc_tags dto) (c_tags c);
     c_urgency := match uc_urgency dto with Some v => Some v | None => c_urgency c end;
     c_isActive := assign (uc_isActive dto) (c_isActive c);
     c_createdAt := c_createdAt c |}.

(** The validators of [save()] on the paths an update assigns. *)
Definition validContactUpdate (dto : UpdateContactDto) : bool :=
  optRequired (uc_name dto) && optRequired (uc_phone dto)
  && optIn (uc_origin dto) ContactOrigins
  && optIn (uc_status dto) ContactStatuses.

Definition deactivateContact (c : IContact) : IContact :=
  {| c_id := c_id c; c_name := c_name c; c_phone := c_phone c;
     c_email := c_email c; c_origin := c_origin c; c_status := c_status c;
     c_agency := c_agency c; c_assignedTo := c_assignedTo c;
     c_tags := c_tags c; c_urgency := c_urgency c;
     c_isActive := false; c_createdAt := c_createdAt c |}.

Definition ContactsService_update (id : string) (dto : UpdateContactDto)
    (user : AuthenticatedUser) (db : list IContact)
    : Result IContact * list IContact :=
  if negb (isValid id) then (Throw BadRequestException, db) else
  match findByIdString c_id id db with
  | Throw e => (Throw e, db)
  | Ok None => (Throw NotFoundException, db)
  | Ok (Some contact) =>
      let permission :=
        match role user with
        | ADMIN => Ok tt
        | MANAGER =>
            if foreignAgency (c_agency contact) user
            then Throw ForbiddenException else Ok tt
        | AGENT =>
            if notAssignedTo (c_assignedTo contact) user
            then Throw ForbiddenException else Ok tt
        | VIEWER => Throw ForbiddenException
        end in
      match permission with
      | Throw e => (Throw e, db)
      | Ok _ =>
          if truthy (uc_assignedTo dto) && negb (truthyValid (uc_assignedTo dto))
          then (Throw BadRequestException, db)
          else
            match (if truthy (uc_assignedTo dto)
                   then a <- mkId (uc_assignedTo dto) ;; Ok (Some a)
                   else Ok None),
                  castKey (uc_agency dto) with
            | Ok a, Ok agency =>
                if validContactUpdate dto then
                  let contact' := assignContact dto agency a contact in
                  (Ok contact', save c_id contact' db)
                else (Throw InternalError, db)
            | _, _ => (Throw InternalError, db)
            end
      end
  end.

Definition ContactsService_remove (id : string)
    (user : AuthenticatedUser) (db : list IContact)
    : Result unit * list IContact :=
  if negb (isValid id) then (Throw BadRequestException, db) else
  match findByIdString c_id id db with
  | Throw e => (Throw e, db)
  | Ok None => (Throw NotFoundException, db)
  | Ok (Some contact) =>
      let permission :=
        match role user with
        | ADMIN => Ok tt
        | MANAGER =>
            if foreignAgency (c_agency contact) user
            then Throw ForbiddenException else Ok tt
        | _ => Throw ForbiddenException
        end in
      match permission with
      | Throw e => (Throw e, db)
      | Ok _ => (Ok tt, save c_id (deactivateContact contact) db)
      end
  end.

(** ** CampaignsService *)

Definition CampaignsService_query (user : AuthenticatedUser)
    (filters : option CampaignFilters) : Result CampaignQuery :=
  agency <-
    (if role_eqb (role user) ADMIN then
       if truthyValid (match filters with Some f => kf_agency f | None => None end)
       then o <- mkId (match filters with Some f => kf_agency f | None => None end) ;;
            Ok (Some o)
       else Ok None
     else if negb (truthy (agencyId user)) then Throw ForbiddenException
     else o <- mkId (agencyId user) ;; Ok (Some o)) ;;
  Ok {| kq_isActive := Some true; kq_agency := agency;
        kq_status := match filters with Some f => kf_status f | None => None end;
        kq_type := match filters with
                   | Some f => keepTruthy (kf_type f)
                   | None => None
                   end |}.

Definition CampaignsService_findAll (user : AuthenticatedUser)
    (filters : option CampaignFilters) (db : list ICampaign)
    : Result (list ICampaign) :=
  query <- CampaignsService_query user filters ;;
  Ok (findSorted k_createdAt (campaign_matches query) db).

Definition setCampaign (status : CampaignStatus) (stats : Statistics)
    (active : bool) (k : ICampaign) : ICampaign :=
  {| k_id := k_id k; k_name := k_name k; k_type := k_type k;
     k_status := status; k_audience := k_audience k;
     k_message := k_message k;
     k_evolutionInstanceId := k_evolutionInstanceId k;
     k_statistics := stats; k_createdBy := k_createdBy k;
     k_agency := k_agency k; k_isActive := active;
     k_rateLimitMs := k_rateLimitMs k; k_createdAt := k_createdAt k |}.

Definition setStatus (status : CampaignStatus) (k : ICampaign) : ICampaign :=
  setCampaign status (k_statistics k) (k_isActive k) k.

(** [Object.assign(campaign, dto)], the ObjectId paths already cast. *)
Definition assignCampaign (dto : UpdateCampaignDto)
    (creator agency : option ObjectId) (k : ICampaign) : ICampaign :=
  {| k_id := k_id k; k_name := assign (uk_name dto) (k_name k);
     k_type := assign (uk_type dto) (k_type k);
     k_status := assign (uk_status dto) (k_status k);
     k_audience := assign (uk_audience dto) (k_audience k);
     k_message := assign (uk_message dto) (k_message k);
     k_evolutionInstanceId :=
       assign (uk_evolutionInstanceId dto) (k_evolutionInstanceId k);
     k_statistics := assign (uk_statistics dto) (k_statistics k);
     k_createdBy := assign creator (k_createdBy k);
     k_agency := match agency with Some a => Some a | None => k_agency k end;
     k_isActive := assign (uk_isActive dto) (k_isActive k);
     k_rateLimitMs := assign (uk_rateLimitMs dto) (k_rateLimitMs k);
     k_createdAt := k_createdAt k |}.

(** The validators of [save()] on the paths an update assigns. *)
Definition validCampaignUpdate (dto : UpdateCampaignDto) : bool :=
  optRequired (uk_name dto) && optIn (uk_type dto) CampaignTypes
  && optRequired (option_map template (uk_message dto))
  && optRequired (uk_evolutionInstanceId dto).

(** [campaign.agency.toString() !== user.agencyId]; reading [toString] of an
    absent agency throws. *)
Definition campaignAgencyDiffers (k : ICampaign) (user : AuthenticatedUser)
    : Result bool :=
  match k_agency k with
  | Some a => Ok (negb (sameString (toString a) (agencyId user)))
  | None => Throw InternalError
  end.

(** The permission check shared by [update] and [remove] of campaigns. *)
Definition CampaignsService_mayModify (user : AuthenticatedUser)
    (k : ICampaign) : Result unit :=
  match role user with
  | ADMIN => Ok tt
  | MANAGER =>
      differs <- campaignAgencyDiffers k user ;;
      if differs then Throw ForbiddenException else Ok tt
  | _ => Throw ForbiddenException
  end.

Definition CampaignsService_update (id : string) (dto : UpdateCampaignDto)
    (user : AuthenticatedUser) (db : list ICampaign)
    : Result ICampaign * list ICampaign :=
  if negb (isValid id) then (Throw BadRequestException, db) else
  match findByIdString k_id id db with
  | Throw e => (Throw e, db)
  | Ok None => (Throw NotFoundException, db)
  | Ok (Some campaign) =>
      match CampaignsService_mayModify user campaign with
      | Throw e => (Throw e, db)
      | Ok _ =>
          if status_eqb (k_status campaign) RUNNING
          then (Throw BadRequestException, db)
          else
            match castKey (uk_createdBy dto), castKey (uk_agency dto) with
            | Ok creator, Ok agency =>
                if validCampaignUpdate dto then
                  let campaign' := assignCampaign dto creator agency campaign in
                  (Ok campaign', save k_id campaign' db)
                else (Throw InternalError, db)
            | _, _ => (Throw InternalError, db)
            end
      end
  end.

Definition CampaignsService_remove (id : string)
    (user : AuthenticatedUser) (db : list ICampaign)
    : Result unit * list ICampaign :=
  if negb (isValid id) then (Throw BadRequestException, db) else
  match findByIdString k_id id db with
  | Throw e => (Throw e, db)
  | Ok None => (Throw NotFoundException, db)
  | Ok (Some campaign) =>
      match CampaignsService_mayModify user campaign with
      | Throw e => (Throw e, db)
      | Ok _ =>
          if status_eqb (k_status campaign) RUNNING
          then (Throw BadRequestException, db)
          else
            (Ok tt,
             save k_id (setCampaign (k_status campaign)
                          (k_statistics campaign) false campaign) db)
      end
  end.

(** [audience.xs && audience.xs.length > 0] *)
Definition nonEmpty {A} (l : list A) : bool :=
  match l with
  | [] => false
  | _ :: _ => true
  end.

Definition CampaignsService_audienceQuery (agency : option ObjectId)
    (audience : Audience) : ContactQuery :=
  let query :=
    {| cq_ids := None; cq_isActive := Some true; cq_agency := agency;
       cq_assignedTo := None; cq_status := None; cq_status_in := None;
       cq_origin := None; cq_urgency := None; cq_tags_in := None |} in
  let query := when (nonEmpty (targetStatus audience))
                 (set_cq_status_in (targetStatus audience)) query in
  when (nonEmpty (targetTags audience))
    (set_cq_tags_in (targetTags audience)) query.

Definition CampaignsService_calculateAudienceCount (audience : Audience)
    (agencyId : string) (contacts : list IContact) : Result nat :=
  agency <- orThrow (newObjectId agencyId) InternalError ;;
  if nonEmpty (specificContacts audience)
  then Ok (List.length (specificContacts audience))
  else Ok (List.length
             (filter (contact_matches
                        (CampaignsService_audienceQuery (Some agency) audience))
                     contacts)).

Definition CampaignsService_getAudienceContacts (campaign : ICampaign)
    (contacts : list IContact) : list IContact :=
  let audience := k_audience campaign in
  if nonEmpty (specificContacts audience) then
    filter (contact_matches (set_cq_ids (specificContacts audience) contactQuery0))
           contacts
  else
    filter (contact_matches
              (CampaignsService_audienceQuery (k_agency campaign) audience))
           contacts.

(** [replaceVariables]: [None] when building a pattern from a key throws. *)
Fixpoint replaceGlobals (variables : list (string * string)) (message : string)
    : option string :=
  match variables with
  | [] => Some message
  | (key, value) :: rest =>
      match regexReplaceAll ("{{" ++ key ++ "}}") message value with
      | Some message' => replaceGlobals rest message'
      | None => None
      end
  end.

Definition replaceContactFields (contact : IContact) (message : string) : string :=
  let message := replaceAllLiteral "{{contact.name}}"
                   (orElse (c_name contact) "Cliente") message in
  let message := replaceAllLiteral "{{contact.email}}"
                   (orElse (c_email contact) "") message in
  replaceAllLiteral "{{contact.phone}}" (c_phone contact) message.

Definition CampaignsService_replaceVariables (template : string)
    (variables : list (string * string)) (contact : IContact) : option string :=
  option_map (replaceContactFields contact) (replaceGlobals variables template).

(** *** Campaign execution

    The messaging bridge is an oracle: the [n]-th call of
    [sendTextMessage(instance, { number, text })] either returns ([true]) or
    throws ([false]).  What the executor does to the outside world is kept
    as a trace. *)

Inductive Effect : Type :=
| Delay (ms : Z)
| SendText (instance number text : string).

Definition Bridge : Type := nat -> string -> string -> string -> bool.

Record LoopState : Type := {
  ls_sent : nat;
  ls_failed : nat;
  ls_calls : nat;
  ls_trace : list Effect
}.

(** The rate-limit pause at the head of the loop body. *)
Definition rateLimit (campaign : ICampaign) : list Effect :=
  if (0 <? k_rateLimitMs campaign)%Z then [Delay (k_rateLimitMs campaign)] else [].

(** One iteration of [for (const contact of contacts) { try { ... } catch { ... } }]. *)
Definition sendStep (bridge : Bridge) (campaign : ICampaign)
    (st : LoopState) (contact : IContact) : LoopState :=
  let paused := ls_trace st ++ rateLimit campaign in
  let variablesObj :=
    match variables (k_message campaign) with
    | Some m => m
    | None => []
    end in
  match CampaignsService_replaceVariables
          (template (k_message campaign)) variablesObj contact with
  | None =>
      {| ls_sent := ls_sent st; ls_failed := S (ls_failed st);
         ls_calls := ls_calls st; ls_trace := paused |}
  | Some message =>
      let effect :=
        SendText (k_evolutionInstanceId campaign) (c_phone contact) message in
      if bridge (ls_calls st) (k_evolutionInstanceId campaign)
                (c_phone contact) message
      then {| ls_sent := S (ls_sent st); ls_failed := ls_failed st;
              ls_calls := S (ls_calls st); ls_trace := paused ++ [effect] |}
      else {| ls_sent := ls_sent st; ls_failed := S (ls_failed st);
              ls_calls := S (ls_calls st); ls_trace := paused ++ [effect] |}
  end.

Definition sendLoop (bridge : Bridge) (campaign : ICampaign)
    (contacts : list IContact) : LoopState :=
  fold_left (sendStep bridge campaign) contacts
    {| ls_sent := 0; ls_failed := 0; ls_calls := 0; ls_trace := [] |}.

Record Executed : Type := {
  ex_result : Result (nat * nat);   (* the counts reported in the message *)
  ex_campaigns : list ICampaign;
  ex_trace : list Effect
}.

Definition stopped (e : HttpException) (db : list ICampaign) : Executed :=
  {| ex_result := Throw e; ex_campaigns := db; ex_trace := [] |}.

Definition CampaignsService_execute (bridge : Bridge) (id : string)
    (user : AuthenticatedUser) (db : list ICampaign) (contactsDb : list IContact)
    : Executed :=
  if negb (isValid id) then stopped BadRequestException db else
  match findByIdString k_id id db with
  | Throw e => stopped e db
  | Ok None => stopped NotFoundException db
  | Ok (Some campaign) =>
      match (if role_eqb (role user) ADMIN then Ok false
             else campaignAgencyDiffers campaign user) with
      | Throw e => stopped e db
      | Ok true => stopped ForbiddenException db
      | Ok false =>
          if status_eqb (k_status campaign) RUNNING
          then stopped BadRequestException db
          else if status_eqb (k_status campaign) COMPLETED
          then stopped BadRequestException db
          else
            let campaign := setStatus RUNNING campaign in
            let db := save k_id campaign db in
            let contacts := CampaignsService_getAudienceContacts campaign contactsDb in
            match contacts with
            | [] =>
                let campaign := setStatus COMPLETED campaign in
                stopped BadRequestException (save k_id campaign db)
            | _ :: _ =>
                let final := sendLoop bridge campaign contacts in
                let stats :=
                  {| totalContacts := totalContacts (k_statistics campaign);
                     sent := ls_sent final; failed := ls_failed final |} in
                let campaign := setCampaign COMPLETED stats (k_isActive campaign) campaign in
                {| ex_result := Ok (ls_sent final, ls_failed final);
                   ex_campaigns := save k_id campaign db;
                   ex_trace := ls_trace final |}
            end
      end
  end.

(** What one iteration adds to the trace. *)
Definition stepEffects (campaign : ICampaign) (contact : IContact) : list Effect :=
  rateLimit campaign ++
  match CampaignsService_replaceVariables (template (k_message campaign))
          (match variables (k_message campaign) with Some m => m | None => [] end)
          contact with
  | Some message =>
      [SendText (k_evolutionInstanceId campaign) (c_phone contact) message]
  | None => []
  end.

(** The message the loop builds for a contact; [None] when building it
    throws. *)
Definition renderFor (campaign : ICampaign) (contact : IContact) : option string :=
  CampaignsService_replaceVariables (template (k_message campaign))
    (match variables (k_message campaign) with Some m => m | None => [] end)
    contact.

(** The sends the loop hands to the bridge, in order (instance, number,
    text): one for each contact whose message could be built. *)
Definition attempts (campaign : ICampaign) (contacts : list IContact)
    : list (string * string * string) :=
  flat_map (fun contact =>
              match renderFor campaign contact with
              | Some message =>
                  [(k_evolutionInstanceId campaign, c_phone contact, message)]
              | None => []
              end)
           contacts.

(** The contacts for which building the message throws. *)
Definition unrendered (campaign : ICampaign) (contacts : list IContact)
    : list IContact :=
  filter (fun contact => negb (isSome (renderFor campaign contact))) contacts.

(** What the bridge answers to a sequence of sends, the first of them being
    its [k]-th call: [true] when the call returns, [false] when it throws. *)
Fixpoint bridgeReplies (bridge : Bridge) (k : nat)
    (sends : list (string * string * string)) : list bool :=
  match sends with
  | [] => []
  | (instance, number, text) :: rest =>
      bridge k instance number text :: bridgeReplies bridge (S k) rest
  end.

(** The guards of [execute] that come before the audience is resolved. *)
Definition mayExecute (id : string) (user : AuthenticatedUser)
    (db : list ICampaign) (campaign : ICampaign) : Prop :=
  isValid id = true /\
  (exists i, newObjectId id = Some i /\ findById k_id i db = Some campaign) /\
  (role user = ADMIN \/
   exists a, k_agency campaign = Some a /\ agencyId user = Some (toString a)) /\
  k_status campaign <> RUNNING /\ k_status campaign <> COMPLETED.

(** ** Users and agencies (user.model.ts, agency.model.ts) *)

Record IUser : Type := {
  u_id : ObjectId;
  u_email : string;
  u_password : string;
  u_name : string;
  u_phone : option string;
  u_agencyId : option string;
  u_role : UserRole;
  u_isActive : bool
}.

Record IAgency : Type := {
  a_id : ObjectId;
  a_name : string;
  a_cnpj : string;
  a_owner : ObjectId;
  a_members : list ObjectId;
  a_isActive : bool
}.

(** The [enum: Object.values(UserRole)] validator of the user schema. *)
Definition parseRole (s : string) : option UserRole :=
  List.find (fun r => String.eqb (UserRole_value r) s) UserRoles.

(** ** AuthService *)

Record RegisterDto : Type := {
  r_email : string;
  r_password : string;
  r_name : string;
  r_phone : option string;
  r_role : option string
}.

Record JwtPayload : Type := {
  jwt_sub : string;
  jwt_email : string;
  jwt_role : UserRole;
  jwt_agencyId : option string
}.

Record AuthResponse : Type := {
  accessToken : string;
  ar_id : string;
  ar_email : string;
  ar_name : string;
  ar_role : UserRole;
  ar_agencyId : option string
}.

(** [bcrypt.hash(password, 10)] and [jwt.sign(payload, secret, options)]. *)
Class Crypto : Type := {
  bcryptHash : string -> string;
  jwtSign : JwtPayload -> string
}.

Context {crypto : Crypto}.

Definition AuthService_generateToken (user : IUser) : string :=
  jwtSign {| jwt_sub := toString (u_id user); jwt_email := u_email user;
             jwt_role := u_role user; jwt_agencyId := u_agencyId user |}.

(** [UserModel.create(doc)]: the schema requires [email], [password] and
    [name] and validates [role] against the enum; a document that fails is
    rejected with a ValidationError and nothing is stored.  [freshId] is the
    [_id] the driver generates. *)
Definition UserModel_create (freshId : ObjectId) (email password name : string)
    (phone : option string) (roleName : string) (users : list IUser)
    : Result IUser :=
  if required email && required password && required name then
    match parseRole roleName with
    | None => Throw InternalError
    | Some r =>
        Ok {| u_id := freshId; u_email := email; u_password := password;
              u_name := name; u_phone := phone; u_agencyId := None;
              u_role := r; u_isActive := true |}
    end
  else Throw InternalError.

Definition AuthService_register (freshId : ObjectId) (dto : RegisterDto)
    (users : list IUser) : Result AuthResponse * list IUser :=
  match List.find (fun u => String.eqb (u_email u) (r_email dto)) users with
  | Some _ => (Throw BadRequestException, users)
  | None =>
      let hashedPassword := bcryptHash (r_password dto) in
      match UserModel_create freshId (r_email dto) hashedPassword (r_name dto)
              (r_phone dto) (orElse (r_role dto) "viewer") users with
      | Throw e => (Throw e, users)
      | Ok user =>
          (Ok {| accessToken := AuthService_generateToken user;
                 ar_id := toString (u_id user); ar_email := u_email user;
                 ar_name := u_name user; ar_role := u_role user;
                 ar_agencyId := u_agencyId user |},
           users ++ [user])
      end
  end.

(** ** AgenciesService *)

Record Tenancy : Type := {
  agencies : list IAgency;
  users : list IUser
}.

Definition setMembers (members : list ObjectId) (a : IAgency) : IAgency :=
  {| a_id := a_id a; a_name := a_name a; a_cnpj := a_cnpj a;
     a_owner := a_owner a; a_members := members; a_isActive := a_isActive a |}.

Definition setAgencyId (agency : option string) (u : IUser) : IUser :=
  {| u_id := u_id u; u_email := u_email u; u_password := u_password u;
     u_name := u_name u; u_phone := u_phone u; u_agencyId := agency;
     u_role := u_role u; u_isActive := u_isActive u |}.

(** [UserModel.findByIdAndUpdate(id, { agencyId })] *)
Definition UserModel_setAgency (id : ObjectId) (agency : option string)
    (coll : list IUser) : list IUser :=
  map (fun u => if oid_eqb (u_id u) id then setAgencyId agency u else u) coll.

(** [removeMember(agencyId, userId, user)]; the second argument is named
    [targetId] here. *)
Definition AgenciesService_removeMember (agencyId targetId : string)
    (user : AuthenticatedUser) (st : Tenancy) : Result IAgency * Tenancy :=
  if negb (isValid agencyId) || negb (isValid targetId)
  then (Throw BadRequestException, st) else
  match findByIdString a_id agencyId (agencies st) with
  | Throw e => (Throw e, st)
  | Ok None => (Throw NotFoundException, st)
  | Ok (Some agency) =>
      if negb (role_eqb (role user) ADMIN)
         && negb (String.eqb (toString (a_owner agency)) (userId user))
      then (Throw ForbiddenException, st)
      else if String.eqb (toString (a_owner agency)) targetId
      then (Throw BadRequestException, st)
      else
        let agency :=
          setMembers
            (filter (fun m => negb (String.eqb (toString m) targetId))
                    (a_members agency)) agency in
        let st := {| agencies := save a_id agency (agencies st);
                     users := users st |} in
        match newObjectId targetId with
        | None => (Throw InternalError, st)
        | Some uid =>
            (Ok agency,
             {| agencies := agencies st;
                users := UserModel_setAgency uid None (users st) |})
        end
  end.

(** ** AgentsService *)

Inductive SessionStatus : Type :=
| S_ACTIVE | S_COMPLETED | S_ARCHIVED | S_ERROR.

Inductive AgentStatus : Type :=
| IDLE | THINKING | EXECUTING | WAITING | A_COMPLETED | A_ERROR.

(** Parsed JSON values, [JSON.parse] ([None] when it throws), the bodies of
    the four tools (each catches its own failures and returns a string),
    the three canned system prompts and the demo-mode text. *)
Class AgentRuntime : Type := {
  Json : Type;
  JSON_parse : string -> option Json;
  searchProperties : Json -> AuthenticatedUser -> string;
  getPropertyDetails : Json -> AuthenticatedUser -> string;
  searchContacts : Json -> AuthenticatedUser -> string;
  sendWhatsappMessage : Json -> AuthenticatedUser -> string;
  promptGeneral : string;
  promptQualifier : string;
  promptAdvisor : string;
  stubResponse : string -> string
}.

Context {art : AgentRuntime}.

Record IMessage : Type := {
  m_role : string;
  m_content : string;
  m_metadata : option (string * Json)     (* { toolName, args } *)
}.

Record IAgentSession : Type := {
  s_id : ObjectId;
  s_userId : string;
  s_agencyId : string;
  s_agentType : string;
  s_status : SessionStatus;
  s_agentStatus : AgentStatus;
  s_originalGoal : option string;          (* context?.originalGoal *)
  s_messages : list IMessage;
  s_messageCount : nat
}.

Definition updateSession (status : SessionStatus) (agentStatus : AgentStatus)
    (messages : list IMessage) (count : nat)
    (s : IAgentSession) : IAgentSession :=
  {| s_id := s_id s; s_userId := s_userId s; s_agencyId := s_agencyId s;
     s_agentType := s_agentType s; s_status := status;
     s_agentStatus := agentStatus; s_originalGoal := s_originalGoal s;
     s_messages := messages; s_messageCount := count |}.

Definition setAgentStatus (a : AgentStatus) (s : IAgentSession) : IAgentSession :=
  updateSession (s_status s) a (s_messages s) (s_messageCount s) s.

(** [session.messages = ms; session.agentStatus = a;
     session.messageCount = session.messages.length] *)
Definition setTranscript (a : AgentStatus) (ms : list IMessage)
    (s : IAgentSession) : IAgentSession :=
  updateSession (s_status s) a ms (List.length ms) s.

Record Tool : Type := {
  t_name : string;
  t_execute : Json -> AuthenticatedUser -> string
}.

Definition getToolsForAgent (user : AuthenticatedUser) : list Tool :=
  [ {| t_name := "search_properties"; t_execute := searchProperties |};
    {| t_name := "get_property_details"; t_execute := getPropertyDetails |};
    {| t_name := "search_contacts"; t_execute := searchContacts |};
    {| t_name := "send_whatsapp_message"; t_execute := sendWhatsappMessage |} ].

Definition findTool (tools : list Tool) (name : string) : option Tool :=
  List.find (fun t => String.eqb (t_name t) name) tools.

Definition getSystemPrompt (agentType : string) : string :=
  if String.eqb agentType "general_assistant" then promptGeneral
  else if String.eqb agentType "lead_qualifier" then promptQualifier
  else if String.eqb agentType "property_advisor" then promptAdvisor
  else promptGeneral.

Record AiConfig : Type := {
  cfg_provider : string;          (* process.env.AI_PROVIDER || 'openai' *)
  cfg_apiKey : option string
}.

Definition cfg_enabled (c : AiConfig) : bool := truthy (cfg_apiKey c).

(** [getOpenAIInstance] / [getGeminiInstance] return a client or [null]. *)
Definition hasInstance (c : AiConfig) (provider : string) : bool :=
  cfg_enabled c && String.eqb (cfg_provider c) provider.

(** An entry recording a tool result. *)
Definition toolMessage (tool : Tool) (args : Json) (result : string) : IMessage :=
  {| m_role := "assistant";
     m_content := ("[Ferramenta: " ++ t_name tool ++ "] " ++ result)%string;
     m_metadata := Some (t_name tool, args) |}.

Definition assistantMessage (content : string) : IMessage :=
  {| m_role := "assistant"; m_content := content; m_metadata := None |}.

Inductive Outcome : Type :=
| Returned      (* the call returned *)
| Threw         (* an exception left the call *)
| Awaiting.     (* the provider was called and the script has no reply left *)

Record AgentRun (Call : Type) : Type := {
  run_outcome : Outcome;
  run_sessions : list IAgentSession;
  run_calls : list Call                    (* provider invocations, in order *)
}.

Definition finish {Call} (o : Outcome) (db : list IAgentSession) : AgentRun Call :=
  {| run_outcome := o; run_sessions := db; run_calls := [] |}.

Definition called {Call} (c : Call) (r : AgentRun Call) : AgentRun Call :=
  {| run_outcome := run_outcome r; run_sessions := run_sessions r;
     run_calls := c :: run_calls r |}.

Definition AgentsService_executeStubMode {Call} (sessionId : ObjectId)
    (db : list IAgentSession) : AgentRun Call :=
  match findById s_id sessionId db with
  | None => finish Returned db
  | Some session =>
      let goal := orElse (s_originalGoal session) "Objetivo não especificado" in
      let messages := s_messages session ++ [assistantMessage (stubResponse goal)] in
      finish Returned
        (save s_id (updateSession S_COMPLETED IDLE messages (List.length messages)
                      session) db)
  end.

(** *** OpenAI *)

Record ToolCall : Type := {
  tc_type : string;
  tc_name : string;                        (* function.name *)
  tc_arguments : string                    (* function.arguments *)
}.

Record AssistantMessage : Type := {
  am_content : option string;
  am_tool_calls : option (list ToolCall)
}.

Definition openAIPrompt (session : IAgentSession) : list (string * string) :=
  ("system", getSystemPrompt (s_agentType session))
  :: map (fun msg => (m_role msg, m_content msg)) (s_messages session).

(** The [for (const toolCall of assistantMessage.tool_calls)] loop;
    [None] when [JSON.parse] throws. *)
Fixpoint openAIToolCalls (tools : list Tool) (user : AuthenticatedUser)
    (calls : list ToolCall) (messages : list IMessage) : option (list IMessage) :=
  match calls with
  | [] => Some messages
  | toolCall :: rest =>
      if negb (String.eqb (tc_type toolCall) "function")
      then openAIToolCalls tools user rest messages
      else
        match findTool tools (tc_name toolCall) with
        | None => openAIToolCalls tools user rest messages
        | Some tool =>
            match JSON_parse (tc_arguments toolCall) with
            | None => None
            | Some args =>
                openAIToolCalls tools user rest
                  (messages ++ [toolMessage tool args (t_execute tool args user)])
            end
        end
  end.

(** [executeWithOpenAI]: the provider answers the successive
    [chat.completions.create] calls with the entries of [script]
    ([None]: the call throws). *)
Fixpoint AgentsService_executeWithOpenAI (config : AiConfig)
    (script : list (option AssistantMessage)) (sessionId : ObjectId)
    (user : AuthenticatedUser) (db : list IAgentSession)
    : AgentRun (list (string * string)) :=
  match findById s_id sessionId db with
  | None => finish Returned db
  | Some session =>
      if negb (hasInstance config "openai")
      then AgentsService_executeStubMode sessionId db
      else
        let tools := getToolsForAgent user in
        let messages := openAIPrompt session in
        match script with
        | [] => called messages (finish Awaiting db)
        | None :: _ => called messages (finish Threw db)
        | Some assistantMsg :: script' =>
            called messages
              match am_tool_calls assistantMsg with
              | Some (c :: cs) =>
                  let session := setAgentStatus EXECUTING session in
                  let db := save s_id session db in
                  match openAIToolCalls tools user (c :: cs) (s_messages session) with
                  | None => finish Threw db
                  | Some transcript =>
                      let session := setTranscript (s_agentStatus session) transcript session in
                      let db := save s_id session db in
                      AgentsService_executeWithOpenAI config script' sessionId user db
                  end
              | _ =>
                  let transcript :=
                    if truthy (am_content assistantMsg)
                    then s_messages session
                         ++ [assistantMessage (orElse (am_content assistantMsg) "")]
                    else s_messages session in
                  finish Returned (save s_id (setTranscript IDLE transcript session) db)
              end
        end
  end.

(** *** Gemini *)

Record FunctionCall : Type := {
  fc_name : string;
  fc_args : Json
}.

Record GeminiResponse : Type := {
  g_functionCalls : option (list FunctionCall);
  g_text : string
}.

Record GeminiCall : Type := {
  gc_system : string;
  gc_history : list (string * string);
  gc_message : string
}.

Definition geminiCall (session : IAgentSession) : GeminiCall :=
  {| gc_system := getSystemPrompt (s_agentType session);
     gc_history :=
       map (fun msg =>
              (if String.eqb (m_role msg) "assistant" then "model" else "user",
               m_content msg))
           (filter (fun msg => negb (String.eqb (m_role msg) "system"))
                   (s_messages session));
     gc_message := orElse (s_originalGoal session) "Continue a conversa" |}.

Fixpoint geminiToolCalls (tools : list Tool) (user : AuthenticatedUser)
    (calls : list FunctionCall) (messages : list IMessage) : list IMessage :=
  match calls with
  | [] => messages
  | call :: rest =>
      match findTool tools (fc_name call) with
      | None => geminiToolCalls tools user rest messages
      | Some tool =>
          geminiToolCalls tools user rest
            (messages ++ [toolMessage tool (fc_args call)
                            (t_execute tool (fc_args call) user)])
      end
  end.

Fixpoint AgentsService_executeWithGemini (config : AiConfig)
    (script : list (option GeminiResponse)) (sessionId : ObjectId)
    (user : AuthenticatedUser) (db : list IAgentSession)
    : AgentRun GeminiCall :=
  match findById s_id sessionId db with
  | None => finish Returned db
  | Some session =>
      if negb (hasInstance config "google")
      then AgentsService_executeStubMode sessionId db
      else
        let tools := getToolsForAgent user in
        let request := geminiCall session in
        match script with
        | [] => called request (finish Awaiting db)
        | None :: _ => called request (finish Threw db)
        | Some response :: script' =>
            called request
              match g_functionCalls response with
              | Some (c :: cs) =>
                  let session := setAgentStatus EXECUTING session in
                  let db := save s_id session db in
                  let transcript :=
                    geminiToolCalls tools user (c :: cs) (s_messages session) in
                  let session := setTranscript (s_agentStatus session) transcript session in
                  let db := save s_id session db in
                  AgentsService_executeWithGemini config script' sessionId user db
              | _ =>
                  let transcript :=
                    if negb (String.eqb (g_text response) "")
                    then s_messages session ++ [assistantMessage (g_text response)]
                    else s_messages session in
                  finish Returned (save s_id (setTranscript IDLE transcript session) db)
              end
        end
  end.

(** The user created by a registration that returned. *)
Definition registered (freshId : ObjectId) (dto : RegisterDto) (r : UserRole)
    : IUser :=
  {| u_id := freshId; u_email := r_email dto;
     u_password := bcryptHash (r_password dto); u_name := r_name dto;
     u_phone := r_phone dto; u_agencyId := None; u_role := r;
     u_isActive := true |}.


(** The entries a round of tool calls adds to the transcript: one per
    call that names a registered tool. *)
Definition openAIEntries (tools : list Tool) (user : AuthenticatedUser)
    (calls : list ToolCall) : list IMessage :=
  flat_map
    (fun toolCall =>
       match findTool tools (tc_name toolCall), JSON_parse (tc_arguments toolCall) with
       | Some tool, Some args => [toolMessage tool args (t_execute tool args user)]
       | _, _ => []
       end)
    (filter (fun toolCall => String.eqb (tc_type toolCall) "function") calls).

Definition geminiEntries (tools : list Tool) (user : AuthenticatedUser)
    (calls : list FunctionCall) : list IMessage :=
  flat_map
    (fun call =>
       match findTool tools (fc_name call) with
       | Some tool =>
           [toolMessage tool (fc_args call) (t_execute tool (fc_args call) user)]
       | None => []
       end)
    calls.

(** A call of type [function] whose arguments parse. *)
Definition wellFormedCall (toolCall : ToolCall) : bool :=
  String.eqb (tc_type toolCall) "function"
  && isSome (JSON_parse (tc_arguments toolCall)).

Definition registeredTool (tools : list Tool) (name : string) : bool :=
  isSome (findTool tools name).

(** A call the OpenAI loop acts on: of type [function] and naming a
    registered tool. *)
Definition actedOn (tools : list Tool) (toolCall : ToolCall) : bool :=
  String.eqb (tc_type toolCall) "function"
  && registeredTool tools (tc_name toolCall).

(** [JSON.parse(toolCall.function.arguments)] returns. *)
Definition parsable (toolCall : ToolCall) : bool :=
  isSome (JSON_parse (tc_arguments toolCall)).

End Services.

(** ** Templates as sequences of pieces

    A template read as literal text interleaved with placeholders
    [{{name}}], used to state what one rendering produces. *)

Inductive Piece : Type :=
| Text (s : string)
| Field (name : string).

Definition pieceSource (p : Piece) : string :=
  match p with
  | Text s => s
  | Field name => "{{" ++ name ++ "}}"
  end.

Fixpoint templateOf (ps : list Piece) : string :=
  match ps with
  | [] => EmptyString
  | p :: r => pieceSource p ++ templateOf r
  end.

(** The value of the first entry of the variables map under [name]. *)
Fixpoint lookupVar (name : string) (variables : list (string * string))
    : option string :=
  match variables with
  | [] => None
  | (key, value) :: rest =>
      if String.eqb key name then Some value else lookupVar name rest
  end.

(** The three contact placeholders and what each stands for. *)
Definition contactValue (contact : IContact) (name : string) : option string :=
  if String.eqb "contact.name" name then Some (orElse (c_name contact) "Cliente")
  else if String.eqb "contact.email" name then Some (orElse (c_email contact) "")
  else if String.eqb "contact.phone" name then Some (c_phone contact)
  else None.

(** A piece after one rendering: a placeholder naming a key of the map
    becomes that key's value, a contact placeholder the contact's value,
    and any other placeholder stays as written. *)
Definition settle (variables : list (string * string)) (contact : IContact)
    (p : Piece) : Piece :=
  match p with
  | Text s => Text s
  | Field name =>
      match lookupVar name variables with
      | Some value => Text value
      | None =>
          match contactValue contact name with
          | Some value => Text value
          | None => Field name
          end
      end
  end.

Definition pieceValue (variables : list (string * string)) (contact : IContact)
    (p : Piece) : string :=
  pieceSource (settle variables contact p).

Fixpoint renderedOf (variables : list (string * string)) (contact : IContact)
    (ps : list Piece) : string :=
  match ps with
  | [] => EmptyString
  | p :: r => pieceValue variables contact p ++ renderedOf variables contact r
  end.

(** Whether a piece is text or a placeholder that a rendering replaces. *)
Definition knownField (variables : list (string * string)) (contact : IContact)
    (p : Piece) : bool :=
  match p with
  | Text _ => true
  | Field name =>
      isSome (lookupVar name variables) || isSome (contactValue contact name)
  end.

(** [pat] differs from [s] at a position within [s]: no extension of [s]
    starts with [pat]. *)
Fixpoint mismatch (pat s : string) : bool :=
  match pat, s with
  | String a p, String b r => if Ascii.eqb a b then mismatch p r else true
  | _, _ => false
  end.

(** No occurrence of [pat] begins inside [s], whatever follows [s]. *)
Fixpoint neverStarts (pat s : string) : bool :=
  match s with
  | EmptyString => true
  | String _ r => mismatch pat s && neverStarts pat r
  end.

Definition noBrace (s : string) : bool :=
  allChars (fun c => negb (Ascii.eqb c "{")) s.

Definition noBraces (s : string) : bool :=
  allChars (fun c => negb (Ascii.eqb c "{") && negb (Ascii.eqb c "}")) s.

Definition noDollar (s : string) : bool :=
  allChars (fun c => negb (Ascii.eqb c "$")) s.

Definition plainValue (s : string) : bool := noBrace s && noDollar s.

Definition plainContact (contact : IContact) : bool :=
  plainValue (orElse (c_name contact) "Cliente")
  && plainValue (orElse (c_email contact) "")
  && plainValue (c_phone contact).

(** Text without an opening brace, placeholder names without braces. *)
Fixpoint plainText (ps : list Piece) : bool :=
  match ps with
  | [] => true
  | Text s :: r => noBrace s && plainText r
  | Field name :: r => noBraces name && plainText r
  end.

(** Keys for which [new RegExp(`{{${key}}}`, 'g')] is a literal pattern:
    letters, digits and underscores, not starting with a digit (a key of
    digits would make [{key}] a quantifier, other characters may be
    operators). *)
Definition isKeyStart (c : ascii) : bool :=
  let n := nat_of_ascii c in
  (Nat.leb 65 n && Nat.leb n 90) || (Nat.leb 97 n && Nat.leb n 122)
  || Nat.eqb n 95.

Definition isKeyChar (c : ascii) : bool :=
  let n := nat_of_ascii c in
  isKeyStart c || (Nat.leb 48 n && Nat.leb n 57).

Definition literalKey (key : string) : bool :=
  match key with
  | EmptyString => false
  | String c _ => isKeyStart c && allChars isKeyChar key
  end.

Definition plainVariables (variables : list (string * string)) : bool :=
  forallb (fun kv => literalKey (fst kv) && plainValue (snd kv)) variables.

(** The pieces after the occurrences of [{{name}}] were replaced by [v]. *)
Definition fillPiece (name v : string) (p : Piece) : Piece :=
  match p with
  | Text _ => p
  | Field n => if String.eqb name n then Text v else p
  end.

Definition fillAll (variables : list (string * string)) (p : Piece) : Piece :=
  fold_left (fun q kv => fillPiece (fst kv) (snd kv) q) variables p.

(** A regular-expression engine that knows the patterns [{{key}}] of
    literal keys, and throws on every other one. *)
Fixpoint closesKey (s : string) : bool :=
  match s with
  | EmptyString => false
  | String c r => if isKeyChar c then closesKey r else String.eqb s "}}"
  end.

Definition literalPlaceholder (src : string) : bool :=
  match src with
  | String a (String b (String c r)) =>
      Ascii.eqb a "{" && Ascii.eqb b "{" && isKeyStart c && closesKey (String c r)
  | _ => false
  end.

Definition literalRegexReplaceAll (src input replacement : string)
    : option string :=
  if literalPlaceholder src then Some (replaceAllLiteral src replacement input)
  else None.

(** ** Reference instances and sample data *)

Definition hexRuntime : Runtime :=
  {| isValid := hexIsValid; newObjectId := hexObjectId;
     regexI := noRegexI; regexReplaceAll := noRegexReplaceAll |}.

Definition placeholderRuntime : Runtime :=
  {| isValid := hexIsValid; newObjectId := hexObjectId;
     regexI := noRegexI; regexReplaceAll := literalRegexReplaceAll |}.

Definition oid (s : string) : ObjectId := {| toString := s |}.

Definition agencyX : string := "aaaaaaaaaaaaaaaaaaaaaaa1".
Definition agencyY : string := "aaaaaaaaaaaaaaaaaaaaaaa2".
Definition aliceId : string := "bbbbbbbbbbbbbbbbbbbbbbb1".
Definition bobId : string := "bbbbbbbbbbbbbbbbbbbbbbb2".
Definition carolId : string := "bbbbbbbbbbbbbbbbbbbbbbb3".

Definition agentAlice : AuthenticatedUser :=
  {| userId := aliceId; email := "alice@x.com"; role := AGENT;
     agencyId := Some agencyX |}.

Definition managerCarol : AuthenticatedUser :=
  {| userId := carolId; email := "carol@x.com"; role := MANAGER;
     agencyId := Some agencyX |}.

Definition mkContact (id name : string) (agency assignee : string) : IContact :=
  {| c_id := oid id; c_name := Some name; c_phone := "5511999990000";
     c_email := None; c_origin := "whatsapp"; c_status := "new";
     c_agency := Some (oid agency); c_assignedTo := Some (oid assignee);
     c_tags := []; c_urgency := None; c_isActive := true; c_createdAt := 0 |}.

Definition contactOfAlice : IContact :=
  mkContact "ccccccccccccccccccccccc1" "Ana" agencyX aliceId.
Definition contactOfBob : IContact :=
  mkContact "ccccccccccccccccccccccc2" "Bruno" agencyX bobId.
Definition contactOfY : IContact :=
  mkContact "ccccccccccccccccccccccc3" "Yara" agencyY bobId.

Definition sampleContacts : list IContact :=
  [contactOfAlice; contactOfBob; contactOfY].

Definition noContactFilters : ContactFilters :=
  {| cf_status := None; cf_origin := None; cf_agency := None;
     cf_assignedTo := None; cf_tags := None; cf_urgency := None |}.

Definition campaignId : string := "ddddddddddddddddddddddd1".

(** A campaign of agency X aimed at explicit contact ids. *)
Definition mkCampaign (ids : list ObjectId) (rate : Z) : ICampaign :=
  {| k_id := oid campaignId; k_name := "Lancamento"; k_type := "broadcast";
     k_status := DRAFT;
     k_audience := {| targetStatus := []; targetTags := [];
                      specificContacts := ids |};
     k_message := {| template := "Oi {{contact.name}}"; variables := None |};
     k_evolutionInstanceId := "instance1";
     k_statistics := {| totalContacts := 0; sent := 0; failed := 0 |};
     k_createdBy := oid carolId; k_agency := Some (oid agencyX);
     k_isActive := true; k_rateLimitMs := rate; k_createdAt := 0 |}.

Definition campaignToY : ICampaign := mkCampaign [c_id contactOfY] 0.
Definition campaignPaced : ICampaign := mkCampaign [c_id contactOfAlice] 1000.

Definition alwaysDelivers : Bridge := fun _ _ _ _ => true.

(** A contact whose e-mail field holds the text of a placeholder. *)
Definition contactEcho : IContact :=
  {| c_id := oid "ccccccccccccccccccccccc4"; c_name := Some "Ana";
     c_phone := "5511999990000"; c_email := Some "{{contact.name}}";
     c_origin := "website"; c_status := "new";
     c_agency := Some (oid agencyX); c_assignedTo := Some (oid aliceId);
     c_tags := []; c_urgency := None; c_isActive := true; c_createdAt := 0 |}.

Definition agentFilterBob : ContactFilters :=
  {| cf_status := None; cf_origin := None; cf_agency := None;
     cf_assignedTo := Some bobId; cf_tags := None; cf_urgency := None |}.

Definition noContactUpdate : UpdateContactDto :=
  {| uc_name := None; uc_phone := None; uc_email := None; uc_origin := None;
     uc_status := Some "contacted"; uc_agency := None;
     uc_assignedTo := None; uc_tags := None; uc_urgency := None;
     uc_isActive := None |}.

Definition mkUser (id mail : string) (r : UserRole) (agency : option string) : IUser :=
  {| u_id := oid id; u_email := mail; u_password := "hash"; u_name := mail;
     u_phone := None; u_agencyId := agency; u_role := r; u_isActive := true |}.

(** Agency X: owned by Alice, with Bob as a member. *)
Definition tenancyX : Tenancy :=
  {| agencies := [ {| a_id := oid agencyX; a_name := "X Imoveis"; a_cnpj := "123";
                      a_owner := oid aliceId; a_members := [oid bobId];
                      a_isActive := true |} ];
     users := [ mkUser aliceId "alice@x.com" AGENT (Some agencyX);
                mkUser bobId "bob@x.com" AGENT (Some agencyX);
                mkUser carolId "carol@x.com" MANAGER (Some agencyX) ] |}.

Definition plainCrypto : Crypto :=
  {| bcryptHash := fun password => ("hashed:" ++ password)%string;
     jwtSign := fun payload => ("token:" ++ jwt_sub payload)%string |}.

Definition registerWith (r : option string) : RegisterDto :=
  {| r_email := "new@x.com"; r_password := "secret"; r_name := "New";
     r_phone := None; r_role := r |}.

Definition textAgentRuntime : AgentRuntime :=
  {| Json := string; JSON_parse := fun text => Some text;
     searchProperties := fun _ _ => "{ success: true, count: 0 }";
     getPropertyDetails := fun _ _ => "{ success: false }";
     searchContacts := fun _ _ => "{ success: true, count: 0 }";
     sendWhatsappMessage := fun _ _ => "{ success: true }";
     promptGeneral := "general"; promptQualifier := "qualifier";
     promptAdvisor := "advisor";
     stubResponse := fun goal => ("Objetivo registrado: " ++ goal)%string |}.

Definition sessionId1 : ObjectId := oid "eeeeeeeeeeeeeeeeeeeeeee1".

Definition session1 : @IAgentSession textAgentRuntime :=
  @Build_IAgentSession textAgentRuntime sessionId1 carolId agencyX
    "general_assistant" S_ACTIVE THINKING (Some "Listar contatos")
    [@Build_IMessage textAgentRuntime "user" "Listar contatos" None] 1.

Definition openAIConfig : AiConfig :=
  {| cfg_provider := "openai"; cfg_apiKey := Some "sk-test" |}.

Definition geminiConfig : AiConfig :=
  {| cfg_provider := "google"; cfg_apiKey := Some "g-test" |}.

Definition callTool (name : string) : ToolCall :=
  {| tc_type := "function"; tc_name := name; tc_arguments := "{}" |}.

Definition asksFor (names : list string) : AssistantMessage :=
  {| am_content := None; am_tool_calls := Some (map callTool names) |}.

Definition answers (text : string) : AssistantMessage :=
  {| am_content := Some text; am_tool_calls := None |}.

(** Three calls of which the loop acts on one: the first is not of type
    function, the third names no registered tool. *)
Definition mixedCalls : list ToolCall :=
  [ {| tc_type := "web_search"; tc_name := "search_contacts";
       tc_arguments := "{}" |};
    callTool "search_contacts";
    callTool "update_contact" ].

Definition asksMixed : AssistantMessage :=
  {| am_content := None; am_tool_calls := Some mixedCalls |}.

(** A contact whose name is a replacement pattern of [String.replace]. *)
Definition contactDollar : IContact :=
  {| c_id := oid "ccccccccccccccccccccccc5"; c_name := Some "$&";
     c_phone := "5511999990000"; c_email := None;
     c_origin := "website"; c_status := "new";
     c_agency := Some (oid agencyX); c_assignedTo := Some (oid aliceId);
     c_tags := []; c_urgency := None; c_isActive := true; c_createdAt := 0 |}.

Definition campaignThree : ICampaign :=
  mkCampaign [c_id contactOfAlice; c_id contactOfBob; c_id contactOfY] 0.

(** A bridge whose second call throws. *)
Definition secondFails : Bridge := fun n _ _ _ => negb (Nat.eqb n 1).

(** * The rest of the service layer *)

(** ** Middleware (rbac.middleware.ts, jwt-auth.middleware.ts) *)

(** [rbacMiddleware(allowedRoles)] on [req.user]. *)
Definition rbacMiddleware (allowedRoles : list UserRole)
    (user : option AuthenticatedUser) : Result unit :=
  match user with
  | None => Throw ForbiddenException
  | Some u =>
      if negb (existsb (role_eqb (role u)) allowedRoles)
      then Throw ForbiddenException
      else Ok tt
  end.

(** [s.split(':')[0]] *)
Fixpoint beforeColon (s : string) : string :=
  match s with
  | EmptyString => EmptyString
  | String c r => if Ascii.eqb c ":" then EmptyString else String c (beforeColon r)
  end.

Definition rolePermissions (r : UserRole) : list string :=
  match r with
  | ADMIN => ["*"]
  | MANAGER => ["properties:*"; "contacts:*"; "campaigns:*"; "users:read";
                "agencies:read"]
  | AGENT => ["properties:read"; "contacts:read"; "contacts:create";
              "campaigns:read"]
  | VIEWER => ["properties:read"; "contacts:read"; "campaigns:read"]
  end.

Definition rbacPermissionMiddleware (requiredPermission : string)
    (user : option AuthenticatedUser) : Result unit :=
  match user with
  | None => Throw ForbiddenException
  | Some u =>
      if role_eqb (role u) ADMIN then Ok tt
      else
        let resource := beforeColon requiredPermission in
        let userPermissions := rolePermissions (role u) in
        let hasPermission :=
          inb requiredPermission userPermissions
          || inb (resource ++ ":*") userPermissions
          || inb "*" userPermissions in
        if negb hasPermission then Throw ForbiddenException else Ok tt
  end.

Definition agencyScopeMiddleware (user : option AuthenticatedUser) : Result unit :=
  match user with
  | None => Throw ForbiddenException
  | Some u =>
      if role_eqb (role u) ADMIN then Ok tt
      else if negb (truthy (agencyId u)) then Throw ForbiddenException
      else Ok tt
  end.

(** Whether the last character of [s] is a star. *)
Fixpoint endsStar (s : string) : bool :=
  match s with
  | EmptyString => false
  | String c EmptyString => Ascii.eqb c "*"
  | String _ r => endsStar r
  end.

(** The order of the roles used to compare what they are granted. *)
Definition roleRank (r : UserRole) : nat :=
  match r with
  | VIEWER => 0
  | AGENT => 1
  | MANAGER => 2
  | ADMIN => 3
  end.

(** [jwt.verify(token, secret)]: the payload of a token that verifies, and
    its [userId] key as [validateToken] reads it; [bcrypt.compare]. *)
Class Verifier : Type := {
  jwtVerify : string -> option JwtPayload;
  jwtVerifyUserId : string -> option string;
  bcryptCompare : string -> string -> bool
}.

Definition PUBLIC_ROUTES : list string :=
  ["/auth/login"; "/auth/register"; "/health"; "/metrics"].

Definition isPublicRoute (path : string) : bool :=
  existsb (fun route => startsWith route path) PUBLIC_ROUTES.

Record Request : Type := {
  req_path : string;
  req_authorization : option string;
  req_user : option AuthenticatedUser
}.

Definition jwtAuthMiddleware {verifier : Verifier} (req : Request) : Result Request :=
  if isPublicRoute (req_path req) then Ok req
  else
    match req_authorization req with
    | None => Throw UnauthorizedException
    | Some authHeader =>
        if negb (negb (String.eqb authHeader "") && startsWith "Bearer " authHeader)
        then Throw UnauthorizedException
        else
          let token := dropChars 7 authHeader in
          match jwtVerify token with
          | None => Throw UnauthorizedException
          | Some decoded =>
              Ok {| req_path := req_path req;
                    req_authorization := req_authorization req;
                    req_user :=
                      Some {| userId := jwt_sub decoded;
                              email := jwt_email decoded;
                              role := jwt_role decoded;
                              agencyId := jwt_agencyId decoded |} |}
          end
    end.

(** [String.prototype.trim]. *)
Class StringOps : Type := {
  trim : string -> string
}.

(** Truthiness of an optional number: [undefined] and [0] are falsy. *)
Definition truthyZ (o : option Z) : bool :=
  match o with
  | Some z => negb (z =? 0)%Z
  | None => false
  end.

Definition keepTruthyZ (o : option Z) : option Z :=
  if truthyZ o then o else None.

(** [query.limit(n)]: a limit of [0] is no limit. *)
Definition applyLimit {A} (n : nat) (l : list A) : list A :=
  match n with
  | O => l
  | S _ => firstn n l
  end.

(** ** Further data-transfer objects *)

Record CreatePropertyDto : Type := {
  cp_type : string;
  cp_transactionType : string;
  cp_price : Z;
  cp_area : Z;
  cp_city : string;
  cp_state : string;
  cp_neighborhood : string;
  cp_bedrooms : option Z;
  cp_bathrooms : option Z;
  cp_parkingSpaces : option Z;
  cp_agency : string;
  cp_isActive : option bool
}.

Record Preferences : Type := {
  pr_propertyType : option string;
  pr_transactionType : option string;
  pr_minPrice : option Z;
  pr_maxPrice : option Z;
  pr_city : option string;
  pr_neighborhood : option string;
  pr_bedrooms : option Z
}.

Record CreateContactDto : Type := {
  cc_name : string;
  cc_phone : string;
  cc_email : option string;
  cc_origin : string;
  cc_status : option string;
  cc_agency : option string;
  cc_assignedTo : option string;
  cc_interestedProperties : option (list string);
  cc_tags : option (list string)
}.




(** Requests that set a single field. *)
Definition reassignTo (other : string) : UpdateContactDto :=
  {| uc_name := None; uc_phone := None; uc_email := None; uc_origin := None;
     uc_status := None; uc_agency := None;
     uc_assignedTo := Some other; uc_tags := None; uc_urgency := None;
     uc_isActive := None |}.

Definition setStatusTo (status : CampaignStatus) : UpdateCampaignDto :=
  {| uk_name := None; uk_type := None; uk_status := Some status;
     uk_audience := None; uk_message := None; uk_evolutionInstanceId := None;
     uk_statistics := None; uk_createdBy := None; uk_agency := None;
     uk_isActive := None; uk_rateLimitMs := None |}.

Record CreateAgencyDto : Type := {
  ca_name : string;
  ca_cnpj : string;
  ca_phone : string;
  ca_email : string
}.

Record UpdateAgencyDto : Type := {
  ua_name : option string;
  ua_cnpj : option string
}.

Record LoginDto : Type := {
  l_email : string;
  l_password : string
}.

(** Casting a list of id strings to ObjectIds; [None] when one does not cast. *)
Fixpoint castIds {rt : Runtime} (ids : list string) : option (list ObjectId) :=
  match ids with
  | [] => Some []
  | s :: r =>
      match newObjectId s, castIds r with
      | Some i, Some rest => Some (i :: rest)
      | _, _ => None
      end
  end.

(** The [views] counter of each property, kept beside the documents. *)
Definition Views : Type := ObjectId -> nat.

Definition bumpViews (i : ObjectId) (views : Views) : Views :=
  fun j => if oid_eqb j i then S (views j) else views j.

Section MoreServices.
Context {rt : Runtime} {crypto : Crypto} {art : AgentRuntime}.
Context {verifier : Verifier} {ops : StringOps}.

(** ** PropertiesService, continued *)

Definition PropertiesService_create (freshId : ObjectId) (now : Z)
    (dto : CreatePropertyDto) (user : AuthenticatedUser) (db : list IProperty)
    : Result IProperty * list IProperty :=
  if negb (isValid (cp_agency dto)) then (Throw BadRequestException, db)
  else if negb (role_eqb (role user) ADMIN)
          && negb (sameString (cp_agency dto) (agencyId user))
  then (Throw ForbiddenException, db)
  else
    match newObjectId (userId user), newObjectId (cp_agency dto) with
    | Some owner, Some agency =>
        if inb (cp_type dto) PropertyTypes
           && inb (cp_transactionType dto) TransactionTypes
        then
          let property :=
            {| p_id := freshId; p_type := cp_type dto;
               p_transactionType := cp_transactionType dto;
               p_status := "available";
               p_price := cp_price dto; p_area := cp_area dto;
               p_city := cp_city dto; p_state := cp_state dto;
               p_neighborhood := cp_neighborhood dto;
               p_bedrooms := assign (cp_bedrooms dto) 0%Z;
               p_bathrooms := assign (cp_bathrooms dto) 0%Z;
               p_parkingSpaces := assign (cp_parkingSpaces dto) 0%Z;
               p_agency := agency; p_owner := owner;
               p_isActive := assign (cp_isActive dto) true;
               p_createdAt := now |} in
          (Ok property, db ++ [property])
        else (Throw InternalError, db)
    | _, _ => (Throw InternalError, db)
    end.

Definition PropertiesService_findOne (id : string) (user : AuthenticatedUser)
    (db : list IProperty) (views : Views) : Result IProperty * Views :=
  if negb (isValid id) then (Throw BadRequestException, views) else
  match findByIdString p_id id db with
  | Throw e => (Throw e, views)
  | Ok None => (Throw NotFoundException, views)
  | Ok (Some property) =>
      if negb (role_eqb (role user) ADMIN)
         && negb (sameString (toString (p_agency property)) (agencyId user))
      then (Throw ForbiddenException, views)
      else (Ok property, bumpViews (p_id property) views)
  end.

Definition PropertiesService_recommendedQuery (preferences : Preferences)
    (agency : string) : Result PropertyQuery :=
  agency <- orThrow (newObjectId agency) InternalError ;;
  city <- compileOpt (pr_city preferences) ;;
  neighborhood <- compileOpt (pr_neighborhood preferences) ;;
  Ok {| pq_isActive := Some true; pq_agency := Some agency;
        pq_type := keepTruthy (pr_propertyType preferences);
        pq_transactionType := keepTruthy (pr_transactionType preferences);
        pq_status := Some "available";
        pq_price_gte := keepTruthyZ (pr_minPrice preferences);
        pq_price_lte := keepTruthyZ (pr_maxPrice preferences);
        pq_area_gte := None; pq_area_lte := None;
        pq_city := city; pq_state := None; pq_neighborhood := neighborhood;
        pq_bedrooms_gte := keepTruthyZ (pr_bedrooms preferences);
        pq_bathrooms_gte := None; pq_parkingSpaces_gte := None |}.

Definition PropertiesService_findRecommended (preferences : Preferences)
    (agency : string) (limit : nat) (db : list IProperty)
    : Result (list IProperty) :=
  query <- PropertiesService_recommendedQuery preferences agency ;;
  Ok (applyLimit limit (findSorted p_createdAt (property_matches query) db)).

(** ** ContactsService, continued *)

(** [dto.agency?.trim() || user.agencyId] *)
Definition contactAgency (dto : CreateContactDto) (user : AuthenticatedUser)
    : option string :=
  match cc_agency dto with
  | Some a => if String.eqb (trim a) "" then agencyId user else Some (trim a)
  | None => agencyId user
  end.

Fixpoint allValid (ids : list string) : bool :=
  match ids with
  | [] => true
  | s :: r => isValid s && allValid r
  end.

Definition ContactsService_create (freshId : ObjectId) (now : Z)
    (dto : CreateContactDto) (user : AuthenticatedUser) (db : list IContact)
    : Result IContact * list IContact :=
  let agency := contactAgency dto user in
  if negb (truthy agency) && negb (role_eqb (role user) ADMIN)
  then (Throw BadRequestException, db)
  else if truthy agency && negb (truthyValid agency)
  then (Throw BadRequestException, db)
  else if truthy (cc_assignedTo dto) && negb (truthyValid (cc_assignedTo dto))
  then (Throw BadRequestException, db)
  else if negb (allValid (match cc_interestedProperties dto with
                          | Some l => l
                          | None => []
                          end))
  then (Throw BadRequestException, db)
  else
    match (if truthy agency then a <- mkId agency ;; Ok (Some a) else Ok None),
          (if truthy (cc_assignedTo dto)
           then a <- mkId (cc_assignedTo dto) ;; Ok (Some a) else Ok None),
          castIds (match cc_interestedProperties dto with
                   | Some l => l
                   | None => []
                   end) with
    | Ok agencyOid, Ok assignee, Some _ =>
        if required (cc_name dto) && required (cc_phone dto)
           && inb (cc_origin dto) ContactOrigins
           && inb (orElse (cc_status dto) "new") ContactStatuses
        then
          let contact :=
            {| c_id := freshId; c_name := Some (cc_name dto);
               c_phone := cc_phone dto; c_email := cc_email dto;
               c_origin := cc_origin dto;
               c_status := orElse (cc_status dto) "new";
               c_agency := agencyOid; c_assignedTo := assignee;
               c_tags := match cc_tags dto with Some l => l | None => [] end;
               c_urgency := None; c_isActive := true; c_createdAt := now |} in
          (Ok contact, db ++ [contact])
        else (Throw InternalError, db)
    | _, _, _ => (Throw InternalError, db)
    end.

Definition ContactsService_findByPhone (phone : string)
    (agency : option string) (db : list IContact) : Result (option IContact) :=
  scope <- (if truthy agency then a <- mkId agency ;; Ok (Some a) else Ok None) ;;
  Ok (List.find
        (fun c => String.eqb (c_phone c) phone && Bool.eqb (c_isActive c) true
                  && optMatch scope (ooid_eqb (c_agency c)))
        db).

(** ** CampaignsService, continued *)

Definition CampaignsService_findOne (id : string) (user : AuthenticatedUser)
    (db : list ICampaign) : Result ICampaign :=
  if negb (isValid id) then Throw BadRequestException else
  found <- findByIdString k_id id db ;;
  match found with
  | None => Throw NotFoundException
  | Some campaign =>
      if role_eqb (role user) ADMIN then Ok campaign
      else
        differs <- campaignAgencyDiffers campaign user ;;
        if differs then Throw ForbiddenException else Ok campaign
  end.






(** ** AgenciesService, continued *)

Definition AgenciesService_create (freshId : ObjectId) (dto : CreateAgencyDto)
    (user : AuthenticatedUser) (st : Tenancy) : Result IAgency * Tenancy :=
  match List.find (fun a => String.eqb (a_cnpj a) (ca_cnpj dto)) (agencies st) with
  | Some _ => (Throw ConflictException, st)
  | None =>
      match newObjectId (userId user) with
      | None => (Throw InternalError, st)
      | Some owner =>
          if required (ca_name dto) && required (ca_cnpj dto)
             && required (ca_phone dto) && required (ca_email dto)
          then
            let agency :=
              {| a_id := freshId; a_name := ca_name dto; a_cnpj := ca_cnpj dto;
                 a_owner := owner; a_members := []; a_isActive := true |} in
            (Ok agency,
             {| agencies := agencies st ++ [agency];
                users := UserModel_setAgency owner (Some (toString freshId))
                           (users st) |})
          else (Throw InternalError, st)
      end
  end.

Definition AgenciesService_findAll (user : AuthenticatedUser) (st : Tenancy)
    : Result (list IAgency) :=
  if negb (role_eqb (role user) ADMIN) then Throw ForbiddenException
  else Ok (agencies st).

Definition AgenciesService_findByUser (user : AuthenticatedUser) (st : Tenancy)
    : Result (list IAgency) :=
  me <- orThrow (newObjectId (userId user)) InternalError ;;
  Ok (filter (fun a => oid_eqb (a_owner a) me
                       || existsb (fun m => oid_eqb m me) (a_members a))
             (agencies st)).

Definition AgenciesService_findOne (id : string) (user : AuthenticatedUser)
    (st : Tenancy) : Result IAgency :=
  if negb (isValid id) then Throw BadRequestException else
  found <- findByIdString a_id id (agencies st) ;;
  match found with
  | None => Throw NotFoundException
  | Some agency =>
      if negb (role_eqb (role user) ADMIN)
         && negb (sameString (toString (a_id agency)) (agencyId user))
      then Throw ForbiddenException
      else Ok agency
  end.

Definition assignAgency (dto : UpdateAgencyDto) (a : IAgency) : IAgency :=
  {| a_id := a_id a; a_name := assign (ua_name dto) (a_name a);
     a_cnpj := assign (ua_cnpj dto) (a_cnpj a); a_owner := a_owner a;
     a_members := a_members a; a_isActive := a_isActive a |}.

Definition AgenciesService_update (id : string) (dto : UpdateAgencyDto)
    (user : AuthenticatedUser) (st : Tenancy) : Result IAgency * Tenancy :=
  if negb (isValid id) then (Throw BadRequestException, st) else
  match findByIdString a_id id (agencies st) with
  | Throw e => (Throw e, st)
  | Ok None => (Throw NotFoundException, st)
  | Ok (Some agency) =>
      if negb (role_eqb (role user) ADMIN)
         && negb (String.eqb (toString (a_owner agency)) (userId user))
      then (Throw ForbiddenException, st)
      else
        let taken :=
          truthy (ua_cnpj dto)
          && negb (sameString (a_cnpj agency) (ua_cnpj dto))
          && existsb (fun other =>
                        sameString (a_cnpj other) (ua_cnpj dto)
                        && negb (oid_eqb (a_id other) (a_id agency)))
                     (agencies st) in
        if taken then (Throw ConflictException, st)
        else
          let agency' := assignAgency dto agency in
          if required (a_name agency') && required (a_cnpj agency')
          then (Ok agency',
                {| agencies := save a_id agency' (agencies st);
                   users := users st |})
          else (Throw InternalError, st)
  end.

(** [addMember(agencyId, userId, user)]; the second argument is named
    [targetId] here. *)
Definition AgenciesService_addMember (agency targetId : string)
    (user : AuthenticatedUser) (st : Tenancy) : Result IAgency * Tenancy :=
  if negb (isValid agency) || negb (isValid targetId)
  then (Throw BadRequestException, st) else
  match findByIdString a_id agency (agencies st) with
  | Throw e => (Throw e, st)
  | Ok None => (Throw NotFoundException, st)
  | Ok (Some found) =>
      if negb (role_eqb (role user) ADMIN)
         && negb (String.eqb (toString (a_owner found)) (userId user))
      then (Throw ForbiddenException, st)
      else
        match findByIdString u_id targetId (users st) with
        | Throw e => (Throw e, st)
        | Ok None => (Throw NotFoundException, st)
        | Ok (Some _) =>
            if existsb (fun m => String.eqb (toString m) targetId) (a_members found)
            then (Throw ConflictException, st)
            else
              match newObjectId targetId with
              | None => (Throw InternalError, st)
              | Some member =>
                  let found' := setMembers (a_members found ++ [member]) found in
                  (Ok found',
                   {| agencies := save a_id found' (agencies st);
                      users := UserModel_setAgency member
                                 (Some (toString (a_id found))) (users st) |})
              end
        end
  end.

Definition deactivateAgency (a : IAgency) : IAgency :=
  {| a_id := a_id a; a_name := a_name a; a_cnpj := a_cnpj a;
     a_owner := a_owner a; a_members := a_members a; a_isActive := false |}.

(** [UserModel.updateMany({ agencyId: id }, { agencyId: null })] *)
Definition UserModel_clearAgency (id : ObjectId) (coll : list IUser) : list IUser :=
  map (fun u => if sameString (toString id) (u_agencyId u)
                then setAgencyId None u else u) coll.

Definition AgenciesService_remove (id : string) (user : AuthenticatedUser)
    (st : Tenancy) : Result unit * Tenancy :=
  if negb (isValid id) then (Throw BadRequestException, st)
  else if negb (role_eqb (role user) ADMIN) then (Throw ForbiddenException, st)
  else
    match findByIdString a_id id (agencies st) with
    | Throw e => (Throw e, st)
    | Ok None => (Throw NotFoundException, st)
    | Ok (Some agency) =>
        (Ok tt,
         {| agencies := save a_id (deactivateAgency agency) (agencies st);
            users := UserModel_clearAgency (a_id agency) (users st) |})
    end.

(** ** AuthService, continued *)

Definition authResponse (user : IUser) : AuthResponse :=
  {| accessToken := AuthService_generateToken user;
     ar_id := toString (u_id user); ar_email := u_email user;
     ar_name := u_name user; ar_role := u_role user;
     ar_agencyId := u_agencyId user |}.

Definition AuthService_login (dto : LoginDto) (users : list IUser)
    : Result AuthResponse :=
  match List.find (fun u => String.eqb (u_email u) (l_email dto)) users with
  | None => Throw UnauthorizedException
  | Some user =>
      if negb (u_isActive user) then Throw UnauthorizedException
      else if negb (bcryptCompare (l_password dto) (u_password user))
      then Throw UnauthorizedException
      else Ok (authResponse user)
  end.

Definition AuthService_validateToken (token : string) (users : list IUser)
    : Result IUser :=
  match jwtVerifyUserId token with
  | None => Throw UnauthorizedException
  | Some decodedUserId =>
      match findByIdString u_id decodedUserId users with
      | Ok (Some user) =>
          if negb (u_isActive user) then Throw UnauthorizedException
          else Ok user
      | _ => Throw UnauthorizedException
      end
  end.

Definition AuthService_refreshToken (id : string) (users : list IUser)
    : Result AuthResponse :=
  found <- findByIdString u_id id users ;;
  match found with
  | None => Throw UnauthorizedException
  | Some user =>
      if negb (u_isActive user) then Throw UnauthorizedException
      else Ok (authResponse user)
  end.

(** ** AgentsService, continued *)

Definition userMessage (content : string) : IMessage :=
  {| m_role := "user"; m_content := content; m_metadata := None |}.

Record ExecuteGoalDto : Type := {
  eg_goal : string;
  eg_agentType : string
}.

Record Started : Type := {
  st_result : Result IAgentSession;
  st_sessions : list IAgentSession;
  st_background : bool       (* whether [executeAsync] was scheduled *)
}.

Definition AgentsService_executeGoal (freshId : ObjectId) (dto : ExecuteGoalDto)
    (user : AuthenticatedUser) (db : list IAgentSession) : Started :=
  match agencyId user with
  | None => {| st_result := Throw ForbiddenException; st_sessions := db;
               st_background := false |}
  | Some agency =>
      if String.eqb agency "" then
        {| st_result := Throw ForbiddenException; st_sessions := db;
           st_background := false |}
      else if required (userId user) && required (eg_agentType dto)
              && required (eg_goal dto)
      then
        let session :=
          {| s_id := freshId; s_userId := userId user; s_agencyId := agency;
             s_agentType := eg_agentType dto; s_status := S_ACTIVE;
             s_agentStatus := IDLE; s_originalGoal := Some (eg_goal dto);
             s_messages := [userMessage (eg_goal dto)]; s_messageCount := 1 |} in
        {| st_result := Ok session; st_sessions := db ++ [session];
           st_background := true |}
      else {| st_result := Throw InternalError; st_sessions := db;
              st_background := false |}
  end.

Definition AgentsService_findSession (sessionId : string)
    (user : AuthenticatedUser) (db : list IAgentSession) : Result IAgentSession :=
  if negb (isValid sessionId) then Throw BadRequestException else
  found <- findByIdString s_id sessionId db ;;
  match found with
  | None => Throw NotFoundException
  | Some session =>
      if negb (String.eqb (s_userId session) (userId user))
         && negb (sameString (s_agencyId session) (agencyId user))
      then Throw ForbiddenException
      else Ok session
  end.

Definition AgentsService_chat (sessionId message : string)
    (user : AuthenticatedUser) (db : list IAgentSession) : Started :=
  match AgentsService_findSession sessionId user db with
  | Throw e => {| st_result := Throw e; st_sessions := db; st_background := false |}
  | Ok session =>
      if required message then
        let session' :=
          setTranscript THINKING (s_messages session ++ [userMessage message])
            session in
        {| st_result := Ok session'; st_sessions := save s_id session' db;
           st_background := true |}
      else {| st_result := Throw InternalError; st_sessions := db;
              st_background := false |}
  end.

(** [findByIdAndUpdate(sessionId, { agentStatus: IDLE, lastError })]: the
    session schema has no [lastError] path, so in strict mode only
    [agentStatus] is written. *)
Definition recordError (sessionId : ObjectId) (db : list IAgentSession)
    : list IAgentSession :=
  map (fun s => if oid_eqb (s_id s) sessionId then setAgentStatus IDLE s else s)
      db.

Record AsyncRun : Type := {
  as_outcome : Outcome;
  as_sessions : list IAgentSession;
  as_openai : list (list (string * string));
  as_gemini : list GeminiCall
}.

(** [executeAsync]: everything thrown inside is caught and recorded on the
    session; only the cast of [sessionId] can make the handler itself throw. *)
Definition AgentsService_executeAsync (config : AiConfig)
    (openaiScript : list (option AssistantMessage))
    (geminiScript : list (option GeminiResponse))
    (sessionId : string) (user : AuthenticatedUser) (db : list IAgentSession)
    : AsyncRun :=
  match newObjectId sessionId with
  | None => {| as_outcome := Threw; as_sessions := db;
               as_openai := []; as_gemini := [] |}
  | Some i =>
      match findById s_id i db with
      | None => {| as_outcome := Returned; as_sessions := recordError i db;
                   as_openai := []; as_gemini := [] |}
      | Some session =>
          let db := save s_id (setAgentStatus THINKING session) db in
          if negb (cfg_enabled config) then
            {| as_outcome := Returned;
               as_sessions :=
                 run_sessions (@AgentsService_executeStubMode art unit i db);
               as_openai := []; as_gemini := [] |}
          else if String.eqb (cfg_provider config) "google" then
            let run := AgentsService_executeWithGemini config geminiScript i user db in
            match run_outcome run with
            | Threw => {| as_outcome := Returned;
                          as_sessions := recordError i (run_sessions run);
                          as_openai := []; as_gemini := run_calls run |}
            | o => {| as_outcome := o; as_sessions := run_sessions run;
                      as_openai := []; as_gemini := run_calls run |}
            end
          else
            let run := AgentsService_executeWithOpenAI config openaiScript i user db in
            match run_outcome run with
            | Threw => {| as_outcome := Returned;
                          as_sessions := recordError i (run_sessions run);
                          as_openai := run_calls run; as_gemini := [] |}
            | o => {| as_outcome := o; as_sessions := run_sessions run;
                      as_openai := run_calls run; as_gemini := [] |}
            end
      end
  end.

(** ** Routes: the role guard followed by the service call *)

Definition guarded {A S} (allowedRoles : list UserRole) (user : AuthenticatedUser)
    (st : S) (handler : Result A * S) : Result A * S :=
  match rbacMiddleware allowedRoles (Some user) with
  | Throw e => (Throw e, st)
  | Ok _ => handler
  end.

Definition properties_post freshId now dto user db :=
  guarded [ADMIN; MANAGER] user db (PropertiesService_create freshId now dto user db).
Definition properties_patch id dto user db :=
  guarded [ADMIN; MANAGER] user db (PropertiesService_update id dto user db).
Definition properties_delete id user db :=
  guarded [ADMIN; MANAGER] user db (PropertiesService_remove id user db).
Definition contacts_post freshId now dto user db :=
  guarded [ADMIN; MANAGER; AGENT] user db
    (ContactsService_create freshId now dto user db).
Definition contacts_patch id dto user db :=
  guarded [ADMIN; MANAGER; AGENT] user db (ContactsService_update id dto user db).
Definition contacts_delete id user db :=
  guarded [ADMIN; MANAGER] user db (ContactsService_remove id user db).
Definition campaigns_patch id dto user db :=
  guarded [ADMIN; MANAGER] user db (CampaignsService_update id dto user db).
Definition campaigns_delete id user db :=
  guarded [ADMIN; MANAGER] user db (CampaignsService_remove id user db).

(** [POST /campaigns/:id/execute] *)
Definition campaigns_execute (bridge : Bridge) (id : string)
    (user : AuthenticatedUser) (db : list ICampaign) (contactsDb : list IContact)
    : Executed :=
  match rbacMiddleware [ADMIN; MANAGER] (Some user) with
  | Throw e => stopped e db
  | Ok _ => CampaignsService_execute bridge id user db contactsDb
  end.

(** ** Predicates on agent sessions *)

(** [final] continues [session]: the same session, whose transcript extends
    the old one by assistant entries only. *)
Definition continues (session final : IAgentSession) : Prop :=
  s_id final = s_id session /\ s_userId final = s_userId session /\
  s_agencyId final = s_agencyId session /\
  s_agentType final = s_agentType session /\
  s_originalGoal final = s_originalGoal session /\
  exists extra, s_messages final = s_messages session ++ extra /\
                Forall (fun m => m_role m = "assistant") extra.

(** The session is at rest: the agent is idle and the message count is the
    length of the transcript. *)
Definition settled (s : IAgentSession) : Prop :=
  s_agentStatus s = IDLE /\ s_messageCount s = List.length (s_messages s).

End MoreServices.

(** ** Further reference instances and sample data *)

Definition asciiOps : StringOps :=
  {| trim := fun s => s |}.

Definition viewerVera : AuthenticatedUser :=
  {| userId := "bbbbbbbbbbbbbbbbbbbbbbb4"; email := "vera@x.com"; role := VIEWER;
     agencyId := Some agencyX |}.

Definition carolPayload : JwtPayload :=
  {| jwt_sub := carolId; jwt_email := "carol@x.com"; jwt_role := MANAGER;
     jwt_agencyId := Some agencyX |}.

(** A verifier that accepts the one token ["token:" ++ carolId] and checks
    passwords against the ["hashed:"] prefix of [plainCrypto]. *)
Definition plainVerifier : Verifier :=
  {| jwtVerify := fun token =>
       if String.eqb token ("token:" ++ carolId) then Some carolPayload else None;
     jwtVerifyUserId := fun token =>
       if String.eqb token ("token:" ++ carolId) then Some carolId else None;
     bcryptCompare := fun password hash =>
       String.eqb hash ("hashed:" ++ password) |}.

(** Carol's id as a request may also write it: the same 24 hexadecimal
    digits in upper case, which [isValid] accepts and the cast lower-cases. *)
Definition carolIdUpper : string := "BBBBBBBBBBBBBBBBBBBBBBB3".

Definition carolUser : IUser :=
  {| u_id := oid carolId; u_email := "carol@x.com";
     u_password := "hashed:secret"; u_name := "Carol"; u_phone := None;
     u_agencyId := Some agencyX; u_role := MANAGER; u_isActive := true |}.

Definition adminDan : AuthenticatedUser :=
  {| userId := "bbbbbbbbbbbbbbbbbbbbbbb5"; email := "dan@z.com"; role := ADMIN;
     agencyId := None |}.

Definition erinId : string := "bbbbbbbbbbbbbbbbbbbbbbb6".

Definition contactIdA : string := "ccccccccccccccccccccccc1".

Definition mkProperty (id agency status : string) (created : Z) : IProperty :=
  {| p_id := oid id; p_type := "apartment"; p_transactionType := "sale";
     p_status := status; p_price := 500000; p_area := 80;
     p_city := "Sao Paulo"; p_state := "SP"; p_neighborhood := "Centro";
     p_bedrooms := 2; p_bathrooms := 1; p_parkingSpaces := 1;
     p_agency := oid agency; p_owner := oid carolId; p_isActive := true;
     p_createdAt := created |}.

Definition propertyOld : IProperty :=
  mkProperty "fffffffffffffffffffffff1" agencyX "available" 1.
Definition propertyNew : IProperty :=
  mkProperty "fffffffffffffffffffffff2" agencyX "available" 2.
Definition propertySold : IProperty :=
  mkProperty "fffffffffffffffffffffff3" agencyX "sold" 3.
Definition propertyOfY : IProperty :=
  mkProperty "fffffffffffffffffffffff4" agencyY "available" 4.

Definition sampleProperties : list IProperty :=
  [propertyOld; propertyNew; propertySold; propertyOfY].

(** A body that names another agency and nothing else. *)
Definition moveToY : UpdatePropertyDto :=
  {| up_type := None; up_transactionType := None; up_status := None;
     up_price := None; up_area := None; up_address := None;
     up_features := None; up_agency := Some agencyY; up_owner := None;
     up_isActive := None |}.

Definition anyPreferences : Preferences :=
  {| pr_propertyType := None; pr_transactionType := None; pr_minPrice := None;
     pr_maxPrice := None; pr_city := None; pr_neighborhood := None;
     pr_bedrooms := None |}.


Definition campaignRunning : ICampaign :=
  setCampaign RUNNING (k_statistics campaignPaced) true campaignPaced.


Definition agencyRequest : CreateAgencyDto :=
  {| ca_name := "Z Imoveis"; ca_cnpj := "999"; ca_phone := "551130000000";
     ca_email := "z@z.com" |}.

(** Agencies X (owner Alice, member Bob) and Y (owner Carol, member Erin). *)
Definition tenancyXY : Tenancy :=
  {| agencies := [ {| a_id := oid agencyX; a_name := "X Imoveis"; a_cnpj := "123";
                      a_owner := oid aliceId; a_members := [oid bobId];
                      a_isActive := true |};
                   {| a_id := oid agencyY; a_name := "Y Imoveis"; a_cnpj := "456";
                      a_owner := oid carolId; a_members := [oid erinId];
                      a_isActive := true |} ];
     users := [ mkUser aliceId "alice@x.com" MANAGER (Some agencyX);
                mkUser bobId "bob@x.com" AGENT (Some agencyX);
                mkUser carolId "carol@y.com" MANAGER (Some agencyY);
                mkUser erinId "erin@y.com" AGENT (Some agencyY) ] |}.

Definition newCnpj : UpdateAgencyDto :=
  {| ua_name := None; ua_cnpj := Some "777" |}.

Definition carolInactive : IUser :=
  {| u_id := oid carolId; u_email := "carol@x.com";
     u_password := "hashed:secret"; u_name := "Carol"; u_phone := None;
     u_agencyId := Some agencyX; u_role := MANAGER; u_isActive := false |}.

Definition noKeyConfig : AiConfig :=
  {| cfg_provider := "openai"; cfg_apiKey := None |}.

Definition goalRequest : ExecuteGoalDto :=
  {| eg_goal := "Listar imoveis"; eg_agentType := "general_assistant" |}.

Definition toolsThenAnswer : list (option AssistantMessage) :=
  [Some (asksFor ["search_contacts"]); Some (answers "Pronto")].

Definition geminiToolsThenAnswer
    : list (option (@GeminiResponse textAgentRuntime)) :=
  [Some (@Build_GeminiResponse textAgentRuntime
           (Some [@Build_FunctionCall textAgentRuntime "search_contacts" "{}"])
           "");
   Some (@Build_GeminiResponse textAgentRuntime None "Pronto")].

(** ** Basic facts about ids and the store *)

Unset Implicit Arguments.

Lemma oid_eqb_eq (a b : ObjectId) : oid_eqb a b = true <-> a = b.
Proof.
  unfold oid_eqb; destruct a as [x], b as [y]; simpl.
  rewrite String.eqb_eq; split; intro H; [now subst | now inversion H].
Qed.

Lemma oid_eqb_refl (a : ObjectId) : oid_eqb a a = true.
Proof. now apply oid_eqb_eq. Qed.

Lemma ooid_eqb_eq (a : option ObjectId) (b : ObjectId) :
  ooid_eqb a b = true <-> a = Some b.
Proof.
  destruct a as [x|]; simpl.
  - rewrite oid_eqb_eq; split; intro H; [now subst | now inversion H].
  - split; discriminate.
Qed.

Section SortFacts.
Variable D : Type.
Variable createdAt : D -> Z.

Lemma insertDesc_In d x l :
  In x (insertDesc createdAt d l) <-> x = d \/ In x l.
Proof.
  induction l as [|y r IH]; simpl.
  - intuition.
  - destruct (createdAt y <? createdAt d)%Z; simpl; [intuition|].
    rewrite IH; intuition.
Qed.

Lemma sortDesc_In x l : In x (sortDesc createdAt l) <-> In x l.
Proof.
  induction l as [|y r IH]; simpl; [tauto|].
  rewrite insertDesc_In, IH; intuition.
Qed.

Lemma findSorted_In matches coll x :
  In x (findSorted createdAt matches coll) <-> In x coll /\ matches x = true.
Proof. unfold findSorted. now rewrite sortDesc_In, filter_In. Qed.

End SortFacts.

Section StoreFacts.
Variable D : Type.
Variable idOf : D -> ObjectId.

Lemma findById_id id coll d : findById idOf id coll = Some d -> idOf d = id.
Proof.
  unfold findById; intro H. apply find_some in H. now apply oid_eqb_eq.
Qed.

Lemma findById_save id coll d d' :
  findById idOf id coll = Some d -> idOf d' = id ->
  findById idOf id (save idOf d' coll) = Some d'.
Proof.
  unfold findById, save; intros H E; subst id.
  induction coll as [|x r IH]; simpl in *; [discriminate|].
  destruct (oid_eqb (idOf x) (idOf d')) eqn:Hx.
  - simpl. now rewrite oid_eqb_refl.
  - simpl. rewrite Hx. auto.
Qed.
End StoreFacts.

Section Verification.
Context {rt : Runtime} {crypto : Crypto} {art : AgentRuntime}.

(** ** Tenant isolation of listings *)

Lemma mkId_Some (o : option string) (i : ObjectId) :
  mkId o = Ok i -> exists s, o = Some s /\ newObjectId s = Some i.
Proof.
  destruct o as [s|]; simpl; [|discriminate].
  destruct (newObjectId s) eqn:E; simpl; [|discriminate].
  intro H; inversion H; subst; eauto.
Qed.

Lemma scope_nonadmin (user : AuthenticatedUser) (fa : option string)
    (o : option ObjectId) :
  role user <> ADMIN -> PropertiesService_scope user fa = Ok o ->
  exists s i, agencyId user = Some s /\ newObjectId s = Some i /\ o = Some i.
Proof.
  intros Hr; unfold PropertiesService_scope.
  destruct (role user) eqn:R; [congruence| | |]; simpl;
    (destruct (truthy (agencyId user)); simpl; [|discriminate];
     destruct (mkId (agencyId user)) as [i|e] eqn:M; simpl; [|discriminate];
     intro H; inversion H; subst;
     apply mkId_Some in M; destruct M as [s [? ?]]; eauto).
Qed.

Lemma property_query_agency (user : AuthenticatedUser)
    (filters : option PropertyFilters) (q : PropertyQuery) :
  role user <> ADMIN -> PropertiesService_query user filters = Ok q ->
  exists s i, agencyId user = Some s /\ newObjectId s = Some i
              /\ pq_agency q = Some i.
Proof.
  intros Hr; unfold PropertiesService_query.
  destruct (PropertiesService_scope user _) as [o|e] eqn:S; simpl; [|discriminate].
  apply scope_nonadmin in S; [|assumption].
  destruct S as [s [i [Ha [Hn Ho]]]].
  destruct filters as [f|].
  - destruct (compileOpt (pf_city f)); simpl; [|discriminate].
    destruct (compileOpt (pf_neighborhood f)); simpl; [|discriminate].
    intro H; inversion H; subst; simpl; eauto.
  - intro H; inversion H; subst; simpl; eauto.
Qed.

Lemma contact_query_agency (user : AuthenticatedUser)
    (filters : option ContactFilters) (q : ContactQuery) :
  role user <> ADMIN -> ContactsService_query user filters = Ok q ->
  exists s i, agencyId user = Some s /\ newObjectId s = Some i
              /\ cq_agency q = Some i.
Proof.
  intros Hr; unfold ContactsService_query.
  destruct (role_eqb (role user) ADMIN) eqn:R.
  { destruct (role user); simpl in R; congruence. }
  destruct (truthy (agencyId user)); simpl; [|discriminate].
  destruct (mkId (agencyId user)) as [i|e] eqn:M; simpl; [|discriminate].
  apply mkId_Some in M; destruct M as [s [Ha Hn]].
  assert (Hscoped : forall scoped,
            (if role_eqb (role user) AGENT
             then u <- orThrow (newObjectId (userId user)) InternalError ;;
                  Ok (set_cq_assignedTo u (set_cq_agency i contactQuery0))
             else Ok (set_cq_agency i contactQuery0)) = Ok scoped ->
            cq_agency scoped = Some i).
  { intros scoped. destruct (role_eqb (role user) AGENT).
    - destruct (newObjectId (userId user)); simpl; [|discriminate].
      intro H; inversion H; reflexivity.
    - intro H; inversion H; reflexivity. }
  destruct (if role_eqb (role user) AGENT then _ else _) as [scoped|e] eqn:Sc;
    simpl; [|discriminate].
  specialize (Hscoped scoped eq_refl).
  destruct filters as [f|]; [|intro H; inversion H; subst; eauto].
  destruct (truthyValid (cf_assignedTo f)).
  - destruct (mkId (cf_assignedTo f)); simpl; [|discriminate].
    destruct (cf_tags f) as [[|t ts]|]; intro H; inversion H; subst; simpl;
      exists s, i; repeat split; auto;
      destruct (truthy (cf_status f)), (truthy (cf_origin f)),
               (truthy (cf_urgency f)); simpl; assumption.
  - simpl.
    destruct (cf_tags f) as [[|t ts]|]; intro H; inversion H; subst; simpl;
      exists s, i; repeat split; auto;
      destruct (truthy (cf_status f)), (truthy (cf_origin f)),
               (truthy (cf_urgency f)); simpl; assumption.
Qed.

Lemma campaign_query_agency (user : AuthenticatedUser)
    (filters : option CampaignFilters) (q : CampaignQuery) :
  role user <> ADMIN -> CampaignsService_query user filters = Ok q ->
  exists s i, agencyId user = Some s /\ newObjectId s = Some i
              /\ kq_agency q = Some i.
Proof.
  intros Hr; unfold CampaignsService_query.
  destruct (role_eqb (role user) ADMIN) eqn:R.
  { destruct (role user); simpl in R; congruence. }
  destruct (truthy (agencyId user)); simpl; [|discriminate].
  destruct (mkId (agencyId user)) as [i|e] eqn:M; simpl; [|discriminate].
  apply mkId_Some in M; destruct M as [s [Ha Hn]].
  intro H; inversion H; subst; simpl; eauto.
Qed.

Ltac split_andb H :=
  repeat (let H' := fresh "M" in
          apply andb_prop in H; destruct H as [H H']).

(** C1. For every actor whose role is not admin, each of the three listing
    operations (properties, contacts, campaigns) either throws or returns
    only documents whose agency is the id built from the actor's
    [agencyId]. *)
Theorem listings_are_tenant_isolated (user : AuthenticatedUser)
    (Hrole : role user <> ADMIN) :
  (forall filters db docs,
      PropertiesService_findAll user filters db = Ok docs ->
      exists s i, agencyId user = Some s /\ newObjectId s = Some i /\
                  forall p, In p docs -> p_agency p = i) /\
  (forall filters db docs,
      ContactsService_findAll user filters db = Ok docs ->
      exists s i, agencyId user = Some s /\ newObjectId s = Some i /\
                  forall c, In c docs -> c_agency c = Some i) /\
  (forall filters db docs,
      CampaignsService_findAll user filters db = Ok docs ->
      exists s i, agencyId user = Some s /\ newObjectId s = Some i /\
                  forall k, In k docs -> k_agency k = Some i).
Proof.
  repeat split.
  - intros filters db docs. unfold PropertiesService_findAll.
    destruct (PropertiesService_query user filters) as [q|e] eqn:Q; simpl;
      [|discriminate].
    destruct (property_query_agency _ _ _ Hrole Q) as [s [i [Ha [Hn Hq]]]].
    intro H; inversion H; subst. exists s, i; repeat split; auto.
    intros p Hp. apply findSorted_In in Hp. destruct Hp as [_ Hm].
    unfold property_matches in Hm. split_andb Hm.
    rewrite Hq in *. simpl in *.
    match goal with
    | X : oid_eqb (p_agency p) i = true |- _ => now apply oid_eqb_eq in X
    end.
  - intros filters db docs. unfold ContactsService_findAll.
    destruct (ContactsService_query user filters) as [q|e] eqn:Q; simpl;
      [|discriminate].
    destruct (contact_query_agency _ _ _ Hrole Q) as [s [i [Ha [Hn Hq]]]].
    intro H; inversion H; subst. exists s, i; repeat split; auto.
    intros c Hc. apply findSorted_In in Hc. destruct Hc as [_ Hm].
    unfold contact_matches in Hm. split_andb Hm.
    rewrite Hq in *. simpl in *.
    match goal with
    | X : ooid_eqb (c_agency c) i = true |- _ => now apply ooid_eqb_eq in X
    end.
  - intros filters db docs. unfold CampaignsService_findAll.
    destruct (CampaignsService_query user filters) as [q|e] eqn:Q; simpl;
      [|discriminate].
    destruct (campaign_query_agency _ _ _ Hrole Q) as [s [i [Ha [Hn Hq]]]].
    intro H; inversion H; subst. exists s, i; repeat split; auto.
    intros k Hk. apply findSorted_In in Hk. destruct Hk as [_ Hm].
    unfold campaign_matches in Hm. split_andb Hm.
    rewrite Hq in *. simpl in *.
    match goal with
    | X : ooid_eqb (k_agency k) i = true |- _ => now apply ooid_eqb_eq in X
    end.
Qed.

(** ** Campaign audience and execution *)

Lemma audience_of_running (campaign : ICampaign) (contacts : list IContact) :
  CampaignsService_getAudienceContacts (setStatus RUNNING campaign) contacts
  = CampaignsService_getAudienceContacts campaign contacts.
Proof. reflexivity. Qed.

(** C2. With a non-empty explicit contact-id list the audience is exactly
    the active contacts with one of those ids, whatever their agency; and
    there is an execution that messages a contact of another tenant. *)
Theorem explicit_audience_crosses_tenants :
  (forall campaign contacts,
      specificContacts (k_audience campaign) <> [] ->
      CampaignsService_getAudienceContacts campaign contacts
      = filter (fun c =>
                  existsb (oid_eqb (c_id c)) (specificContacts (k_audience campaign))
                  && Bool.eqb (c_isActive c) true)
               contacts) /\
  (forall campaign agency i contacts,
      specificContacts (k_audience campaign) <> [] ->
      newObjectId agency = Some i ->
      CampaignsService_calculateAudienceCount (k_audience campaign) agency contacts
      = Ok (List.length (specificContacts (k_audience campaign)))) /\
  (exists campaign user contacts bridge c text,
      In c (CampaignsService_getAudienceContacts campaign contacts) /\
      c_agency c <> k_agency campaign /\
      ex_result (@CampaignsService_execute hexRuntime bridge campaignId user
                   [campaign] contacts) = Ok (1, 0) /\
      In (SendText (k_evolutionInstanceId campaign) (c_phone c) text)
         (ex_trace (@CampaignsService_execute hexRuntime bridge campaignId user
                      [campaign] contacts))).
Proof.
  split; [|split].
  - intros campaign contacts Hne.
    unfold CampaignsService_getAudienceContacts.
    destruct (specificContacts (k_audience campaign)) as [|i ids] eqn:E;
      [congruence|]. simpl nonEmpty. cbv iota.
    apply filter_ext. intro c. unfold contact_matches; simpl.
    now rewrite !andb_true_r.
  - intros campaign agency i contacts Hne Hi.
    unfold CampaignsService_calculateAudienceCount. rewrite Hi; simpl.
    destruct (specificContacts (k_audience campaign)) as [|j ids] eqn:E;
      [congruence|]. reflexivity.
  - exists campaignToY, managerCarol, sampleContacts, alwaysDelivers,
           contactOfY, "Oi Yara".
    repeat split.
    + vm_compute. tauto.
    + vm_compute. intro H; discriminate H.
    + vm_compute. tauto.
Qed.

Lemma sendStep_counts (bridge : Bridge) (campaign : ICampaign)
    (st : LoopState) (contact : IContact) :
  ls_sent (sendStep bridge campaign st contact)
  + ls_failed (sendStep bridge campaign st contact)
  = S (ls_sent st + ls_failed st).
Proof.
  unfold sendStep.
  destruct (CampaignsService_replaceVariables _ _ contact) as [message|];
    simpl; [|lia].
  destruct (bridge _ _ _ message); simpl; lia.
Qed.

Lemma fold_sendStep_counts (bridge : Bridge) (campaign : ICampaign)
    (contacts : list IContact) (st : LoopState) :
  ls_sent (fold_left (sendStep bridge campaign) contacts st)
  + ls_failed (fold_left (sendStep bridge campaign) contacts st)
  = ls_sent st + ls_failed st + List.length contacts.
Proof.
  revert st; induction contacts as [|c r IH]; intro st; simpl; [lia|].
  rewrite IH, sendStep_counts. lia.
Qed.

Lemma sendLoop_counts (bridge : Bridge) (campaign : ICampaign)
    (contacts : list IContact) :
  ls_sent (sendLoop bridge campaign contacts)
  + ls_failed (sendLoop bridge campaign contacts)
  = List.length contacts.
Proof. unfold sendLoop. now rewrite fold_sendStep_counts. Qed.

Lemma sendStep_trace (bridge : Bridge) (campaign : ICampaign)
    (st : LoopState) (contact : IContact) :
  ls_trace (sendStep bridge campaign st contact)
  = ls_trace st ++ stepEffects campaign contact.
Proof.
  unfold sendStep, stepEffects.
  destruct (CampaignsService_replaceVariables _ _ contact) as [message|]; simpl.
  - destruct (bridge _ _ _ message); simpl; now rewrite <- app_assoc.
  - now rewrite app_nil_r.
Qed.

Lemma fold_sendStep_trace (bridge : Bridge) (campaign : ICampaign)
    (contacts : list IContact) (st : LoopState) :
  ls_trace (fold_left (sendStep bridge campaign) contacts st)
  = ls_trace st ++ flat_map (stepEffects campaign) contacts.
Proof.
  revert st; induction contacts as [|c r IH]; intro st; simpl.
  - now rewrite app_nil_r.
  - rewrite IH, sendStep_trace. now rewrite <- app_assoc.
Qed.

Lemma execute_unfold (bridge : Bridge) (id : string) (user : AuthenticatedUser)
    (db : list ICampaign) (contactsDb : list IContact) (campaign : ICampaign) :
  mayExecute id user db campaign ->
  CampaignsService_execute bridge id user db contactsDb
  = let running := setStatus RUNNING campaign in
    let db' := save k_id running db in
    match CampaignsService_getAudienceContacts campaign contactsDb with
    | [] => stopped BadRequestException (save k_id (setStatus COMPLETED running) db')
    | c :: cs =>
        let final := sendLoop bridge running (c :: cs) in
        {| ex_result := Ok (ls_sent final, ls_failed final);
           ex_campaigns :=
             save k_id
               (setCampaign COMPLETED
                  {| totalContacts := totalContacts (k_statistics running);
                     sent := ls_sent final; failed := ls_failed final |}
                  (k_isActive running) running) db';
           ex_trace := ls_trace final |}
    end.
Proof.
  intros [Hv [[i [Hi Hf]] [Hperm [Hr Hc]]]].
  unfold CampaignsService_execute, findByIdString.
  rewrite Hv, Hi; simpl. rewrite Hf.
  assert (Hp : (if role_eqb (role user) ADMIN then Ok false
                else campaignAgencyDiffers campaign user) = Ok false).
  { destruct Hperm as [Ha | [a [Hk Hu]]].
    - now rewrite Ha.
    - destruct (role_eqb (role user) ADMIN); [reflexivity|].
      unfold campaignAgencyDiffers. rewrite Hk, Hu; simpl.
      now rewrite String.eqb_refl. }
  rewrite Hp.
  destruct (k_status campaign) eqn:St; try congruence; simpl;
    rewrite audience_of_running;
    destruct (CampaignsService_getAudienceContacts campaign contactsDb);
    reflexivity.
Qed.

Lemma fold_sendStep_exact (bridge : Bridge) (campaign : ICampaign)
    (contacts : list IContact) (st : LoopState) :
  let final := fold_left (sendStep bridge campaign) contacts st in
  let replies := bridgeReplies bridge (ls_calls st) (attempts campaign contacts) in
  ls_sent final = ls_sent st + List.length (filter (fun b => b) replies) /\
  ls_failed final
  = ls_failed st + List.length (unrendered campaign contacts)
    + List.length (filter negb replies).
Proof.
  revert st. induction contacts as [|c r IH]; intro st; cbn zeta.
  - cbn. split; lia.
  - cbn [fold_left]. destruct (IH (sendStep bridge campaign st c)) as [IH1 IH2].
    cbn zeta in IH1, IH2. rewrite IH1, IH2. clear IH IH1 IH2.
    unfold attempts, unrendered. cbn [flat_map filter].
    fold (attempts campaign r). fold (unrendered campaign r).
    unfold sendStep. fold (renderFor campaign c).
    destruct (renderFor campaign c) as [message|]; cbn [isSome negb app].
    + cbn [bridgeReplies].
      destruct (bridge (ls_calls st) (k_evolutionInstanceId campaign)
                  (c_phone c) message);
        cbn [ls_sent ls_failed ls_calls filter negb List.length]; split; lia.
    + cbn [ls_sent ls_failed ls_calls List.length]. split; lia.
Qed.

(** C6. An execution that passes the guards (valid id, campaign found,
    caller admin or of the campaign's agency, status neither running nor
    completed) always leaves the campaign completed.  With an empty audience
    it throws BadRequest.  With an audience of [n > 0] contacts it returns:
    the loop goes through every contact, handing to the bridge one send for
    each contact whose message could be built, whatever the earlier sends
    did; the persisted [sent] is the number of sends that returned, the
    persisted [failed] is the number of sends that threw plus the number of
    contacts whose message could not be built, and [sent + failed = n]. *)
Theorem execute_completes_and_counts (bridge : Bridge) (id : string)
    (user : AuthenticatedUser) (db : list ICampaign)
    (contactsDb : list IContact) (campaign : ICampaign)
    (Hguards : mayExecute id user db campaign) :
  let run := CampaignsService_execute bridge id user db contactsDb in
  let audience := CampaignsService_getAudienceContacts campaign contactsDb in
  let replies := bridgeReplies bridge 0 (attempts campaign audience) in
  exists final,
    findById k_id (k_id campaign) (ex_campaigns run) = Some final /\
    k_status final = COMPLETED /\
    (audience = [] -> ex_result run = Throw BadRequestException) /\
    (audience <> [] ->
       ex_result run = Ok (sent (k_statistics final), failed (k_statistics final)) /\
       ex_trace run = flat_map (stepEffects campaign) audience /\
       sent (k_statistics final) = List.length (filter (fun b => b) replies) /\
       failed (k_statistics final)
       = List.length (filter negb replies)
         + List.length (unrendered campaign audience) /\
       sent (k_statistics final) + failed (k_statistics final)
       = List.length audience).
Proof.
  intros run audience replies. subst run replies.
  rewrite (execute_unfold bridge id user db contactsDb campaign Hguards).
  destruct Hguards as [_ [[i [_ Hf]] _]].
  pose proof (findById_id _ _ _ _ _ Hf) as Hid. subst i.
  assert (Hrun : findById k_id (k_id campaign)
                   (save k_id (setStatus RUNNING campaign) db)
                 = Some (setStatus RUNNING campaign)).
  { now apply findById_save with (d := campaign). }
  fold audience. cbv zeta.
  destruct audience as [|c cs] eqn:E.
  - exists (setStatus COMPLETED (setStatus RUNNING campaign)).
    split; [|split; [|split]].
    + simpl ex_campaigns.
      now apply findById_save with (d := setStatus RUNNING campaign).
    + reflexivity.
    + reflexivity.
    + intros H'; congruence.
  - eexists. split; [|split; [|split]].
    + simpl ex_campaigns.
      apply findById_save with (d := setStatus RUNNING campaign);
        [exact Hrun | reflexivity].
    + reflexivity.
    + discriminate.
    + intros _.
      destruct (fold_sendStep_exact bridge (setStatus RUNNING campaign) (c :: cs)
                  {| ls_sent := 0; ls_failed := 0; ls_calls := 0; ls_trace := [] |})
        as [Hs Hfl].
      cbn zeta in Hs, Hfl. cbn [ls_sent ls_failed ls_calls] in Hs, Hfl.
      change (attempts (setStatus RUNNING campaign) (c :: cs))
        with (attempts campaign (c :: cs)) in Hs, Hfl.
      change (unrendered (setStatus RUNNING campaign) (c :: cs))
        with (unrendered campaign (c :: cs)) in Hfl.
      fold (sendLoop bridge (setStatus RUNNING campaign) (c :: cs)) in Hs, Hfl.
      split; [reflexivity|]. split; [|split; [|split]].
      * cbn [ex_trace]. unfold sendLoop. rewrite fold_sendStep_trace.
        cbn [ls_trace app]. reflexivity.
      * cbn [k_statistics setCampaign sent]. rewrite Hs. lia.
      * cbn [k_statistics setCampaign failed]. rewrite Hfl. lia.
      * cbn [k_statistics setCampaign sent failed].
        apply (sendLoop_counts bridge (setStatus RUNNING campaign) (c :: cs)).
Qed.

(** C8 (as the code has it). In an execution that passes the guards, with a
    positive [rateLimitMs], the pause comes before every send, the first
    one included: the trace is, contact by contact, the delay followed by the
    send of the rendered message (no send when rendering throws). *)
Theorem rate_limit_precedes_every_send (bridge : Bridge) (id : string)
    (user : AuthenticatedUser) (db : list ICampaign)
    (contactsDb : list IContact) (campaign : ICampaign)
    (Hguards : mayExecute id user db campaign)
    (Hrate : (0 < k_rateLimitMs campaign)%Z) :
  ex_trace (CampaignsService_execute bridge id user db contactsDb)
  = flat_map
      (fun contact =>
         Delay (k_rateLimitMs campaign)
         :: match CampaignsService_replaceVariables
                    (template (k_message campaign))
                    (match variables (k_message campaign) with
                     | Some m => m
                     | None => []
                     end) contact with
            | Some message =>
                [SendText (k_evolutionInstanceId campaign) (c_phone contact) message]
            | None => []
            end)
      (CampaignsService_getAudienceContacts campaign contactsDb).
Proof.
  rewrite (execute_unfold bridge id user db contactsDb campaign Hguards).
  cbv zeta.
  destruct (CampaignsService_getAudienceContacts campaign contactsDb)
    as [|c cs] eqn:E; [reflexivity|].
  simpl ex_trace. unfold sendLoop. rewrite fold_sendStep_trace. simpl ls_trace.
  rewrite app_nil_l. apply flat_map_ext. intro contact.
  unfold stepEffects, rateLimit. simpl.
  apply Z.ltb_lt in Hrate. now rewrite Hrate.
Qed.

(** ** Template rendering *)

Lemma getSubstitution_plain (matched before after repl : string) :
  noDollar repl = true -> getSubstitution matched before after repl = repl.
Proof.
  induction repl as [|c r IH]; [reflexivity|].
  unfold noDollar; simpl allChars. intro H.
  apply andb_prop in H. destruct H as [Hc Hr].
  apply negb_true_iff in Hc.
  change (getSubstitution matched before after (String c r))
    with (if Ascii.eqb c "$"
          then match r with
               | EmptyString => String c EmptyString
               | String d r' =>
                   if Ascii.eqb d "$" then
                     String "$" (getSubstitution matched before after r')
                   else if Ascii.eqb d "`" then
                     (before ++ getSubstitution matched before after r')%string
                   else if Ascii.eqb d "&" then
                     (matched ++ getSubstitution matched before after r')%string
                   else if Ascii.eqb d "'" then
                     (after ++ getSubstitution matched before after r')%string
                   else String c (getSubstitution matched before after r)
               end
          else String c (getSubstitution matched before after r)).
  rewrite Hc. f_equal. now apply IH.
Qed.

Lemma replaceScan_before (pat repl : string) :
  noDollar repl = true ->
  forall s skip b b',
    replaceScan pat repl skip b s = replaceScan pat repl skip b' s.
Proof.
  intros Hr s; induction s as [|c r IH]; intros skip b b'; [reflexivity|].
  destruct skip as [|k]; cbn [replaceScan].
  - destruct (startsWith pat (String c r)).
    + rewrite !getSubstitution_plain by assumption. f_equal. apply IH.
    + f_equal. apply IH.
  - apply IH.
Qed.

Lemma mismatch_sound (pat s rest : string) :
  mismatch pat s = true -> startsWith pat (s ++ rest) = false.
Proof.
  revert s. induction pat as [|a p IH]; intros s H; [discriminate H|].
  destruct s as [|c r]; [discriminate H|].
  cbn [mismatch] in H. cbn [append startsWith].
  destruct (Ascii.eqb a c); [|reflexivity].
  cbn [andb]. now apply IH.
Qed.

Lemma replaceScan_never (pat repl s rest b : string) :
  noDollar repl = true -> neverStarts pat s = true ->
  replaceScan pat repl 0 b (s ++ rest)
  = (s ++ replaceScan pat repl 0 b rest)%string.
Proof.
  intros Hr. revert b. induction s as [|c t IH]; intros b Hs; [reflexivity|].
  cbn [neverStarts] in Hs. apply andb_prop in Hs. destruct Hs as [Hm Ht].
  pose proof (mismatch_sound pat (String c t) rest Hm) as Hp.
  cbn [append] in *. cbn [replaceScan]. rewrite Hp. f_equal.
  rewrite (replaceScan_before _ _ Hr _ 0 _ b). now apply IH.
Qed.

Lemma noBrace_neverStarts (pat' text : string) :
  noBrace text = true -> neverStarts (String "{" pat') text = true.
Proof.
  unfold noBrace. induction text as [|c t IH]; intro H; [reflexivity|].
  cbn [allChars] in H. apply andb_prop in H. destruct H as [Hc Ht].
  apply negb_true_iff in Hc. cbn [neverStarts mismatch].
  rewrite Ascii.eqb_sym, Hc. cbn [andb]. now apply IH.
Qed.

Lemma replaceScan_text (pat' repl text rest b : string) :
  noDollar repl = true -> noBrace text = true ->
  replaceScan (String "{" pat') repl 0 b (text ++ rest)
  = (text ++ replaceScan (String "{" pat') repl 0 b rest)%string.
Proof.
  intros Hr Ht. apply replaceScan_never; [exact Hr|].
  now apply noBrace_neverStarts.
Qed.

Lemma startsWith_app (pat rest : string) : startsWith pat (pat ++ rest) = true.
Proof.
  induction pat as [|a p IH]; [reflexivity|].
  cbn [append startsWith]. now rewrite Ascii.eqb_refl, IH.
Qed.

Lemma dropChars_app (pat rest : string) :
  dropChars (String.length pat) (pat ++ rest) = rest.
Proof.
  induction pat as [|a p IH]; [now destruct rest|]. exact IH.
Qed.

Lemma replaceScan_skip (pat repl s rest b : string) :
  noDollar repl = true ->
  replaceScan pat repl (String.length s) b (s ++ rest)
  = replaceScan pat repl 0 b rest.
Proof.
  intros Hr. revert b. induction s as [|c t IH]; intros b; [reflexivity|].
  cbn [String.length append replaceScan].
  rewrite (replaceScan_before _ _ Hr _ _ _ b). apply IH.
Qed.

(** An occurrence of the pattern at the head of the input is replaced. *)
Lemma replaceScan_hit (a : ascii) (p repl rest b : string) :
  noDollar repl = true ->
  replaceScan (String a p) repl 0 b (String a p ++ rest)
  = (repl ++ replaceScan (String a p) repl 0 b rest)%string.
Proof.
  intros Hr.
  pose proof (startsWith_app (String a p) rest) as Hs.
  pose proof (dropChars_app (String a p) rest) as Hd.
  cbn [append] in *. cbn [replaceScan]. rewrite Hs, Hd.
  rewrite getSubstitution_plain by assumption. f_equal.
  cbn [String.length]. rewrite Nat.sub_succ, Nat.sub_0_r.
  rewrite replaceScan_skip by assumption.
  apply (replaceScan_before _ _ Hr).
Qed.

Lemma noBrace_app (a b : string) :
  noBrace a = true -> noBrace b = true -> noBrace (a ++ b) = true.
Proof.
  unfold noBrace. induction a as [|c r IH]; intros Ha Hb; [exact Hb|].
  simpl in *. apply andb_prop in Ha. destruct Ha as [Hc Hr].
  rewrite Hc. now apply IH.
Qed.

Lemma allChars_impl (f g : ascii -> bool) (s : string) :
  (forall c, f c = true -> g c = true) ->
  allChars f s = true -> allChars g s = true.
Proof.
  intro Hfg. induction s as [|c r IH]; intro H; [reflexivity|].
  cbn [allChars] in *. apply andb_prop in H. destruct H as [Hc Hr].
  now rewrite (Hfg c Hc), IH.
Qed.

Lemma noBraces_noBrace (s : string) : noBraces s = true -> noBrace s = true.
Proof.
  apply allChars_impl. intros c H. now apply andb_prop in H.
Qed.

Lemma isKeyChar_noBraces (c : ascii) :
  isKeyChar c = true -> negb (Ascii.eqb c "{") && negb (Ascii.eqb c "}") = true.
Proof.
  intro H.
  destruct (Ascii.eqb c "{") eqn:E1;
    [apply Ascii.eqb_eq in E1; subst c; vm_compute in H; discriminate H|].
  destruct (Ascii.eqb c "}") eqn:E2;
    [apply Ascii.eqb_eq in E2; subst c; vm_compute in H; discriminate H|].
  reflexivity.
Qed.

Lemma literalKey_noBraces (key : string) :
  literalKey key = true -> noBraces key = true.
Proof.
  destruct key as [|c r]; [discriminate|]. unfold literalKey. intro H.
  apply andb_prop in H. destruct H as [_ H].
  exact (allChars_impl _ _ _ isKeyChar_noBraces H).
Qed.

(** Two placeholders with different names: the pattern of the first
    matches nowhere inside the second. *)
Lemma mismatch_names (k a : string) :
  noBraces k = true -> noBraces a = true -> k <> a ->
  mismatch (k ++ "}}") (a ++ "}}") = true.
Proof.
  unfold noBraces. revert a.
  induction k as [|c r IH]; intros [|d t] Hk Ha Hne.
  - contradiction.
  - cbn [allChars] in Ha. apply andb_prop in Ha. destruct Ha as [Hd _].
    apply andb_prop in Hd. destruct Hd as [_ Hd]. apply negb_true_iff in Hd.
    cbn [append mismatch]. now rewrite Ascii.eqb_sym, Hd.
  - cbn [allChars] in Hk. apply andb_prop in Hk. destruct Hk as [Hc _].
    apply andb_prop in Hc. destruct Hc as [_ Hc]. apply negb_true_iff in Hc.
    cbn [append mismatch]. now rewrite Hc.
  - cbn [allChars] in Hk, Ha.
    apply andb_prop in Hk. destruct Hk as [_ Hr].
    apply andb_prop in Ha. destruct Ha as [_ Ht].
    cbn [append mismatch]. destruct (Ascii.eqb c d) eqn:E; [|reflexivity].
    apply Ascii.eqb_eq in E. subst d. apply IH; try assumption.
    intro Heq. apply Hne. now rewrite Heq.
Qed.

Lemma field_neverStarts (k a : string) :
  noBraces k = true -> noBraces a = true -> k <> a ->
  neverStarts (pieceSource (Field k)) (pieceSource (Field a)) = true.
Proof.
  intros Hk Ha Hne. cbn [pieceSource append neverStarts].
  apply andb_true_intro. split; [|apply andb_true_intro; split].
  - cbn [mismatch]. rewrite Ascii.eqb_refl. now apply mismatch_names.
  - cbn [mismatch]. rewrite Ascii.eqb_refl.
    destruct a as [|d t]; [reflexivity|].
    unfold noBraces in Ha. cbn [allChars] in Ha.
    apply andb_prop in Ha. destruct Ha as [Hd _].
    apply andb_prop in Hd. destruct Hd as [Hd _]. apply negb_true_iff in Hd.
    cbn [append]. now rewrite Ascii.eqb_sym, Hd.
  - apply noBrace_neverStarts. apply noBrace_app; [|reflexivity].
    now apply noBraces_noBrace.
Qed.

Lemma replaceScan_field (name : string) (p : Piece) (v rest b : string) :
  noBraces name = true -> plainText [p] = true -> noDollar v = true ->
  replaceScan (pieceSource (Field name)) v 0 b (pieceSource p ++ rest)
  = (pieceSource (fillPiece name v p)
     ++ replaceScan (pieceSource (Field name)) v 0 b rest)%string.
Proof.
  intros Hn Hp Hv. cbn [plainText] in Hp. destruct p as [s|n].
  - rewrite andb_true_r in Hp. cbn [fillPiece].
    exact (replaceScan_text (String "{" (name ++ "}}")) v s rest b Hv Hp).
  - rewrite andb_true_r in Hp. cbn [fillPiece].
    destruct (String.eqb name n) eqn:E.
    + apply String.eqb_eq in E. subst n.
      exact (replaceScan_hit "{" (String "{" (name ++ "}}")) v rest b Hv).
    + apply String.eqb_neq in E.
      apply replaceScan_never; [exact Hv|]. now apply field_neverStarts.
Qed.

Lemma replaceScan_pieces (name v : string) (ps : list Piece) (b : string) :
  noBraces name = true -> noDollar v = true -> plainText ps = true ->
  replaceScan (pieceSource (Field name)) v 0 b (templateOf ps)
  = templateOf (map (fillPiece name v) ps).
Proof.
  intros Hn Hv. revert b. induction ps as [|p r IH]; intros b Hps; [reflexivity|].
  assert (Hp : plainText [p] = true /\ plainText r = true).
  { destruct p; cbn [plainText] in *; apply andb_prop in Hps;
      destruct Hps as [H1 H2]; rewrite H1; auto. }
  destruct Hp as [Hp Hr]. cbn [templateOf map].
  rewrite replaceScan_field by assumption. f_equal. now apply IH.
Qed.

Lemma plainText_fill (name v : string) (ps : list Piece) :
  noBrace v = true -> plainText ps = true ->
  plainText (map (fillPiece name v) ps) = true.
Proof.
  intros Hv. induction ps as [|p r IH]; intro Hps; [reflexivity|].
  destruct p as [s|n]; cbn [map plainText fillPiece] in *;
    apply andb_prop in Hps; destruct Hps as [H1 H2].
  - now rewrite H1, IH.
  - destruct (String.eqb name n); cbn [plainText];
      [rewrite Hv | rewrite H1]; now apply IH.
Qed.

Lemma fillAll_text (variables : list (string * string)) (s : string) :
  fillAll variables (Text s) = Text s.
Proof.
  unfold fillAll. induction variables as [|kv r IH]; [reflexivity|]. exact IH.
Qed.

Lemma fillAll_field (variables : list (string * string)) (n : string) :
  fillAll variables (Field n)
  = match lookupVar n variables with
    | Some v => Text v
    | None => Field n
    end.
Proof.
  induction variables as [|[k v] r IH]; [reflexivity|].
  unfold fillAll. cbn [fold_left fst snd fillPiece lookupVar].
  destruct (String.eqb k n); [apply fillAll_text | exact IH].
Qed.

Lemma fillAll_cons (kv : string * string) (r : list (string * string))
    (ps : list Piece) :
  map (fillAll (kv :: r)) ps = map (fillAll r) (map (fillPiece (fst kv) (snd kv)) ps).
Proof. rewrite map_map. reflexivity. Qed.

(** The global replacements, one literal key after the other. *)
Lemma replaceGlobals_pieces (variables : list (string * string)) :
  (forall key value input, In (key, value) variables -> literalKey key = true ->
     regexReplaceAll ("{{" ++ key ++ "}}") input value
     = Some (replaceAllLiteral ("{{" ++ key ++ "}}") value input)) ->
  plainVariables variables = true ->
  forall ps, plainText ps = true ->
    replaceGlobals variables (templateOf ps)
    = Some (templateOf (map (fillAll variables) ps))
    /\ plainText (map (fillAll variables) ps) = true.
Proof.
  induction variables as [|[k v] r IH]; intros Hengine Hvars ps Hps.
  - cbn [replaceGlobals]. unfold fillAll. cbn [fold_left].
    rewrite map_id. now split.
  - cbn [plainVariables forallb fst snd] in Hvars.
    apply andb_prop in Hvars. destruct Hvars as [Hkv Hr].
    apply andb_prop in Hkv. destruct Hkv as [Hk Hv].
    unfold plainValue in Hv. apply andb_prop in Hv. destruct Hv as [Hv1 Hv2].
    cbn [replaceGlobals].
    rewrite (Hengine k v (templateOf ps) (or_introl eq_refl) Hk).
    unfold replaceAllLiteral.
    change ("{{" ++ k ++ "}}")%string with (pieceSource (Field k)).
    rewrite replaceScan_pieces by (auto using literalKey_noBraces).
    rewrite fillAll_cons. cbn [fst snd].
    apply IH; [|exact Hr|now apply plainText_fill].
    intros key value input Hin. apply Hengine. now right.
Qed.

Lemma settle_fills (variables : list (string * string)) (contact : IContact)
    (p : Piece) :
  fillPiece "contact.phone" (c_phone contact)
    (fillPiece "contact.email" (orElse (c_email contact) "")
       (fillPiece "contact.name" (orElse (c_name contact) "Cliente")
          (fillAll variables p)))
  = settle variables contact p.
Proof.
  destruct p as [s|n]; [now rewrite fillAll_text|].
  rewrite fillAll_field. cbn [settle].
  destruct (lookupVar n variables); [reflexivity|].
  unfold contactValue. cbn [fillPiece].
  destruct (String.eqb "contact.name" n); [reflexivity|]. cbn [fillPiece].
  destruct (String.eqb "contact.email" n); [reflexivity|]. cbn [fillPiece].
  destruct (String.eqb "contact.phone" n); reflexivity.
Qed.

Lemma settled_is_rendered (variables : list (string * string))
    (contact : IContact) (ps : list Piece) :
  templateOf (map (settle variables contact) ps) = renderedOf variables contact ps.
Proof.
  induction ps as [|p r IH]; [reflexivity|].
  cbn [map templateOf renderedOf]. now rewrite IH.
Qed.

Lemma replaceContactFields_pieces (contact : IContact) (ps : list Piece) :
  plainText ps = true -> plainContact contact = true ->
  replaceContactFields contact (templateOf ps)
  = templateOf
      (map (fillPiece "contact.phone" (c_phone contact))
         (map (fillPiece "contact.email" (orElse (c_email contact) ""))
            (map (fillPiece "contact.name" (orElse (c_name contact) "Cliente"))
               ps))).
Proof.
  intros Hps Hc. unfold plainContact, plainValue in Hc.
  apply andb_prop in Hc. destruct Hc as [Hc Hphone].
  apply andb_prop in Hc. destruct Hc as [Hname Hemail].
  apply andb_prop in Hname. destruct Hname as [Hn1 Hn2].
  apply andb_prop in Hemail. destruct Hemail as [He1 He2].
  apply andb_prop in Hphone. destruct Hphone as [Hp1 Hp2].
  unfold replaceContactFields, replaceAllLiteral.
  change "{{contact.name}}" with (pieceSource (Field "contact.name")).
  change "{{contact.email}}" with (pieceSource (Field "contact.email")).
  change "{{contact.phone}}" with (pieceSource (Field "contact.phone")).
  rewrite (replaceScan_pieces "contact.name") by auto.
  rewrite (replaceScan_pieces "contact.email") by (auto using plainText_fill).
  rewrite (replaceScan_pieces "contact.phone") by (auto using plainText_fill).
  reflexivity.
Qed.

(** One rendering of a template given by its pieces. *)
Lemma replaceVariables_pieces (variables : list (string * string))
    (contact : IContact) (ps : list Piece) :
  (forall key value input, In (key, value) variables -> literalKey key = true ->
     regexReplaceAll ("{{" ++ key ++ "}}") input value
     = Some (replaceAllLiteral ("{{" ++ key ++ "}}") value input)) ->
  plainVariables variables = true -> plainText ps = true ->
  plainContact contact = true ->
  CampaignsService_replaceVariables (templateOf ps) variables contact
  = Some (renderedOf variables contact ps).
Proof.
  intros Hengine Hvars Hps Hc. unfold CampaignsService_replaceVariables.
  destruct (replaceGlobals_pieces variables Hengine Hvars ps Hps) as [Hg Hplain].
  rewrite Hg. cbn [option_map]. f_equal.
  rewrite replaceContactFields_pieces by assumption.
  rewrite !map_map. rewrite <- settled_is_rendered. f_equal.
  apply map_ext. intro p. apply settle_fills.
Qed.

Lemma lookupVar_plain (variables : list (string * string)) (n v : string) :
  plainVariables variables = true -> lookupVar n variables = Some v ->
  plainValue v = true.
Proof.
  induction variables as [|[k w] r IH]; intros Hvars H; [discriminate H|].
  cbn [plainVariables forallb fst snd] in Hvars.
  apply andb_prop in Hvars. destruct Hvars as [Hkv Hr].
  apply andb_prop in Hkv. destruct Hkv as [_ Hw].
  cbn [lookupVar] in H. destruct (String.eqb k n).
  - now injection H as <-.
  - now apply IH.
Qed.

Lemma contactValue_plain (contact : IContact) (n v : string) :
  plainContact contact = true -> contactValue contact n = Some v ->
  plainValue v = true.
Proof.
  intros Hc. unfold plainContact in Hc.
  apply andb_prop in Hc. destruct Hc as [Hc Hphone].
  apply andb_prop in Hc. destruct Hc as [Hname Hemail].
  unfold contactValue.
  destruct (String.eqb "contact.name" n); [now intros [= <-]|].
  destruct (String.eqb "contact.email" n); [now intros [= <-]|].
  destruct (String.eqb "contact.phone" n); [now intros [= <-]|discriminate].
Qed.

Lemma plainText_settle (variables : list (string * string)) (contact : IContact)
    (ps : list Piece) :
  plainVariables variables = true -> plainContact contact = true ->
  plainText ps = true ->
  plainText (map (settle variables contact) ps) = true.
Proof.
  intros Hvars Hc. induction ps as [|p r IH]; intro Hps; [reflexivity|].
  destruct p as [s|n]; cbn [map plainText settle] in *;
    apply andb_prop in Hps; destruct Hps as [H1 H2].
  - now rewrite H1, IH.
  - destruct (lookupVar n variables) as [v|] eqn:L.
    + pose proof (lookupVar_plain variables n v Hvars L) as Hv.
      unfold plainValue in Hv. apply andb_prop in Hv. destruct Hv as [Hv _].
      cbn [plainText]. now rewrite Hv, IH.
    + destruct (contactValue contact n) as [v|] eqn:C.
      * pose proof (contactValue_plain contact n v Hc C) as Hv.
        unfold plainValue in Hv. apply andb_prop in Hv. destruct Hv as [Hv _].
        cbn [plainText]. now rewrite Hv, IH.
      * cbn [plainText]. now rewrite H1, IH.
Qed.

Lemma settle_settled (variables : list (string * string)) (contact : IContact)
    (p : Piece) :
  settle variables contact (settle variables contact p)
  = settle variables contact p.
Proof.
  destruct p as [s|n]; [reflexivity|]. cbn [settle].
  destruct (lookupVar n variables) eqn:L; [reflexivity|].
  destruct (contactValue contact n) eqn:C; [reflexivity|].
  cbn [settle]. now rewrite L, C.
Qed.

Lemma rendered_noBrace (variables : list (string * string)) (contact : IContact)
    (ps : list Piece) :
  plainVariables variables = true -> plainContact contact = true ->
  plainText ps = true -> forallb (knownField variables contact) ps = true ->
  noBrace (renderedOf variables contact ps) = true.
Proof.
  intros Hvars Hc. induction ps as [|p r IH]; intros Hps Hk; [reflexivity|].
  cbn [forallb] in Hk. apply andb_prop in Hk. destruct Hk as [Hp Hk].
  cbn [renderedOf]. unfold pieceValue.
  destruct p as [s|n]; cbn [plainText settle knownField] in *;
    apply andb_prop in Hps; destruct Hps as [H1 H2].
  - apply noBrace_app; [exact H1 | now apply IH].
  - destruct (lookupVar n variables) as [v|] eqn:L.
    + pose proof (lookupVar_plain variables n v Hvars L) as Hv.
      unfold plainValue in Hv. apply andb_prop in Hv. destruct Hv as [Hv _].
      apply noBrace_app; [exact Hv | now apply IH].
    + destruct (contactValue contact n) as [v|] eqn:C; [|discriminate Hp].
      pose proof (contactValue_plain contact n v Hc C) as Hv.
      unfold plainValue in Hv. apply andb_prop in Hv. destruct Hv as [Hv _].
      apply noBrace_app; [exact Hv | now apply IH].
Qed.

(** C9 (as the code has it). For every variables map whose keys are
    literal (letters, digits and underscores, not starting with a digit, so
    that the pattern built from [{{key}}] matches that text and nothing
    else) and whose values hold neither an opening brace nor a dollar sign,
    every template made of text without an opening brace and of
    placeholders [{{name}}] with brace-free names, and every contact whose
    values hold neither an opening brace nor a dollar sign: one rendering
    replaces every placeholder naming a key of the map by that key's value
    and every contact placeholder by the contact's value (the name falling
    back to "Cliente"), also when the map is empty, and leaves any other
    placeholder as written; when every placeholder is of one of these two
    kinds no opening brace is left in the output; and rendering the output
    again with the same map and contact returns it unchanged. *)
Theorem rendering_of_plain_templates (ps : list Piece)
    (variables : list (string * string)) (contact : IContact)
    (Hengine : forall key value input,
       In (key, value) variables -> literalKey key = true ->
       regexReplaceAll ("{{" ++ key ++ "}}") input value
       = Some (replaceAllLiteral ("{{" ++ key ++ "}}") value input))
    (Hvars : plainVariables variables = true)
    (Htext : plainText ps = true) (Hcontact : plainContact contact = true) :
  CampaignsService_replaceVariables (templateOf ps) variables contact
  = Some (renderedOf variables contact ps) /\
  (forallb (knownField variables contact) ps = true ->
   noBrace (renderedOf variables contact ps) = true) /\
  CampaignsService_replaceVariables (renderedOf variables contact ps)
    variables contact
  = Some (renderedOf variables contact ps).
Proof.
  split; [|split].
  - now apply replaceVariables_pieces.
  - now apply rendered_noBrace.
  - rewrite <- settled_is_rendered at 1.
    rewrite replaceVariables_pieces
      by (auto using plainText_settle).
    f_equal. rewrite <- !settled_is_rendered, map_map. f_equal.
    apply map_ext. intro p. apply settle_settled.
Qed.

(** ** What an agent may update and delete *)

Lemma findByIdString_found {D} (idOf : D -> ObjectId) (id : string)
    (i : ObjectId) (coll : list D) (d : D) :
  newObjectId id = Some i -> findById idOf i coll = Some d ->
  findByIdString idOf id coll = Ok (Some d).
Proof. intros Hi Hf. unfold findByIdString. rewrite Hi; simpl. now rewrite Hf. Qed.

(** C3 (as the code has it). An agent may update a contact assigned to the
    agent: the call is not refused as Forbidden.  Deleting a contact, and
    updating or deleting a property or a campaign, is Forbidden for every
    agent, whoever owns the resource, and leaves the store unchanged. *)
Theorem agent_update_delete_policy (user : AuthenticatedUser)
    (Hagent : role user = AGENT) (id : string) (i : ObjectId)
    (Hvalid : isValid id = true) (Hid : newObjectId id = Some i) :
  (forall dto db contact,
      findById c_id i db = Some contact ->
      c_assignedTo contact = Some (oid (userId user)) ->
      fst (ContactsService_update id dto user db) <> Throw ForbiddenException) /\
  (forall db contact,
      findById c_id i db = Some contact ->
      ContactsService_remove id user db = (Throw ForbiddenException, db)) /\
  (forall dto db property,
      findById p_id i db = Some property ->
      PropertiesService_update id dto user db = (Throw ForbiddenException, db)) /\
  (forall db property,
      findById p_id i db = Some property ->
      PropertiesService_remove id user db = (Throw ForbiddenException, db)) /\
  (forall dto db campaign,
      findById k_id i db = Some campaign ->
      CampaignsService_update id dto user db = (Throw ForbiddenException, db)) /\
  (forall db campaign,
      findById k_id i db = Some campaign ->
      CampaignsService_remove id user db = (Throw ForbiddenException, db)).
Proof.
  repeat apply conj.
  - intros dto db contact Hf Ha. unfold ContactsService_update.
    rewrite Hvalid; simpl.
    rewrite (findByIdString_found c_id id i db contact Hid Hf).
    rewrite Hagent, Ha. unfold notAssignedTo, oid; simpl.
    rewrite String.eqb_refl; simpl.
    destruct (truthy (uc_assignedTo dto) && negb (truthyValid (uc_assignedTo dto)));
      [simpl; discriminate|].
    destruct (if truthy (uc_assignedTo dto)
              then a <- mkId (uc_assignedTo dto) ;; Ok (Some a)
              else Ok None) as [a|e]; [|simpl; discriminate].
    destruct (castKey (uc_agency dto)) as [agency|e]; [|simpl; discriminate].
    destruct (validContactUpdate dto); simpl; discriminate.
  - intros db contact Hf. unfold ContactsService_remove.
    rewrite Hvalid; simpl.
    rewrite (findByIdString_found c_id id i db contact Hid Hf).
    now rewrite Hagent.
  - intros dto db property Hf. unfold PropertiesService_update.
    rewrite Hvalid; simpl.
    rewrite (findByIdString_found p_id id i db property Hid Hf).
    unfold PropertiesService_mayModify. now rewrite Hagent.
  - intros db property Hf. unfold PropertiesService_remove.
    rewrite Hvalid; simpl.
    rewrite (findByIdString_found p_id id i db property Hid Hf).
    unfold PropertiesService_mayModify. now rewrite Hagent.
  - intros dto db campaign Hf. unfold CampaignsService_update.
    rewrite Hvalid; simpl.
    rewrite (findByIdString_found k_id id i db campaign Hid Hf).
    unfold CampaignsService_mayModify. now rewrite Hagent.
  - intros db campaign Hf. unfold CampaignsService_remove.
    rewrite Hvalid; simpl.
    rewrite (findByIdString_found k_id id i db campaign Hid Hf).
    unfold CampaignsService_mayModify. now rewrite Hagent.
Qed.

(** ** Registration *)

Lemma parseRole_value (r : UserRole) : parseRole (UserRole_value r) = Some r.
Proof. destruct r; reflexivity. Qed.

Lemma orElse_nonempty (s d : string) : s <> "" -> orElse (Some s) d = s.
Proof.
  intro H. unfold orElse. destruct (String.eqb s "") eqn:E; [|reflexivity].
  apply String.eqb_eq in E. contradiction.
Qed.

(** C5 (as the code has it). For a request that the user schema accepts
    apart from its role (non-empty e-mail and name, a password whose hash
    is not empty) and an e-mail not yet registered: the new user is a viewer
    when the role is omitted or empty; a supplied role that is one of the
    four role names is stored as given, with no check of who asks, so
    "admin" yields an admin; any other non-empty role makes the creation
    fail and nothing is stored. *)
Theorem register_role_is_caller_chosen (freshId : ObjectId) (dto : RegisterDto)
    (users : list IUser)
    (Hemail : r_email dto <> "") (Hname : r_name dto <> "")
    (Hhash : bcryptHash (r_password dto) <> "")
    (Hnew : List.find (fun u => String.eqb (u_email u) (r_email dto)) users = None) :
  (r_role dto = None \/ r_role dto = Some "" ->
     exists response,
       AuthService_register freshId dto users
       = (Ok response, users ++ [registered freshId dto VIEWER])
       /\ ar_role response = VIEWER) /\
  (forall r, r_role dto = Some (UserRole_value r) ->
     exists response,
       AuthService_register freshId dto users
       = (Ok response, users ++ [registered freshId dto r])
       /\ ar_role response = r) /\
  (r_role dto = Some "admin" ->
     exists response,
       AuthService_register freshId dto users
       = (Ok response, users ++ [registered freshId dto ADMIN])
       /\ ar_role response = ADMIN) /\
  (forall s, r_role dto = Some s -> s <> "" -> parseRole s = None ->
     AuthService_register freshId dto users = (Throw InternalError, users)).
Proof.
  assert (Hreq : required (r_email dto)
                 && required (bcryptHash (r_password dto))
                 && required (r_name dto) = true).
  { unfold required. apply String.eqb_neq in Hemail, Hname, Hhash.
    now rewrite Hemail, Hname, Hhash. }
  assert (Hvalue : forall r, r_role dto = Some (UserRole_value r) ->
            exists response,
              AuthService_register freshId dto users
              = (Ok response, users ++ [registered freshId dto r])
              /\ ar_role response = r).
  { intros r Hr. unfold AuthService_register, UserModel_create.
    rewrite Hnew, Hr, Hreq.
    rewrite orElse_nonempty by (destruct r; discriminate).
    rewrite parseRole_value. eexists. split; reflexivity. }
  split; [|split; [|split]].
  - intros Hr. unfold AuthService_register, UserModel_create. rewrite Hnew, Hreq.
    destruct Hr as [Hr|Hr]; rewrite Hr; simpl; eexists; split; reflexivity.
  - exact Hvalue.
  - intro Hr. exact (Hvalue ADMIN Hr).
  - intros s Hr Hs Hp. unfold AuthService_register, UserModel_create.
    rewrite Hnew, Hr, Hreq. rewrite orElse_nonempty by assumption. now rewrite Hp.
Qed.

(** ** Removing the owner of an agency *)

(** C10 (as the code has it). Asking to remove the owner of an existing
    agency, with the owner's id written as the store prints it
    ([agency.owner.toString()], the form the owner rule compares with),
    always fails and changes neither the agency nor any user: with
    BadRequest when the caller is an admin or the owner, and with BadRequest
    (invalid id) or Forbidden for every other caller.  Other spellings of
    the owner's id are outside this statement. *)
Theorem owner_is_never_removed (agencyId : string) (i : ObjectId)
    (user : AuthenticatedUser) (st : Tenancy) (agency : IAgency)
    (Hid : newObjectId agencyId = Some i)
    (Hfound : findById a_id i (agencies st) = Some agency) :
  let outcome :=
    AgenciesService_removeMember agencyId (toString (a_owner agency)) user st in
  snd outcome = st /\
  (role user = ADMIN \/ userId user = toString (a_owner agency) ->
     fst outcome = Throw BadRequestException) /\
  (fst outcome = Throw BadRequestException \/
   fst outcome = Throw ForbiddenException) /\
  (isValid agencyId = true -> isValid (toString (a_owner agency)) = true ->
   role user <> ADMIN -> userId user <> toString (a_owner agency) ->
     fst outcome = Throw ForbiddenException).
Proof.
  intro outcome. subst outcome. unfold AgenciesService_removeMember.
  destruct (negb (isValid agencyId) || negb (isValid (toString (a_owner agency))))
    eqn:V.
  - repeat split; auto.
    intros Ha Ho. rewrite Ha, Ho in V. discriminate V.
  - rewrite (findByIdString_found a_id agencyId i (agencies st) agency Hid Hfound).
    rewrite String.eqb_refl.
    destruct (role_eqb (role user) ADMIN) eqn:R; simpl.
    + repeat split; auto.
      intros _ _ Hr. destruct (role user); simpl in R; congruence.
    + destruct (String.eqb (toString (a_owner agency)) (userId user)) eqn:O; simpl.
      * repeat split; auto.
        intros _ _ _ Hu. apply String.eqb_eq in O. congruence.
      * repeat split; auto.
        intros [Ha|Ho].
        -- rewrite Ha in R. discriminate R.
        -- rewrite Ho, String.eqb_refl in O. discriminate O.
Qed.

(** ** The agent turn *)

Lemma openAIToolCalls_entries (tools : list Tool) (user : AuthenticatedUser)
    (calls : list ToolCall) (messages : list IMessage) :
  forallb wellFormedCall calls = true ->
  openAIToolCalls tools user calls messages
  = Some (messages ++ openAIEntries tools user calls).
Proof.
  revert messages. induction calls as [|c r IH]; intros messages Hwf.
  - simpl. now rewrite app_nil_r.
  - cbn [forallb] in Hwf. apply andb_prop in Hwf. destruct Hwf as [Hc Hr].
    unfold wellFormedCall in Hc. apply andb_prop in Hc. destruct Hc as [Ht Hp].
    unfold openAIEntries. cbn [openAIToolCalls filter]. rewrite Ht.
    cbn [negb flat_map].
    destruct (findTool tools (tc_name c)) as [tool|].
    + destruct (JSON_parse (tc_arguments c)) as [args|]; [|discriminate Hp].
      rewrite IH by assumption. unfold openAIEntries.
      now rewrite <- app_assoc.
    + rewrite IH by assumption. reflexivity.
Qed.

Lemma openAIEntries_length (tools : list Tool) (user : AuthenticatedUser)
    (calls : list ToolCall) :
  forallb wellFormedCall calls = true ->
  forallb (fun c => registeredTool tools (tc_name c)) calls = true ->
  List.length (openAIEntries tools user calls) = List.length calls.
Proof.
  induction calls as [|c r IH]; intros Hwf Hreg; [reflexivity|].
  cbn [forallb] in Hwf, Hreg.
  apply andb_prop in Hwf. destruct Hwf as [Hc Hr].
  apply andb_prop in Hreg. destruct Hreg as [Hg Hgr].
  unfold wellFormedCall in Hc. apply andb_prop in Hc. destruct Hc as [Ht Hp].
  unfold registeredTool in Hg.
  unfold openAIEntries. cbn [filter]. rewrite Ht. cbn [flat_map].
  destruct (findTool tools (tc_name c)); [|discriminate Hg].
  destruct (JSON_parse (tc_arguments c)); [|discriminate Hp].
  cbn [app List.length]. f_equal. now apply IH.
Qed.

Lemma geminiToolCalls_entries (tools : list Tool) (user : AuthenticatedUser)
    (calls : list FunctionCall) (messages : list IMessage) :
  geminiToolCalls tools user calls messages
  = messages ++ geminiEntries tools user calls.
Proof.
  revert messages. induction calls as [|c r IH]; intros messages.
  - simpl. now rewrite app_nil_r.
  - unfold geminiEntries. cbn [geminiToolCalls flat_map].
    destruct (findTool tools (fc_name c)) as [tool|].
    + rewrite IH. unfold geminiEntries. now rewrite <- app_assoc.
    + now rewrite IH.
Qed.

Lemma geminiEntries_length (tools : list Tool) (user : AuthenticatedUser)
    (calls : list FunctionCall) :
  forallb (fun c => registeredTool tools (fc_name c)) calls = true ->
  List.length (geminiEntries tools user calls) = List.length calls.
Proof.
  induction calls as [|c r IH]; intros Hreg; [reflexivity|].
  cbn [forallb] in Hreg. apply andb_prop in Hreg. destruct Hreg as [Hg Hgr].
  unfold registeredTool in Hg. unfold geminiEntries. cbn [flat_map].
  destruct (findTool tools (fc_name c)); [|discriminate Hg].
  cbn [app List.length]. f_equal. now apply IH.
Qed.

Lemma openAI_calls_provider_first (config : AiConfig)
    (script : list (option AssistantMessage)) (sessionId : ObjectId)
    (user : AuthenticatedUser) (db : list IAgentSession) (session : IAgentSession) :
  findById s_id sessionId db = Some session ->
  hasInstance config "openai" = true ->
  exists rest,
    run_calls (AgentsService_executeWithOpenAI config script sessionId user db)
    = openAIPrompt session :: rest.
Proof.
  intros Hf Hi.
  destruct script as [|[msg|] script']; cbn [AgentsService_executeWithOpenAI];
    rewrite Hf, Hi; cbn [negb]; eexists; reflexivity.
Qed.

Lemma gemini_calls_provider_first (config : AiConfig)
    (script : list (option GeminiResponse)) (sessionId : ObjectId)
    (user : AuthenticatedUser) (db : list IAgentSession) (session : IAgentSession) :
  findById s_id sessionId db = Some session ->
  hasInstance config "google" = true ->
  exists rest,
    run_calls (AgentsService_executeWithGemini config script sessionId user db)
    = geminiCall session :: rest.
Proof.
  intros Hf Hi.
  destruct script as [|[msg|] script']; cbn [AgentsService_executeWithGemini];
    rewrite Hf, Hi; cbn [negb]; eexists; reflexivity.
Qed.

Lemma saved_twice (sessionId : ObjectId) (db : list IAgentSession)
    (session s1 s2 : IAgentSession) :
  findById s_id sessionId db = Some session ->
  s_id s1 = sessionId -> s_id s2 = sessionId ->
  findById s_id sessionId (save s_id s2 (save s_id s1 db)) = Some s2.
Proof.
  intros Hf H1 H2.
  apply findById_save with (d := s1); [|exact H2].
  now apply findById_save with (d := session).
Qed.

Lemma openAIToolCalls_acted (tools : list Tool) (user : AuthenticatedUser)
    (calls : list ToolCall) (messages : list IMessage) :
  forallb parsable (filter (actedOn tools) calls) = true ->
  openAIToolCalls tools user calls messages
  = Some (messages ++ openAIEntries tools user calls) /\
  List.length (openAIEntries tools user calls)
  = List.length (filter (actedOn tools) calls).
Proof.
  revert messages. induction calls as [|c r IH]; intros messages Hp.
  - cbn. now rewrite app_nil_r.
  - unfold openAIEntries, actedOn, registeredTool in *.
    cbn [openAIToolCalls filter] in *.
    destruct (String.eqb (tc_type c) "function"); cbn [negb andb] in *.
    + cbn [flat_map].
      destruct (findTool tools (tc_name c)) as [tool|]; cbn [isSome] in *.
      * cbn [forallb] in Hp. apply andb_prop in Hp. destruct Hp as [Hc Hr].
        unfold parsable in Hc.
        destruct (JSON_parse (tc_arguments c)) as [args|]; [|discriminate Hc].
        destruct (IH (messages ++ [toolMessage tool args (t_execute tool args user)])
                    Hr) as [E L].
        rewrite E. split; [now rewrite <- app_assoc|].
        cbn [app List.length]. now rewrite L.
      * destruct (IH messages Hp) as [E L]. now split.
    + destruct (IH messages Hp) as [E L]. now split.
Qed.

Lemma openAIToolCalls_throws (tools : list Tool) (user : AuthenticatedUser)
    (calls : list ToolCall) (messages : list IMessage) :
  forallb parsable (filter (actedOn tools) calls) = false ->
  openAIToolCalls tools user calls messages = None.
Proof.
  revert messages. induction calls as [|c r IH]; intros messages Hp;
    [discriminate Hp|].
  unfold actedOn, registeredTool in *. cbn [openAIToolCalls filter] in *.
  destruct (String.eqb (tc_type c) "function"); cbn [negb andb] in *;
    [|now apply IH].
  destruct (findTool tools (tc_name c)) as [tool|]; cbn [isSome] in *;
    [|now apply IH].
  cbn [forallb] in Hp. unfold parsable in Hp at 1.
  destruct (JSON_parse (tc_arguments c)) as [args|]; [|reflexivity].
  cbn [isSome andb] in Hp. now apply IH.
Qed.

Lemma geminiEntries_count (tools : list Tool) (user : AuthenticatedUser)
    (calls : list FunctionCall) :
  List.length (geminiEntries tools user calls)
  = List.length (filter (fun call => registeredTool tools (fc_name call)) calls).
Proof.
  induction calls as [|c r IH]; [reflexivity|].
  unfold geminiEntries, registeredTool in *. cbn [flat_map filter].
  destruct (findTool tools (fc_name c)); cbn [isSome app List.length];
    now rewrite IH.
Qed.

(** C7 (as the code has it). In a turn on an existing session with a
    configured provider: a response without tool calls and with a non-empty
    text appends exactly one assistant entry, leaves [agentStatus] idle and
    [messageCount] equal to the transcript length, and the provider is not
    called again.  A response with N tool calls appends one tool-result
    entry for each call that the loop acts on, that is, each call that names
    a registered tool and, for OpenAI, is of type function; hence exactly N
    entries when all N calls are such calls; and the next provider call is
    made on the transcript extended by these entries.  For OpenAI this
    holds when the arguments of the calls acted on parse; when those of one
    of them do not, the turn throws, the stored transcript is unchanged and
    the provider is not called again. *)
Theorem agent_turn_transcript (sessionId : ObjectId) (user : AuthenticatedUser)
    (db : list IAgentSession) (session : IAgentSession)
    (Hfound : findById s_id sessionId db = Some session) :
  (forall config msg script text,
      hasInstance config "openai" = true ->
      am_tool_calls msg = None \/ am_tool_calls msg = Some [] ->
      am_content msg = Some text -> text <> "" ->
      let run := AgentsService_executeWithOpenAI config (Some msg :: script)
                   sessionId user db in
      run_outcome run = Returned /\ run_calls run = [openAIPrompt session] /\
      exists final,
        findById s_id sessionId (run_sessions run) = Some final /\
        s_messages final = s_messages session ++ [assistantMessage text] /\
        s_agentStatus final = IDLE /\
        s_messageCount final = List.length (s_messages final)) /\
  (forall config msg script c cs,
      hasInstance config "openai" = true ->
      am_tool_calls msg = Some (c :: cs) ->
      let tools := getToolsForAgent user in
      let run := AgentsService_executeWithOpenAI config (Some msg :: script)
                   sessionId user db in
      (forallb parsable (filter (actedOn tools) (c :: cs)) = true ->
       exists entries next rest,
         entries = openAIEntries tools user (c :: cs) /\
         List.length entries = List.length (filter (actedOn tools) (c :: cs)) /\
         (forallb (actedOn tools) (c :: cs) = true ->
          List.length entries = List.length (c :: cs)) /\
         s_messages next = s_messages session ++ entries /\
         run_calls run = openAIPrompt session :: openAIPrompt next :: rest) /\
      (forallb parsable (filter (actedOn tools) (c :: cs)) = false ->
       run_outcome run = Threw /\ run_calls run = [openAIPrompt session] /\
       exists stored,
         findById s_id sessionId (run_sessions run) = Some stored /\
         s_messages stored = s_messages session)) /\
  (forall config response script,
      hasInstance config "google" = true ->
      g_functionCalls response = None \/ g_functionCalls response = Some [] ->
      g_text response <> "" ->
      let run := AgentsService_executeWithGemini config (Some response :: script)
                   sessionId user db in
      run_outcome run = Returned /\ run_calls run = [geminiCall session] /\
      exists final,
        findById s_id sessionId (run_sessions run) = Some final /\
        s_messages final
        = s_messages session ++ [assistantMessage (g_text response)] /\
        s_agentStatus final = IDLE /\
        s_messageCount final = List.length (s_messages final)) /\
  (forall config response script c cs,
      hasInstance config "google" = true ->
      g_functionCalls response = Some (c :: cs) ->
      exists entries next rest,
        entries = geminiEntries (getToolsForAgent user) user (c :: cs) /\
        List.length entries
        = List.length
            (filter (fun t => registeredTool (getToolsForAgent user) (fc_name t))
                    (c :: cs)) /\
        (forallb (fun t => registeredTool (getToolsForAgent user) (fc_name t))
                 (c :: cs) = true ->
         List.length entries = List.length (c :: cs)) /\
        s_messages next = s_messages session ++ entries /\
        run_calls (AgentsService_executeWithGemini config (Some response :: script)
                     sessionId user db)
        = geminiCall session :: geminiCall next :: rest).
Proof.
  pose proof (findById_id _ _ _ _ _ Hfound) as Hid.
  split; [|split; [|split]].
  - intros config msg script text Hi Htc Hc Ht run. subst run.
    cbn [AgentsService_executeWithOpenAI]. rewrite Hfound, Hi. cbn [negb].
    assert (Htruthy : truthy (am_content msg) = true).
    { rewrite Hc. simpl. destruct (String.eqb text "") eqn:E; [|reflexivity].
      apply String.eqb_eq in E. contradiction. }
    assert (Hor : orElse (am_content msg) "" = text).
    { rewrite Hc. now apply orElse_nonempty. }
    destruct Htc as [Htc|Htc]; rewrite Htc, Htruthy, Hor;
      (split; [reflexivity|]; split; [reflexivity|];
       eexists; split;
       [cbn [called finish run_sessions];
        apply findById_save with (d := session); [exact Hfound | exact Hid]
       | repeat split]).
  - intros config msg script c cs Hi Htc tools run. subst tools run.
    cbn [AgentsService_executeWithOpenAI]. rewrite Hfound, Hi. cbn [negb].
    rewrite Htc.
    change (s_messages (setAgentStatus EXECUTING session))
      with (s_messages session).
    split.
    + intro Hp.
      destruct (openAIToolCalls_acted (getToolsForAgent user) user (c :: cs)
                  (s_messages session) Hp) as [E L].
      rewrite E.
      set (entries := openAIEntries (getToolsForAgent user) user (c :: cs)) in *.
      set (s1 := setAgentStatus EXECUTING session).
      set (next := setTranscript (s_agentStatus s1)
                     (s_messages session ++ entries) s1).
      destruct (openAI_calls_provider_first config script sessionId user
                  (save s_id next (save s_id s1 db)) next) as [rest Hrest].
      { now apply saved_twice with (session := session). }
      { exact Hi. }
      exists entries, next, rest. split; [reflexivity|].
      split; [exact L|].
      split; [intro Hall; rewrite L; now rewrite forallb_filter_id|].
      split; [reflexivity|].
      cbn [called run_calls]. now rewrite Hrest.
    + intro Hp.
      rewrite (openAIToolCalls_throws (getToolsForAgent user) user (c :: cs)
                 (s_messages session) Hp).
      cbn [called finish run_outcome run_calls run_sessions].
      split; [reflexivity|]. split; [reflexivity|].
      exists (setAgentStatus EXECUTING session). split; [|reflexivity].
      apply findById_save with (d := session); [exact Hfound | exact Hid].
  - intros config response script Hi Hfc Ht run. subst run.
    cbn [AgentsService_executeWithGemini]. rewrite Hfound, Hi. cbn [negb].
    assert (Hne : negb (String.eqb (g_text response) "") = true).
    { destruct (String.eqb (g_text response) "") eqn:E; [|reflexivity].
      apply String.eqb_eq in E. contradiction. }
    destruct Hfc as [Hfc|Hfc]; rewrite Hfc, Hne;
      (split; [reflexivity|]; split; [reflexivity|];
       eexists; split;
       [cbn [called finish run_sessions];
        apply findById_save with (d := session); [exact Hfound | exact Hid]
       | repeat split]).
  - intros config response script c cs Hi Hfc.
    cbn [AgentsService_executeWithGemini]. rewrite Hfound, Hi. cbn [negb].
    rewrite Hfc.
    change (s_messages (setAgentStatus EXECUTING session))
      with (s_messages session).
    rewrite geminiToolCalls_entries.
    set (entries := geminiEntries (getToolsForAgent user) user (c :: cs)).
    set (s1 := setAgentStatus EXECUTING session).
    set (next := setTranscript (s_agentStatus s1) (s_messages session ++ entries) s1).
    destruct (gemini_calls_provider_first config script sessionId user
                (save s_id next (save s_id s1 db)) next) as [rest Hrest].
    { now apply saved_twice with (session := session). }
    { exact Hi. }
    exists entries, next, rest. split; [reflexivity|].
    split; [apply geminiEntries_count|].
    split; [intro Hreg; now apply geminiEntries_length|].
    split; [reflexivity|].
    cbn [called run_calls]. now rewrite Hrest.
Qed.

End Verification.

(** ** The theorems at concrete inputs *)

Lemma listings_are_tenant_isolated_witness :
  role agentAlice <> ADMIN /\
  @ContactsService_findAll hexRuntime agentAlice (Some noContactFilters)
    sampleContacts = Ok [contactOfAlice] /\
  exists s i, agencyId agentAlice = Some s /\ hexObjectId s = Some i /\
              forall c, In c [contactOfAlice] -> c_agency c = Some i.
Proof.
  split; [discriminate|]. split; [vm_compute; reflexivity|].
  apply (proj1 (proj2 (@listings_are_tenant_isolated hexRuntime agentAlice
                         ltac:(discriminate)))
               (Some noContactFilters) sampleContacts [contactOfAlice]).
  vm_compute; reflexivity.
Defined.

Lemma campaignToY_mayExecute :
  @mayExecute hexRuntime campaignId managerCarol [campaignToY] campaignToY.
Proof.
  split; [reflexivity|]. split.
  - exists (oid campaignId). split; reflexivity.
  - split; [|split; discriminate].
    right. exists (oid agencyX). split; reflexivity.
Defined.

Lemma campaignPaced_mayExecute :
  @mayExecute hexRuntime campaignId managerCarol [campaignPaced] campaignPaced.
Proof.
  split; [reflexivity|]. split.
  - exists (oid campaignId). split; reflexivity.
  - split; [|split; discriminate].
    right. exists (oid agencyX). split; reflexivity.
Defined.

Lemma explicit_audience_crosses_tenants_witness :
  specificContacts (k_audience campaignToY) <> [] /\
  CampaignsService_getAudienceContacts campaignToY sampleContacts = [contactOfY].
Proof.
  split; [discriminate|].
  rewrite (proj1 (@explicit_audience_crosses_tenants hexRuntime) campaignToY
             sampleContacts ltac:(discriminate)).
  reflexivity.
Defined.

Lemma campaignThree_mayExecute :
  @mayExecute hexRuntime campaignId managerCarol [campaignThree] campaignThree.
Proof.
  split; [reflexivity|]. split.
  - exists (oid campaignId). split; reflexivity.
  - split; [|split; discriminate].
    right. exists (oid agencyX). split; reflexivity.
Defined.

Lemma execute_completes_and_counts_witness :
  @mayExecute hexRuntime campaignId managerCarol [campaignThree] campaignThree /\
  bridgeReplies secondFails 0
    (@attempts hexRuntime campaignThree
       (CampaignsService_getAudienceContacts campaignThree sampleContacts))
  = [true; false; true] /\
  exists final,
    findById k_id (k_id campaignThree)
      (ex_campaigns (@CampaignsService_execute hexRuntime secondFails
                       campaignId managerCarol [campaignThree] sampleContacts))
    = Some final /\
    k_status final = COMPLETED /\
    sent (k_statistics final) = 2 /\ failed (k_statistics final) = 1.
Proof.
  split; [exact campaignThree_mayExecute|]. split; [vm_compute; reflexivity|].
  destruct (@execute_completes_and_counts hexRuntime secondFails campaignId
              managerCarol [campaignThree] sampleContacts campaignThree
              campaignThree_mayExecute) as [final [Hf [Hs [_ Hn]]]].
  exists final. split; [exact Hf|]. split; [exact Hs|].
  destruct Hn as [_ [_ [Hsent [Hfailed _]]]]; [discriminate|].
  split; [rewrite Hsent | rewrite Hfailed]; vm_compute; reflexivity.
Defined.

(** C8, the claim as written fails: one contact, [rateLimitMs = 1000], and
    the pause comes before the first (and only) send. *)
Lemma delay_before_first_send :
  ex_trace (@CampaignsService_execute hexRuntime alwaysDelivers campaignId
              managerCarol [campaignPaced] sampleContacts)
  = [Delay 1000; SendText "instance1" "5511999990000" "Oi Ana"].
Proof. vm_compute. reflexivity. Qed.

Lemma rate_limit_precedes_every_send_witness :
  @mayExecute hexRuntime campaignId managerCarol [campaignPaced] campaignPaced /\
  (0 < k_rateLimitMs campaignPaced)%Z /\
  ex_trace (@CampaignsService_execute hexRuntime alwaysDelivers campaignId
              managerCarol [campaignPaced] sampleContacts)
  = [Delay 1000; SendText "instance1" "5511999990000" "Oi Ana"].
Proof.
  split; [exact campaignPaced_mayExecute|]. split; [reflexivity|].
  rewrite (@rate_limit_precedes_every_send hexRuntime alwaysDelivers campaignId
             managerCarol [campaignPaced] sampleContacts campaignPaced
             campaignPaced_mayExecute eq_refl).
  reflexivity.
Defined.

(** C9, the claim as written fails: a contact value may itself hold a
    placeholder, which only the second rendering replaces; and a name read
    as a replacement pattern puts the placeholder back. *)
Lemma rendering_not_idempotent :
  (exists once twice,
     @CampaignsService_replaceVariables hexRuntime "{{contact.email}}" []
       contactEcho = Some once /\
     @CampaignsService_replaceVariables hexRuntime once [] contactEcho
     = Some twice /\
     once <> twice) /\
  @CampaignsService_replaceVariables hexRuntime "Oi {{contact.name}}" []
    contactDollar = Some "Oi {{contact.name}}".
Proof.
  split.
  - exists "{{contact.name}}", "Ana".
    split; [vm_compute; reflexivity|]. split; [vm_compute; reflexivity|].
    discriminate.
  - vm_compute; reflexivity.
Qed.

(** Text that itself holds braces is outside the statement: a contact
    placeholder wrapped in braces renders to a placeholder of the map, which
    only a second rendering replaces. *)
Lemma braces_in_text_render_twice :
  @CampaignsService_replaceVariables placeholderRuntime "{{{{contact.name}}}}"
    [("Ana", "x")] contactOfAlice = Some "{{Ana}}" /\
  @CampaignsService_replaceVariables placeholderRuntime "{{Ana}}"
    [("Ana", "x")] contactOfAlice = Some "x".
Proof. split; vm_compute; reflexivity. Qed.

Lemma closesKey_app (key : string) :
  allChars isKeyChar key = true -> closesKey (key ++ "}}") = true.
Proof.
  induction key as [|c r IH]; intro H; [reflexivity|].
  cbn [allChars] in H. apply andb_prop in H. destruct H as [Hc Hr].
  cbn [append closesKey]. rewrite Hc. now apply IH.
Qed.

(** The reference engine replaces [{{key}}] literally for every literal key. *)
Lemma placeholderRuntime_literal (key value input : string) :
  literalKey key = true ->
  @regexReplaceAll placeholderRuntime ("{{" ++ key ++ "}}") input value
  = Some (replaceAllLiteral ("{{" ++ key ++ "}}") value input).
Proof.
  destruct key as [|c r]; [discriminate|]. unfold literalKey. intro H.
  apply andb_prop in H. destruct H as [Hc Hr].
  cbn [regexReplaceAll placeholderRuntime]. unfold literalRegexReplaceAll.
  cbn [append literalPlaceholder]. rewrite !Ascii.eqb_refl, Hc. cbn [andb].
  change (String c (r ++ "}}")) with (String c r ++ "}}")%string.
  now rewrite closesKey_app.
Qed.

Definition sampleVariables : list (string * string) :=
  [("empresa", "X Imoveis"); ("ano", "2024")].

Definition samplePieces : list Piece :=
  [Text "Oi "; Field "contact.name"; Text ", da "; Field "empresa";
   Text " em "; Field "ano"; Text ", fone "; Field "contact.phone";
   Field "contact.email"].

Lemma rendering_of_plain_templates_witness :
  plainVariables sampleVariables = true /\
  plainText samplePieces = true /\
  plainContact contactOfAlice = true /\
  @CampaignsService_replaceVariables placeholderRuntime
    "Oi {{contact.name}}, da {{empresa}} em {{ano}}, fone {{contact.phone}}{{contact.email}}"
    sampleVariables contactOfAlice
  = Some "Oi Ana, da X Imoveis em 2024, fone 5511999990000" /\
  @CampaignsService_replaceVariables placeholderRuntime
    "Oi Ana, da X Imoveis em 2024, fone 5511999990000"
    sampleVariables contactOfAlice
  = Some "Oi Ana, da X Imoveis em 2024, fone 5511999990000" /\
  @CampaignsService_replaceVariables hexRuntime
    "Oi {{contact.name}} {{cidade}}" [] contactOfAlice
  = Some "Oi Ana {{cidade}}".
Proof.
  split; [reflexivity|]. split; [reflexivity|]. split; [reflexivity|].
  destruct (@rendering_of_plain_templates placeholderRuntime samplePieces
              sampleVariables contactOfAlice
              (fun key value input _ => placeholderRuntime_literal key value input)
              eq_refl eq_refl eq_refl) as [Hone [_ Htwice]].
  split; [exact Hone|]. split; [exact Htwice|].
  exact (proj1 (@rendering_of_plain_templates hexRuntime
                  [Text "Oi "; Field "contact.name"; Text " "; Field "cidade"]
                  [] contactOfAlice
                  (fun key value input (H : In (key, value) []) =>
                     match H with end)
                  eq_refl eq_refl eq_refl)).
Defined.

(** C3, the claim as written fails: an agent deleting a contact assigned to
    that very agent is refused. *)
Lemma agent_cannot_delete_own_contact :
  role agentAlice = AGENT /\
  findById c_id (c_id contactOfAlice) sampleContacts = Some contactOfAlice /\
  c_assignedTo contactOfAlice = Some (oid (userId agentAlice)) /\
  @ContactsService_remove hexRuntime (toString (c_id contactOfAlice)) agentAlice
    sampleContacts = (Throw ForbiddenException, sampleContacts).
Proof. repeat split. Qed.

Lemma agent_update_delete_policy_witness :
  role agentAlice = AGENT /\
  hexIsValid (toString (c_id contactOfAlice)) = true /\
  hexObjectId (toString (c_id contactOfAlice)) = Some (c_id contactOfAlice) /\
  fst (@ContactsService_update hexRuntime (toString (c_id contactOfAlice))
         noContactUpdate agentAlice sampleContacts)
  <> Throw ForbiddenException.
Proof.
  split; [reflexivity|]. split; [reflexivity|]. split; [reflexivity|].
  exact (proj1 (@agent_update_delete_policy hexRuntime agentAlice eq_refl
                  (toString (c_id contactOfAlice)) (c_id contactOfAlice)
                  eq_refl eq_refl)
               noContactUpdate sampleContacts contactOfAlice eq_refl eq_refl).
Defined.

(** C4: an agent who lists contacts with an [assignedTo] filter naming
    another user of the agency is handed that user's contacts; the filter
    overwrites the restriction to the agent's own contacts, which [findOne]
    enforces on the same contact and the unfiltered listing keeps. *)
Theorem agent_lists_contacts_of_another_user :
  role agentAlice = AGENT /\
  @ContactsService_findAll hexRuntime agentAlice (Some agentFilterBob)
    sampleContacts = Ok [contactOfBob] /\
  c_assignedTo contactOfBob <> Some (oid (userId agentAlice)) /\
  @ContactsService_findOne hexRuntime (toString (c_id contactOfBob)) agentAlice
    sampleContacts = Throw ForbiddenException /\
  @ContactsService_findAll hexRuntime agentAlice (Some noContactFilters)
    sampleContacts = Ok [contactOfAlice].
Proof.
  split; [reflexivity|]. split; [vm_compute; reflexivity|].
  split; [discriminate|]. split; vm_compute; reflexivity.
Qed.

(** C5, the claim as written fails: a role supplied as the empty string is
    not stored as given, the user becomes a viewer; and a role outside the
    enum is not stored at all. *)
Lemma empty_role_becomes_viewer :
  (exists response users,
     @AuthService_register plainCrypto (oid bobId) (registerWith (Some "")) []
     = (Ok response, users) /\
     ar_role response = VIEWER /\ map u_role users = [VIEWER]) /\
  @AuthService_register plainCrypto (oid bobId) (registerWith (Some "root")) []
  = (Throw InternalError, []).
Proof.
  split; [eexists; eexists; repeat split|]. vm_compute; reflexivity.
Qed.

Lemma register_role_is_caller_chosen_witness :
  r_email (registerWith (Some "admin")) <> "" /\
  r_name (registerWith (Some "admin")) <> "" /\
  @bcryptHash plainCrypto (r_password (registerWith (Some "admin"))) <> "" /\
  List.find (fun u => String.eqb (u_email u) (r_email (registerWith (Some "admin"))))
    [] = None /\
  exists response,
    @AuthService_register plainCrypto (oid bobId) (registerWith (Some "admin")) []
    = (Ok response,
       [] ++ [@registered plainCrypto (oid bobId) (registerWith (Some "admin")) ADMIN])
    /\ ar_role response = ADMIN.
Proof.
  assert (He : r_email (registerWith (Some "admin")) <> "") by discriminate.
  assert (Hn : r_name (registerWith (Some "admin")) <> "") by discriminate.
  assert (Hh : @bcryptHash plainCrypto (r_password (registerWith (Some "admin")))
               <> "") by discriminate.
  split; [exact He|]. split; [exact Hn|]. split; [exact Hh|].
  split; [reflexivity|].
  exact (proj1 (proj2 (proj2
           (@register_role_is_caller_chosen plainCrypto (oid bobId)
              (registerWith (Some "admin")) [] He Hn Hh eq_refl))) eq_refl).
Defined.

(** C10, the claim as written fails: a manager who is neither admin nor
    owner asks to remove the owner and is answered Forbidden, not
    BadRequest. *)
Lemma stranger_removing_owner_is_forbidden :
  fst (@AgenciesService_removeMember hexRuntime agencyX aliceId managerCarol tenancyX)
  = Throw ForbiddenException.
Proof. vm_compute. reflexivity. Qed.

Lemma owner_is_never_removed_witness :
  hexObjectId agencyX = Some (oid agencyX) /\
  findById a_id (oid agencyX) (agencies tenancyX)
  = Some {| a_id := oid agencyX; a_name := "X Imoveis"; a_cnpj := "123";
            a_owner := oid aliceId; a_members := [oid bobId];
            a_isActive := true |} /\
  snd (@AgenciesService_removeMember hexRuntime agencyX aliceId agentAlice tenancyX)
  = tenancyX /\
  fst (@AgenciesService_removeMember hexRuntime agencyX aliceId agentAlice tenancyX)
  = Throw BadRequestException.
Proof.
  split; [reflexivity|]. split; [reflexivity|].
  destruct (@owner_is_never_removed hexRuntime agencyX (oid agencyX) agentAlice
              tenancyX _ eq_refl eq_refl) as [Hs [Hb _]].
  split; [exact Hs|]. apply Hb. right. reflexivity.
Defined.

(** The owner rule of [removeMember] compares [agency.owner.toString()]
    with the id as the request writes it, while the id check and the cast
    accept the same digits in upper case: written so, the owner's id passes
    the rule, the call succeeds and the owner's agency binding is
    cleared. *)
Lemma owner_unbound_under_other_spelling :
  let outcome :=
    @AgenciesService_removeMember hexRuntime agencyX "BBBBBBBBBBBBBBBBBBBBBBB1"
      agentAlice tenancyX in
  hexObjectId "BBBBBBBBBBBBBBBBBBBBBBB1" = Some (oid aliceId) /\
  option_map a_owner (findById a_id (oid agencyX) (agencies tenancyX))
  = Some (oid aliceId) /\
  option_map u_agencyId (findById u_id (oid aliceId) (users tenancyX))
  = Some (Some agencyX) /\
  (exists agency, fst outcome = Ok agency /\ a_owner agency = oid aliceId) /\
  option_map u_agencyId (findById u_id (oid aliceId) (users (snd outcome)))
  = Some None.
Proof.
  vm_compute. repeat split. eexists. split; reflexivity.
Qed.

(** C7, the claim as written fails: the response holds one tool call, for
    a tool that is not in the registry; nothing is appended, and the
    provider is called again on the unchanged transcript. *)
Lemma unknown_tool_appends_nothing :
  let run :=
    @AgentsService_executeWithOpenAI textAgentRuntime openAIConfig
      [Some (asksFor ["update_contact"])] sessionId1 managerCarol [session1] in
  List.length ["update_contact"] = 1 /\
  run_calls run = [openAIPrompt session1; openAIPrompt session1] /\
  option_map (@s_messages textAgentRuntime)
    (findById (@s_id textAgentRuntime) sessionId1 (run_sessions run))
  = Some (s_messages session1).
Proof. cbv zeta. split; [reflexivity|]. split; vm_compute; reflexivity. Qed.

Lemma agent_turn_transcript_witness :
  findById (@s_id textAgentRuntime) sessionId1 [session1] = Some session1 /\
  List.length mixedCalls = 3 /\
  exists entries next rest,
    List.length entries = 1 /\
    s_messages next = s_messages session1 ++ entries /\
    run_calls (@AgentsService_executeWithOpenAI textAgentRuntime openAIConfig
                 [Some asksMixed; Some (answers "Nenhum contato")]
                 sessionId1 managerCarol [session1])
    = openAIPrompt session1 :: openAIPrompt next :: rest.
Proof.
  split; [reflexivity|]. split; [reflexivity|].
  destruct (proj1 (proj1 (proj2 (@agent_turn_transcript textAgentRuntime
                                   sessionId1 managerCarol [session1] session1
                                   eq_refl))
                     openAIConfig asksMixed [Some (answers "Nenhum contato")]
                     {| tc_type := "web_search"; tc_name := "search_contacts";
                        tc_arguments := "{}" |}
                     [callTool "search_contacts"; callTool "update_contact"]
                     eq_refl eq_refl) eq_refl)
    as [entries [next [rest [_ [Hl [_ [Hm Hc]]]]]]].
  exists entries, next, rest. split; [exact Hl|]. split; [exact Hm | exact Hc].
Defined.

(** The scenario of three contacts, no rate limit and one failing send. *)
Example three_contacts_one_failure :
  ex_result (@CampaignsService_execute hexRuntime secondFails campaignId
               managerCarol [campaignThree] sampleContacts) = Ok (2, 1) /\
  map (fun k => (k_status k, sent (k_statistics k), failed (k_statistics k)))
      (ex_campaigns (@CampaignsService_execute hexRuntime secondFails campaignId
                       managerCarol [campaignThree] sampleContacts))
  = [(COMPLETED, 2, 1)].
Proof. split; vm_compute; reflexivity. Qed.

(** * Properties of the rest of the service layer *)

(** ** Facts used below *)

Lemma inb_In (x : string) (l : list string) : inb x l = true <-> In x l.
Proof.
  unfold inb. rewrite existsb_exists. split.
  - intros [y [Hy E]]. apply String.eqb_eq in E. now subst.
  - intro H. exists x. split; [exact H | apply String.eqb_refl].
Qed.

Lemma endsStar_wildcard (s : string) : endsStar (s ++ ":*") = true.
Proof.
  induction s as [|c r IH]; [reflexivity|].
  change ((String c r ++ ":*")%string) with (String c (r ++ ":*")%string).
  cbn [endsStar]. destruct (r ++ ":*")%string eqn:E; [|exact IH].
  destruct r; discriminate E.
Qed.

Lemma wildcard_not_listed (s : string) (l : list string) :
  forallb (fun t => negb (endsStar t)) l = true -> inb (s ++ ":*") l = false.
Proof.
  intro H. destruct (inb (s ++ ":*") l) eqn:E; [|reflexivity].
  apply inb_In in E. rewrite forallb_forall in H. specialize (H _ E).
  now rewrite endsStar_wildcard in H.
Qed.

Lemma startsWith_split (p s : string) :
  startsWith p s = true -> s = (p ++ dropChars (String.length p) s)%string.
Proof.
  revert s. induction p as [|a p IH]; intros s H; [now destruct s|].
  destruct s as [|b r]; [discriminate H|].
  cbn [startsWith] in H. apply andb_prop in H. destruct H as [Hab Hr].
  apply Ascii.eqb_eq in Hab. subst b.
  cbn [String.length dropChars append]. f_equal. now apply IH.
Qed.

Lemma findById_save_other {D} (idOf : D -> ObjectId) (j : ObjectId)
    (d : D) (coll : list D) :
  idOf d <> j -> findById idOf j (save idOf d coll) = findById idOf j coll.
Proof.
  intro Hne. unfold findById, save.
  induction coll as [|x r IH]; [reflexivity|]. cbn [map List.find].
  destruct (oid_eqb (idOf x) (idOf d)) eqn:E.
  - apply oid_eqb_eq in E.
    destruct (oid_eqb (idOf d) j) eqn:Ed; [apply oid_eqb_eq in Ed; contradiction|].
    rewrite E, Ed. exact IH.
  - destruct (oid_eqb (idOf x) j); [reflexivity | exact IH].
Qed.

Lemma In_save {D} (idOf : D -> ObjectId) (d x : D) (coll : list D) :
  In x (save idOf d coll) -> (In x coll /\ idOf x <> idOf d) \/ x = d.
Proof.
  unfold save. intro H. apply in_map_iff in H. destruct H as [y [Hy Hin]].
  destruct (oid_eqb (idOf y) (idOf d)) eqn:E.
  - right. now symmetry.
  - left. subst x. split; [exact Hin|]. intro Eq.
    rewrite Eq, oid_eqb_refl in E. discriminate E.
Qed.

Lemma In_save_other {D} (idOf : D -> ObjectId) (d x : D) (coll : list D) :
  In x coll -> idOf x <> idOf d -> In x (save idOf d coll).
Proof.
  intros Hin Hne. unfold save. apply in_map_iff. exists x. split; [|exact Hin].
  destruct (oid_eqb (idOf x) (idOf d)) eqn:E; [|reflexivity].
  apply oid_eqb_eq in E. contradiction.
Qed.

Lemma findById_app_fresh {D} (idOf : D -> ObjectId) (i : ObjectId) (d : D)
    (coll : list D) :
  findById idOf i coll = None -> idOf d = i ->
  findById idOf i (coll ++ [d]) = Some d.
Proof.
  unfold findById. intros Hn Hd. induction coll as [|x r IH]; cbn [app List.find].
  - subst i. now rewrite oid_eqb_refl.
  - cbn [List.find] in Hn. destruct (oid_eqb (idOf x) i); [discriminate Hn|].
    now apply IH.
Qed.

Lemma findById_app_old {D} (idOf : D -> ObjectId) (i : ObjectId) (d x : D)
    (coll : list D) :
  findById idOf i coll = Some x -> findById idOf i (coll ++ [d]) = Some x.
Proof.
  unfold findById. induction coll as [|y r IH]; cbn [app List.find]; [discriminate|].
  destruct (oid_eqb (idOf y) i); [auto | exact IH].
Qed.


Lemma findById_map_id {D} (idOf : D -> ObjectId) (f : D -> D) (i : ObjectId)
    (coll : list D) :
  (forall x, idOf (f x) = idOf x) ->
  findById idOf i (map f coll) = option_map f (findById idOf i coll).
Proof.
  intro Hf. unfold findById. induction coll as [|x r IH]; [reflexivity|].
  cbn [map List.find]. rewrite Hf. destruct (oid_eqb (idOf x) i); [reflexivity|].
  exact IH.
Qed.

Lemma save_absent {D} (idOf : D -> ObjectId) (d : D) (coll : list D) :
  (forall x, In x coll -> idOf x <> idOf d) -> save idOf d coll = coll.
Proof.
  intro H. unfold save. induction coll as [|x r IH]; [reflexivity|].
  cbn [map]. destruct (oid_eqb (idOf x) (idOf d)) eqn:E.
  - apply oid_eqb_eq in E. exfalso. apply (H x); [now left | exact E].
  - f_equal. apply IH. intros y Hy. apply H. now right.
Qed.

Lemma NoDup_map_eq {A B} (f : A -> B) (l : list A) (x y : A) :
  NoDup (map f l) -> In x l -> In y l -> f x = f y -> x = y.
Proof.
  induction l as [|z r IH]; intros Hnd Hx Hy E; [destruct Hx|].
  cbn [map] in Hnd. inversion Hnd as [|? ? Hnotin Hr]; subst.
  destruct Hx as [Hx|Hx]; destruct Hy as [Hy|Hy]; subst.
  - reflexivity.
  - exfalso. apply Hnotin. rewrite E. now apply in_map.
  - exfalso. apply Hnotin. rewrite <- E. now apply in_map.
  - now apply IH.
Qed.

Lemma save_keeps_unique {D K} (idOf : D -> ObjectId) (key : D -> K) (d : D)
    (coll : list D) :
  NoDup (map idOf coll) -> NoDup (map key coll) ->
  (forall x, In x coll -> idOf x <> idOf d -> key x <> key d) ->
  NoDup (map key (save idOf d coll)).
Proof.
  induction coll as [|x r IH]; intros Hid Hkey Hother; [constructor|].
  cbn [map] in Hid, Hkey.
  inversion Hid as [|? ? Hidx Hidr]; inversion Hkey as [|? ? Hkx Hkr]; subst.
  unfold save. cbn [map]. fold (save idOf d r).
  destruct (oid_eqb (idOf x) (idOf d)) eqn:E.
  - apply oid_eqb_eq in E.
    assert (Hr : forall y, In y r -> idOf y <> idOf d).
    { intros y Hy Ey. apply Hidx. rewrite E, <- Ey. now apply in_map. }
    rewrite (save_absent idOf d r Hr). constructor; [|exact Hkr].
    intro Hin. apply in_map_iff in Hin. destruct Hin as [y [Ey Hy]].
    apply (Hother y); [now right | now apply Hr | exact Ey].
  - constructor.
    + intro Hin. apply in_map_iff in Hin. destruct Hin as [y [Ey Hy]].
      apply In_save in Hy. destruct Hy as [[Hy _]|Hy].
      * apply Hkx. rewrite <- Ey. now apply in_map.
      * subst y. apply (Hother x); [now left | | now symmetry].
        intro Ex. rewrite Ex, oid_eqb_refl in E. discriminate E.
    + apply IH; [exact Hidr | exact Hkr |].
      intros y Hy. apply Hother. now right.
Qed.

Lemma filter_out_last {A} (g : A -> bool) (l : list A) (x : A) :
  existsb g l = false -> g x = true ->
  filter (fun y => negb (g y)) (l ++ [x]) = l.
Proof.
  intros Hl Hx. induction l as [|y r IH]; cbn [app filter].
  - now rewrite Hx.
  - cbn [existsb] in Hl. apply orb_false_iff in Hl. destruct Hl as [Hy Hr].
    rewrite Hy. cbn [negb]. f_equal. now apply IH.
Qed.

Lemma filter_none_out {A} (g : A -> bool) (l : list A) :
  existsb g l = false -> filter (fun y => negb (g y)) l = l.
Proof.
  induction l as [|y r IH]; intro H; [reflexivity|].
  cbn [existsb] in H. apply orb_false_iff in H. destruct H as [Hy Hr].
  cbn [filter]. rewrite Hy. cbn [negb]. f_equal. now apply IH.
Qed.

Lemma setMembers_same (a : IAgency) : setMembers (a_members a) a = a.
Proof. now destruct a. Qed.

Lemma In_setAgency (id : ObjectId) (agency : option string) (coll : list IUser)
    (u : IUser) :
  In u (UserModel_setAgency id agency coll) -> u_id u = id ->
  u_agencyId u = agency.
Proof.
  unfold UserModel_setAgency. intros Hin Hid.
  apply in_map_iff in Hin. destruct Hin as [v [Hv _]].
  destruct (oid_eqb (u_id v) id) eqn:E.
  - now subst u.
  - subst u. rewrite Hid, oid_eqb_refl in E. discriminate E.
Qed.

Lemma findById_setAgency (i id : ObjectId) (agency : option string)
    (coll : list IUser) (u : IUser) :
  findById u_id i coll = Some u ->
  exists u', findById u_id i (UserModel_setAgency id agency coll) = Some u'.
Proof.
  intro H. unfold UserModel_setAgency.
  rewrite (findById_map_id u_id); [rewrite H; cbn [option_map]; eauto|].
  intro x. now destruct (oid_eqb (u_id x) id).
Qed.

Lemma findByIdString_inv {rt : Runtime} {D} (idOf : D -> ObjectId) (id : string)
    (coll : list D) (d : D) :
  findByIdString idOf id coll = Ok (Some d) ->
  exists i, newObjectId id = Some i /\ findById idOf i coll = Some d.
Proof.
  unfold findByIdString. destruct (newObjectId id) as [i|]; [|discriminate].
  cbn. intro H. inversion H. eauto.
Qed.

Ltac split_all_andb H :=
  repeat (let H' := fresh "M" in
          apply andb_prop in H; destruct H as [H H']).

Section MoreVerification.
Context {rt : Runtime} {crypto : Crypto} {art : AgentRuntime}.
Context {verifier : Verifier} {ops : StringOps}.

(** ** Middleware *)

(** X1. What [rbacPermissionMiddleware] grants grows with the role: a
    permission granted to a user is granted to every user whose role ranks
    at least as high (viewer, agent, manager, admin). *)
Theorem permissions_grow_with_role (permission : string)
    (low high : AuthenticatedUser)
    (Hrank : roleRank (role low) <= roleRank (role high))
    (Hlow : rbacPermissionMiddleware permission (Some low) = Ok tt) :
  rbacPermissionMiddleware permission (Some high) = Ok tt.
Proof.
  unfold rbacPermissionMiddleware in *.
  destruct (role high) eqn:Rh; [reflexivity| | |];
    destruct (role low) eqn:Rl; cbn [roleRank] in Hrank; try lia;
    try exact Hlow; cbn [role_eqb rolePermissions] in *;
    rewrite wildcard_not_listed in Hlow by reflexivity;
    change (inb "*" _) with false in Hlow; rewrite !orb_false_r in Hlow;
    (destruct (inb permission _) eqn:E in Hlow; [|discriminate Hlow]);
    apply inb_In in E; cbn [In] in E;
    repeat (destruct E as [E|E]; [subst permission; reflexivity|]);
    contradiction.
Qed.

(** X2. [jwtAuthMiddleware]: a path that starts with a public route passes
    untouched, whatever the header.  On any other path the request passes
    only with a header ["Bearer " ++ token] whose token verifies, and then
    [req.user] is the identity of the payload; every other case is
    Unauthorized. *)
Theorem jwt_middleware_outcomes (req : Request) :
  (forall route suffix,
      In route PUBLIC_ROUTES -> req_path req = (route ++ suffix)%string ->
      jwtAuthMiddleware req = Ok req) /\
  (isPublicRoute (req_path req) = false ->
   jwtAuthMiddleware req = Throw UnauthorizedException \/
   exists token decoded,
     req_authorization req = Some ("Bearer " ++ token)%string /\
     jwtVerify token = Some decoded /\
     jwtAuthMiddleware req
     = Ok {| req_path := req_path req;
             req_authorization := req_authorization req;
             req_user := Some {| userId := jwt_sub decoded;
                                 email := jwt_email decoded;
                                 role := jwt_role decoded;
                                 agencyId := jwt_agencyId decoded |} |}).
Proof.
  split.
  - intros route suffix Hin Hpath. unfold jwtAuthMiddleware.
    assert (Hp : isPublicRoute (req_path req) = true).
    { unfold isPublicRoute. apply existsb_exists. exists route.
      split; [exact Hin|]. rewrite Hpath. apply startsWith_app. }
    now rewrite Hp.
  - intro Hp. unfold jwtAuthMiddleware. rewrite Hp.
    destruct (req_authorization req) as [h|]; [|now left].
    destruct (String.eqb h ""); cbn [negb andb]; [now left|].
    destruct (startsWith "Bearer " h) eqn:Hb; cbn [negb]; [|now left].
    destruct (jwtVerify (dropChars 7 h)) as [decoded|] eqn:Hv; [|now left].
    right. exists (dropChars 7 h), decoded.
    split; [|split; [exact Hv | reflexivity]].
    f_equal. exact (startsWith_split "Bearer " h Hb).
Qed.

(** X3. The identity attached to a request is the one login returned.
    Provided the token that [generateToken] issues for a stored user
    verifies to the payload it signed, whenever [login] succeeds the
    middleware given the returned token as bearer sets [req.user] to the
    id, e-mail, role and agency of the login response. *)
Theorem login_token_identifies_user (dto : LoginDto) (users : list IUser)
    (response : AuthResponse) (path : string)
    (Hlogin : AuthService_login dto users = Ok response)
    (Hverify : forall user, In user users ->
       jwtVerify (AuthService_generateToken user)
       = Some {| jwt_sub := toString (u_id user); jwt_email := u_email user;
                 jwt_role := u_role user; jwt_agencyId := u_agencyId user |})
    (Hpath : isPublicRoute path = false) :
  let req := {| req_path := path;
                req_authorization := Some ("Bearer " ++ accessToken response)%string;
                req_user := None |} in
  jwtAuthMiddleware req
  = Ok {| req_path := path; req_authorization := req_authorization req;
          req_user := Some {| userId := ar_id response; email := ar_email response;
                              role := ar_role response;
                              agencyId := ar_agencyId response |} |}.
Proof.
  intro req. subst req. revert Hlogin. unfold AuthService_login.
  destruct (List.find _ users) as [user|] eqn:F; [|discriminate].
  destruct (negb (u_isActive user)); [discriminate|].
  destruct (negb (bcryptCompare (l_password dto) (u_password user)));
    [discriminate|].
  intro H. inversion H. subst response. clear H.
  apply find_some in F. destruct F as [Hin _].
  unfold jwtAuthMiddleware. cbn [req_path req_authorization].
  rewrite Hpath. cbn [authResponse accessToken ar_id ar_email ar_role ar_agencyId].
  change (dropChars 7 ("Bearer " ++ AuthService_generateToken user)%string)
    with (AuthService_generateToken user).
  change (startsWith "Bearer " ("Bearer " ++ AuthService_generateToken user)%string)
    with true.
  change (String.eqb ("Bearer " ++ AuthService_generateToken user)%string "")
    with false.
  cbn [negb andb]. now rewrite (Hverify user Hin).
Qed.

(** ** Routes *)

(** X4. Through the routes an agent or a viewer never creates, updates or
    deletes a property, never deletes a contact, never updates or deletes a
    campaign and never executes one: the role guard answers Forbidden and
    nothing is stored or sent.  A viewer is also refused the creation and
    update of contacts. *)
Theorem routes_refuse_agents_and_viewers (user : AuthenticatedUser)
    (Hrole : role user = AGENT \/ role user = VIEWER) :
  (forall freshId now dto db,
      properties_post freshId now dto user db = (Throw ForbiddenException, db)) /\
  (forall id dto db,
      properties_patch id dto user db = (Throw ForbiddenException, db)) /\
  (forall id db, properties_delete id user db = (Throw ForbiddenException, db)) /\
  (forall id db, contacts_delete id user db = (Throw ForbiddenException, db)) /\
  (forall id dto db,
      campaigns_patch id dto user db = (Throw ForbiddenException, db)) /\
  (forall id db, campaigns_delete id user db = (Throw ForbiddenException, db)) /\
  (forall bridge id db contactsDb,
      campaigns_execute bridge id user db contactsDb
      = stopped ForbiddenException db) /\
  (role user = VIEWER ->
   (forall freshId now dto db,
       contacts_post freshId now dto user db = (Throw ForbiddenException, db)) /\
   (forall id dto db,
       contacts_patch id dto user db = (Throw ForbiddenException, db))).
Proof.
  unfold properties_post, properties_patch, properties_delete, contacts_delete,
    campaigns_patch, campaigns_delete, campaigns_execute, contacts_post,
    contacts_patch, guarded, rbacMiddleware.
  destruct Hrole as [H|H]; rewrite H; cbn [existsb role_eqb orb negb];
    repeat split; intros; try reflexivity; discriminate.
Qed.

(** ** Single reads *)

(** X5. [PropertiesService.findOne] returns a stored property only to an
    admin or to a user of the property's agency, and then adds one to the
    views of that property and of no other; a refused or failed read leaves
    every counter as it was. *)
Theorem property_read_is_tenant_scoped (id : string) (user : AuthenticatedUser)
    (db : list IProperty) (views : Views) :
  (forall property views',
      PropertiesService_findOne id user db views = (Ok property, views') ->
      In property db /\
      (role user = ADMIN \/
       agencyId user = Some (toString (p_agency property))) /\
      views' (p_id property) = S (views (p_id property)) /\
      forall j, j <> p_id property -> views' j = views j) /\
  (forall e views',
      PropertiesService_findOne id user db views = (Throw e, views') ->
      views' = views).
Proof.
  unfold PropertiesService_findOne, findByIdString.
  destruct (isValid id); cbn [negb].
  2:{ split; intros ? ? H; inversion H; reflexivity. }
  destruct (newObjectId id) as [i|]; cbn [orThrow bind].
  2:{ split; intros ? ? H; inversion H; reflexivity. }
  destruct (findById p_id i db) as [found|] eqn:F.
  2:{ split; intros ? ? H; inversion H; reflexivity. }
  destruct (negb (role_eqb (role user) ADMIN)
            && negb (sameString (toString (p_agency found)) (agencyId user)))
    eqn:G.
  { split; intros ? ? H; inversion H; reflexivity. }
  split; [|intros ? ? H; inversion H].
  intros property views' H. inversion H; subst. clear H.
  split; [|split; [|split]].
  - unfold findById in F. now apply find_some in F.
  - apply andb_false_iff in G. destruct G as [G|G]; apply negb_false_iff in G.
    + left. destruct (role user); try discriminate G; reflexivity.
    + right. unfold sameString in G.
      destruct (agencyId user) as [a|]; [|discriminate G].
      apply String.eqb_eq in G. now subst.
  - unfold bumpViews. now rewrite oid_eqb_refl.
  - intros j Hj. unfold bumpViews.
    destruct (oid_eqb j (p_id property)) eqn:E; [|reflexivity].
    apply oid_eqb_eq in E. contradiction.
Qed.

Lemma In_firstn {A} (n : nat) (l : list A) (x : A) : In x (firstn n l) -> In x l.
Proof.
  revert l. induction n as [|n IH]; intros l H; [contradiction|].
  destruct l as [|y r]; [contradiction|].
  destruct H as [H|H]; [now left | right; now apply IH].
Qed.

(** X6. [findRecommended] returns only active properties with status
    "available" of the given agency, and with a positive limit at most
    that many of them. *)
Theorem recommended_are_available_in_agency (preferences : Preferences)
    (agency : string) (limit : nat) (db : list IProperty)
    (found : list IProperty)
    (Hok : PropertiesService_findRecommended preferences agency limit db
           = Ok found) :
  (0 < limit -> List.length found <= limit) /\
  exists i, newObjectId agency = Some i /\
    forall p, In p found ->
      In p db /\ p_isActive p = true /\ p_status p = "available" /\
      p_agency p = i.
Proof.
  unfold PropertiesService_findRecommended, PropertiesService_recommendedQuery in Hok.
  destruct (newObjectId agency) as [i|]; cbn [orThrow bind] in Hok;
    [|discriminate Hok].
  destruct (compileOpt (pr_city preferences)) as [city|]; cbn [bind] in Hok;
    [|discriminate Hok].
  destruct (compileOpt (pr_neighborhood preferences)) as [nb|]; cbn [bind] in Hok;
    [|discriminate Hok].
  inversion Hok; subst found. clear Hok. split.
  - intro Hl. destruct limit as [|n]; [lia|]. cbn [applyLimit].
    apply firstn_le_length.
  - exists i. split; [reflexivity|]. intros p Hp.
    assert (Hin : In p (findSorted p_createdAt
                          (property_matches
                             {| pq_isActive := Some true; pq_agency := Some i;
                                pq_type := keepTruthy (pr_propertyType preferences);
                                pq_transactionType :=
                                  keepTruthy (pr_transactionType preferences);
                                pq_status := Some "available";
                                pq_price_gte := keepTruthyZ (pr_minPrice preferences);
                                pq_price_lte := keepTruthyZ (pr_maxPrice preferences);
                                pq_area_gte := None; pq_area_lte := None;
                                pq_city := city; pq_state := None;
                                pq_neighborhood := nb;
                                pq_bedrooms_gte :=
                                  keepTruthyZ (pr_bedrooms preferences);
                                pq_bathrooms_gte := None;
                                pq_parkingSpaces_gte := None |}) db)).
    { destruct limit; [exact Hp | now apply In_firstn in Hp]. }
    apply findSorted_In in Hin. destruct Hin as [Hdb Hm].
    unfold property_matches in Hm. cbn [pq_isActive pq_agency pq_status optMatch] in Hm.
    split_all_andb Hm.
    split; [exact Hdb|]. split; [|split].
    + destruct (p_isActive p); [reflexivity | discriminate Hm].
    + match goal with
      | X : String.eqb (p_status p) "available" = true |- _ =>
          now apply String.eqb_eq in X
      end.
    + match goal with
      | X : oid_eqb (p_agency p) i = true |- _ => now apply oid_eqb_eq in X
      end.
Qed.

(** X7. [ContactsService.findOne] on a stored contact answers the contact
    or Forbidden, and the contact exactly when the reader is an admin, or
    the contact has no agency or the reader's, and, for an agent, the
    contact is assigned to the agent.  So a contact without agency is
    readable by every manager and viewer of any agency. *)
Theorem contact_read_rule (id : string) (i : ObjectId)
    (user : AuthenticatedUser) (db : list IContact) (contact : IContact)
    (Hvalid : isValid id = true) (Hid : newObjectId id = Some i)
    (Hfound : findById c_id i db = Some contact) :
  let allowed :=
    role_eqb (role user) ADMIN
    || (negb (foreignAgency (c_agency contact) user)
        && negb (role_eqb (role user) AGENT
                 && notAssignedTo (c_assignedTo contact) user)) in
  ContactsService_findOne id user db
  = (if allowed then Ok contact else Throw ForbiddenException) /\
  (c_agency contact = None -> role user = MANAGER \/ role user = VIEWER ->
   ContactsService_findOne id user db = Ok contact).
Proof.
  intro allowed. subst allowed.
  assert (E : ContactsService_findOne id user db
              = if role_eqb (role user) ADMIN then Ok contact
                else if foreignAgency (c_agency contact) user
                then Throw ForbiddenException
                else if role_eqb (role user) AGENT
                        && notAssignedTo (c_assignedTo contact) user
                then Throw ForbiddenException
                else Ok contact).
  { unfold ContactsService_findOne. rewrite Hvalid. cbn [negb].
    rewrite (findByIdString_found c_id id i db contact Hid Hfound).
    reflexivity. }
  rewrite E. split.
  - destruct (role_eqb (role user) ADMIN); [reflexivity|].
    destruct (foreignAgency (c_agency contact) user); [reflexivity|].
    now destruct (role_eqb (role user) AGENT
                  && notAssignedTo (c_assignedTo contact) user).
  - intros Hnone Hr. rewrite Hnone. cbn [foreignAgency].
    destruct Hr as [Hr|Hr]; rewrite Hr; reflexivity.
Qed.

(** ** Contacts *)


(** X9. An agent may hand a contact over: updating a contact assigned to
    the agent with a request that only sets [assignedTo] to another user
    succeeds and reassigns it, and from then on every update of that contact by the same agent is
    Forbidden. *)
Theorem agent_hands_over_contact (id : string) (i : ObjectId)
    (user : AuthenticatedUser) (db : list IContact) (contact : IContact)
    (other : string) (o : ObjectId)
    (Hagent : role user = AGENT)
    (Hvalid : isValid id = true) (Hid : newObjectId id = Some i)
    (Hfound : findById c_id i db = Some contact)
    (Hmine : c_assignedTo contact = Some (oid (userId user)))
    (Hne : other <> "")
    (Hov : isValid other = true) (Hcast : newObjectId other = Some o)
    (Hdiff : toString o <> userId user) :
  let dto := reassignTo other in
  exists contact',
    ContactsService_update id dto user db = (Ok contact', save c_id contact' db) /\
    c_assignedTo contact' = Some o /\
    forall dto',
      ContactsService_update id dto' user (save c_id contact' db)
      = (Throw ForbiddenException, save c_id contact' db).
Proof.
  intro dto. assert (Hother : uc_assignedTo dto = Some other) by reflexivity.
  pose proof (findById_id _ _ _ _ _ Hfound) as Hci.
  assert (Ht : truthy (Some other) = true).
  { cbn [truthy]. destruct (String.eqb other "") eqn:E; [|reflexivity].
    apply String.eqb_eq in E. contradiction. }
  assert (Htv : truthyValid (Some other) = true).
  { cbn [truthy] in Ht. cbn [truthyValid]. now rewrite Ht, Hov. }
  exists (assignContact dto None (Some o) contact).
  split; [|split].
  - unfold ContactsService_update. rewrite Hvalid. cbn [negb].
    rewrite (findByIdString_found c_id id i db contact Hid Hfound).
    rewrite Hagent, Hmine. unfold notAssignedTo, oid. cbn [toString].
    rewrite String.eqb_refl. cbn [negb].
    rewrite Hother, Ht, Htv. cbn [negb andb mkId]. rewrite Hcast.
    reflexivity.
  - reflexivity.
  - intro dto'. unfold ContactsService_update. rewrite Hvalid. cbn [negb].
    assert (Hf' : findById c_id i
                    (save c_id (assignContact dto None (Some o) contact) db)
                  = Some (assignContact dto None (Some o) contact)).
    { apply findById_save with (d := contact); [exact Hfound | exact Hci]. }
    rewrite (findByIdString_found c_id id i _ _ Hid Hf').
    rewrite Hagent. cbn [assignContact c_assignedTo notAssignedTo].
    destruct (String.eqb (toString o) (userId user)) eqn:E.
    + apply String.eqb_eq in E. contradiction.
    + reflexivity.
Qed.

Ltac frame_of_update Hid Hj :=
  match goal with
  | |- context [isValid ?id] => destruct (isValid id); cbn [negb snd]; [|reflexivity]
  end;
  unfold findByIdString; rewrite Hid; cbn [orThrow bind];
  match goal with
  | |- context [findById ?f ?i ?db] =>
      let F := fresh "F" in
      destruct (findById f i db) as [found|] eqn:F; cbn [snd]; [|reflexivity];
      apply (findById_id _ f) in F
  end.

(** X10. An update or a soft delete of a property, a contact or a campaign
    leaves every document with another id as it was, whether it succeeds or
    fails.  A successful update returns the stored document under its own
    id; it keeps the agency of the stored document when the body has no
    [agency] key, and otherwise moves the document to the agency the body
    names, which nothing compares with the caller's. *)
Theorem updates_touch_one_document (id : string) (i j : ObjectId)
    (user : AuthenticatedUser)
    (Hid : newObjectId id = Some i) (Hj : j <> i) :
  (forall dto db,
      findById p_id j (snd (PropertiesService_update id dto user db))
      = findById p_id j db) /\
  (forall db,
      findById p_id j (snd (PropertiesService_remove id user db))
      = findById p_id j db) /\
  (forall dto db,
      findById c_id j (snd (ContactsService_update id dto user db))
      = findById c_id j db) /\
  (forall db,
      findById c_id j (snd (ContactsService_remove id user db))
      = findById c_id j db) /\
  (forall dto db,
      findById k_id j (snd (CampaignsService_update id dto user db))
      = findById k_id j db) /\
  (forall db,
      findById k_id j (snd (CampaignsService_remove id user db))
      = findById k_id j db) /\
  (forall dto db p',
      fst (PropertiesService_update id dto user db) = Ok p' ->
      exists p, findById p_id i db = Some p /\ p_id p' = p_id p /\
                match up_agency dto with
                | None => p_agency p' = p_agency p
                | Some a => newObjectId a = Some (p_agency p')
                end) /\
  (forall dto db c',
      fst (ContactsService_update id dto user db) = Ok c' ->
      exists c, findById c_id i db = Some c /\ c_id c' = c_id c /\
                match uc_agency dto with
                | None => c_agency c' = c_agency c
                | Some a => newObjectId a = c_agency c'
                end) /\
  (forall dto db k',
      fst (CampaignsService_update id dto user db) = Ok k' ->
      exists k, findById k_id i db = Some k /\ k_id k' = k_id k /\
                match uk_agency dto with
                | None => k_agency k' = k_agency k
                | Some a => newObjectId a = k_agency k'
                end).
Proof.
  assert (Hij : i <> j) by congruence.
  repeat apply conj.
  - intros dto db. unfold PropertiesService_update. frame_of_update Hid Hj.
    destruct (PropertiesService_mayModify user found); cbn [snd]; [|reflexivity].
    destruct (castKey (up_agency dto)); [|reflexivity].
    destruct (castKey (up_owner dto)); [|reflexivity].
    destruct (validPropertyUpdate dto); cbn [snd]; [|reflexivity].
    apply findById_save_other. cbn [assignProperty p_id]. congruence.
  - intros db. unfold PropertiesService_remove. frame_of_update Hid Hj.
    destruct (PropertiesService_mayModify user found); cbn [snd]; [|reflexivity].
    apply findById_save_other. cbn. congruence.
  - intros dto db. unfold ContactsService_update. frame_of_update Hid Hj.
    destruct (match role user with
              | ADMIN => Ok tt
              | MANAGER => _
              | AGENT => _
              | VIEWER => _
              end); cbn [snd]; [|reflexivity].
    destruct (truthy (uc_assignedTo dto) && negb (truthyValid (uc_assignedTo dto)));
      cbn [snd]; [reflexivity|].
    destruct (if truthy (uc_assignedTo dto) then _ else _); [|reflexivity].
    destruct (castKey (uc_agency dto)); [|reflexivity].
    destruct (validContactUpdate dto); cbn [snd]; [|reflexivity].
    apply findById_save_other. cbn [assignContact c_id]. congruence.
  - intros db. unfold ContactsService_remove. frame_of_update Hid Hj.
    destruct (match role user with
              | ADMIN => Ok tt
              | MANAGER => _
              | _ => _
              end); cbn [snd]; [|reflexivity].
    apply findById_save_other. cbn. congruence.
  - intros dto db. unfold CampaignsService_update. frame_of_update Hid Hj.
    destruct (CampaignsService_mayModify user found); cbn [snd]; [|reflexivity].
    destruct (status_eqb (k_status found) RUNNING); cbn [snd]; [reflexivity|].
    destruct (castKey (uk_createdBy dto)); [|reflexivity].
    destruct (castKey (uk_agency dto)); [|reflexivity].
    destruct (validCampaignUpdate dto); cbn [snd]; [|reflexivity].
    apply findById_save_other. cbn [assignCampaign k_id]. congruence.
  - intros db. unfold CampaignsService_remove. frame_of_update Hid Hj.
    destruct (CampaignsService_mayModify user found); cbn [snd]; [|reflexivity].
    destruct (status_eqb (k_status found) RUNNING); cbn [snd]; [reflexivity|].
    apply findById_save_other. cbn. congruence.
  - intros dto db p'. unfold PropertiesService_update, findByIdString.
    destruct (isValid id); cbn [negb fst]; [|discriminate].
    rewrite Hid; cbn [orThrow bind].
    destruct (findById p_id i db) as [found|]; cbn [fst]; [|discriminate].
    destruct (PropertiesService_mayModify user found); cbn [fst]; [|discriminate].
    destruct (castKey (up_agency dto)) as [agency|] eqn:A; [|discriminate].
    destruct (castKey (up_owner dto)); [|discriminate].
    destruct (validPropertyUpdate dto); cbn [fst]; [|discriminate].
    intro H; inversion H; subst. exists found.
    split; [reflexivity|]. split; [reflexivity|].
    cbn [assignProperty p_agency]. unfold castKey in A.
    destruct (up_agency dto) as [s|].
    + destruct (newObjectId s); cbn in A; inversion A. reflexivity.
    + inversion A. reflexivity.
  - intros dto db c'. unfold ContactsService_update, findByIdString.
    destruct (isValid id); cbn [negb fst]; [|discriminate].
    rewrite Hid; cbn [orThrow bind].
    destruct (findById c_id i db) as [found|]; cbn [fst]; [|discriminate].
    destruct (match role user with
              | ADMIN => Ok tt
              | MANAGER => _
              | AGENT => _
              | VIEWER => _
              end); cbn [fst]; [|discriminate].
    destruct (truthy (uc_assignedTo dto) && negb (truthyValid (uc_assignedTo dto)));
      cbn [fst]; [discriminate|].
    destruct (if truthy (uc_assignedTo dto) then _ else _); [|discriminate].
    destruct (castKey (uc_agency dto)) as [agency|] eqn:A; [|discriminate].
    destruct (validContactUpdate dto); cbn [fst]; [|discriminate].
    intro H; inversion H; subst. exists found.
    split; [reflexivity|]. split; [reflexivity|].
    cbn [assignContact c_agency]. unfold castKey in A.
    destruct (uc_agency dto) as [s|].
    + destruct (newObjectId s); cbn in A; inversion A. reflexivity.
    + inversion A. reflexivity.
  - intros dto db k'. unfold CampaignsService_update, findByIdString.
    destruct (isValid id); cbn [negb fst]; [|discriminate].
    rewrite Hid; cbn [orThrow bind].
    destruct (findById k_id i db) as [found|]; cbn [fst]; [|discriminate].
    destruct (CampaignsService_mayModify user found); cbn [fst]; [|discriminate].
    destruct (status_eqb (k_status found) RUNNING); cbn [fst]; [discriminate|].
    destruct (castKey (uk_createdBy dto)); [|discriminate].
    destruct (castKey (uk_agency dto)) as [agency|] eqn:A; [|discriminate].
    destruct (validCampaignUpdate dto); cbn [fst]; [|discriminate].
    intro H; inversion H; subst. exists found.
    split; [reflexivity|]. split; [reflexivity|].
    cbn [assignCampaign k_agency]. unfold castKey in A.
    destruct (uk_agency dto) as [s|].
    + destruct (newObjectId s); cbn in A; inversion A. reflexivity.
    + inversion A. reflexivity.
Qed.

(** ** Campaigns *)

Lemma running_update_fails (id : string) (i : ObjectId) (user : AuthenticatedUser)
    (db : list ICampaign) (campaign : ICampaign) (dto : UpdateCampaignDto) :
  isValid id = true -> newObjectId id = Some i ->
  findById k_id i db = Some campaign -> k_status campaign = RUNNING ->
  exists e, CampaignsService_update id dto user db = (Throw e, db) /\
            (CampaignsService_mayModify user campaign = Ok tt ->
             e = BadRequestException).
Proof.
  intros Hv Hid Hf Hs. unfold CampaignsService_update. rewrite Hv. cbn [negb].
  rewrite (findByIdString_found k_id id i db campaign Hid Hf).
  destruct (CampaignsService_mayModify user campaign) as [[]|e].
  - rewrite Hs. cbn [status_eqb]. eexists. split; reflexivity.
  - exists e. split; [reflexivity | discriminate].
Qed.

Lemma running_remove_fails (id : string) (i : ObjectId) (user : AuthenticatedUser)
    (db : list ICampaign) (campaign : ICampaign) :
  isValid id = true -> newObjectId id = Some i ->
  findById k_id i db = Some campaign -> k_status campaign = RUNNING ->
  exists e, CampaignsService_remove id user db = (Throw e, db) /\
            (CampaignsService_mayModify user campaign = Ok tt ->
             e = BadRequestException).
Proof.
  intros Hv Hid Hf Hs. unfold CampaignsService_remove. rewrite Hv. cbn [negb].
  rewrite (findByIdString_found k_id id i db campaign Hid Hf).
  destruct (CampaignsService_mayModify user campaign) as [[]|e].
  - rewrite Hs. cbn [status_eqb]. eexists. split; reflexivity.
  - exists e. split; [reflexivity | discriminate].
Qed.

Lemma running_execute_fails (bridge : Bridge) (id : string) (i : ObjectId)
    (user : AuthenticatedUser) (db : list ICampaign) (contactsDb : list IContact)
    (campaign : ICampaign) :
  isValid id = true -> newObjectId id = Some i ->
  findById k_id i db = Some campaign -> k_status campaign = RUNNING ->
  exists e, CampaignsService_execute bridge id user db contactsDb = stopped e db /\
            (role user = ADMIN \/
             (exists a, k_agency campaign = Some a /\
                        agencyId user = Some (toString a)) ->
             e = BadRequestException).
Proof.
  intros Hv Hid Hf Hs. unfold CampaignsService_execute. rewrite Hv. cbn [negb].
  rewrite (findByIdString_found k_id id i db campaign Hid Hf).
  destruct (role_eqb (role user) ADMIN) eqn:R.
  - rewrite Hs. cbn [status_eqb]. eexists. split; reflexivity.
  - assert (Hnot : role user <> ADMIN).
    { intro Ha. rewrite Ha in R. discriminate R. }
    unfold campaignAgencyDiffers.
    destruct (k_agency campaign) as [a|] eqn:A.
    + destruct (sameString (toString a) (agencyId user)) eqn:S; cbn [negb].
      * rewrite Hs. cbn [status_eqb]. eexists. split; reflexivity.
      * eexists. split; [reflexivity|]. intros [Ha|[a' [Ea Eu]]]; [contradiction|].
        inversion Ea; subst a'. rewrite Eu in S. cbn [sameString] in S.
        rewrite String.eqb_refl in S. discriminate S.
    + eexists. split; [reflexivity|]. intros [Ha|[a' [Ea _]]];
        [contradiction | discriminate Ea].
Qed.

(** X11. A campaign whose status is running is locked: update, soft
    delete and execute all fail and leave the store unchanged, nothing is
    sent, and a caller who would otherwise be allowed (for update and
    delete an admin or a manager of the agency, for execute an admin or any
    user of the agency) is answered BadRequest. *)
Theorem running_campaign_is_locked (bridge : Bridge) (id : string)
    (i : ObjectId) (user : AuthenticatedUser) (db : list ICampaign)
    (contactsDb : list IContact) (campaign : ICampaign)
    (Hvalid : isValid id = true) (Hid : newObjectId id = Some i)
    (Hfound : findById k_id i db = Some campaign)
    (Hrunning : k_status campaign = RUNNING) :
  (forall dto, exists e,
      CampaignsService_update id dto user db = (Throw e, db) /\
      (CampaignsService_mayModify user campaign = Ok tt ->
       e = BadRequestException)) /\
  (exists e,
      CampaignsService_remove id user db = (Throw e, db) /\
      (CampaignsService_mayModify user campaign = Ok tt ->
       e = BadRequestException)) /\
  (exists e,
      CampaignsService_execute bridge id user db contactsDb = stopped e db /\
      (role user = ADMIN \/
       (exists a, k_agency campaign = Some a /\
                  agencyId user = Some (toString a)) ->
       e = BadRequestException)).
Proof.
  split; [|split].
  - intro dto. now apply running_update_fails with (i := i) (campaign := campaign).
  - now apply running_remove_fails with (i := i) (campaign := campaign).
  - now apply running_execute_fails with (i := i) (campaign := campaign).
Qed.

(** X12. [update] accepts a status from the caller.  Once a permitted
    caller has set a campaign to running with a request that only sets the
    status, no send having started,
    every later update, soft delete and execute of it by an admin fails with
    BadRequest and changes nothing. *)
Theorem update_to_running_blocks_campaign (bridge : Bridge) (id : string)
    (i : ObjectId) (user admin : AuthenticatedUser) (db : list ICampaign)
    (contactsDb : list IContact) (campaign : ICampaign)
    (Hvalid : isValid id = true) (Hid : newObjectId id = Some i)
    (Hfound : findById k_id i db = Some campaign)
    (Hallowed : CampaignsService_mayModify user campaign = Ok tt)
    (Hidle : k_status campaign <> RUNNING)
    (Hadmin : role admin = ADMIN) :
  let dto := setStatusTo RUNNING in
  exists db',
    snd (CampaignsService_update id dto user db) = db' /\
    (exists k, fst (CampaignsService_update id dto user db) = Ok k
               /\ k_status k = RUNNING) /\
    (forall dto', CampaignsService_update id dto' admin db'
                  = (Throw BadRequestException, db')) /\
    CampaignsService_remove id admin db' = (Throw BadRequestException, db') /\
    CampaignsService_execute bridge id admin db' contactsDb
    = stopped BadRequestException db'.
Proof.
  intro dto. assert (Hdto : uk_status dto = Some RUNNING) by reflexivity.
  pose proof (findById_id _ _ _ _ _ Hfound) as Hki.
  assert (Hup : CampaignsService_update id dto user db
                = (Ok (assignCampaign dto None None campaign),
                   save k_id (assignCampaign dto None None campaign) db)).
  { unfold CampaignsService_update. rewrite Hvalid. cbn [negb].
    rewrite (findByIdString_found k_id id i db campaign Hid Hfound), Hallowed.
    destruct (status_eqb (k_status campaign) RUNNING) eqn:E; [|reflexivity].
    destruct (k_status campaign); try discriminate E. congruence. }
  rewrite Hup. cbn [fst snd].
  set (k := assignCampaign dto None None campaign).
  assert (Hk : k_status k = RUNNING) by reflexivity.
  assert (Hf' : findById k_id i (save k_id k db) = Some k).
  { apply findById_save with (d := campaign); [exact Hfound | exact Hki]. }
  assert (Hmay : CampaignsService_mayModify admin k = Ok tt).
  { unfold CampaignsService_mayModify. now rewrite Hadmin. }
  exists (save k_id k db). split; [reflexivity|].
  split; [exists k; split; [reflexivity | exact Hk]|].
  split; [|split].
  - intro dto'.
    destruct (running_update_fails id i admin _ k dto' Hvalid Hid Hf' Hk)
      as [e [He Hb]].
    now rewrite He, (Hb Hmay).
  - destruct (running_remove_fails id i admin _ k Hvalid Hid Hf' Hk)
      as [e [He Hb]].
    now rewrite He, (Hb Hmay).
  - destruct (running_execute_fails bridge id i admin _ contactsDb k
                Hvalid Hid Hf' Hk) as [e [He Hb]].
    now rewrite He, (Hb (or_introl Hadmin)).
Qed.

(** ** Soft deletes *)

Lemma property_query_active (user : AuthenticatedUser)
    (filters : option PropertyFilters) (q : PropertyQuery) :
  PropertiesService_query user filters = Ok q -> pq_isActive q = Some true.
Proof.
  unfold PropertiesService_query.
  destruct (PropertiesService_scope user _); cbn [bind]; [|discriminate].
  destruct filters as [f|].
  - destruct (compileOpt (pf_city f)); cbn [bind]; [|discriminate].
    destruct (compileOpt (pf_neighborhood f)); cbn [bind]; [|discriminate].
    intro H; inversion H; reflexivity.
  - intro H; inversion H; reflexivity.
Qed.

Lemma contact_query_active (user : AuthenticatedUser)
    (filters : option ContactFilters) (q : ContactQuery) :
  ContactsService_query user filters = Ok q -> cq_isActive q = Some true.
Proof.
  unfold ContactsService_query.
  match goal with
  | |- bind ?scoped _ = _ -> _ =>
      assert (Hs : forall s, scoped = Ok s -> cq_isActive s = Some true);
      [|destruct scoped as [s|] eqn:S; cbn [bind]; [|discriminate];
        specialize (Hs s eq_refl)]
  end.
  { intro s. destruct (role_eqb (role user) ADMIN).
    - destruct (truthyValid _).
      + destruct (mkId _); cbn [bind]; [|discriminate].
        intro H; inversion H; reflexivity.
      + intro H; inversion H; reflexivity.
    - destruct (negb (truthy (agencyId user))); [discriminate|].
      destruct (mkId (agencyId user)); cbn [bind]; [|discriminate].
      destruct (role_eqb (role user) AGENT).
      + destruct (newObjectId (userId user)); cbn [orThrow bind]; [|discriminate].
        intro H; inversion H; reflexivity.
      + intro H; inversion H; reflexivity. }
  destruct filters as [f|]; [|intro H; inversion H; subst; exact Hs].
  destruct (truthyValid (cf_assignedTo f)).
  - destruct (mkId (cf_assignedTo f)); cbn [bind]; [|discriminate].
    destruct (cf_tags f) as [[|x xs]|]; intro H; inversion H; subst;
      destruct (truthy (cf_status f)), (truthy (cf_origin f)),
               (truthy (cf_urgency f)); exact Hs.
  - cbn [bind].
    destruct (cf_tags f) as [[|x xs]|]; intro H; inversion H; subst;
      destruct (truthy (cf_status f)), (truthy (cf_origin f)),
               (truthy (cf_urgency f)); exact Hs.
Qed.

Lemma campaign_query_active (user : AuthenticatedUser)
    (filters : option CampaignFilters) (q : CampaignQuery) :
  CampaignsService_query user filters = Ok q -> kq_isActive q = Some true.
Proof.
  unfold CampaignsService_query.
  match goal with
  | |- bind ?scoped _ = _ -> _ => destruct scoped; cbn [bind]; [|discriminate]
  end.
  intro H; inversion H; reflexivity.
Qed.

(** X13. After a successful soft delete of a property, a contact or a
    campaign, every listing holds exactly the documents it held before,
    minus those with the deleted id. *)
Theorem removed_documents_leave_listings (id : string) (i : ObjectId)
    (Hid : newObjectId id = Some i) :
  (forall remover reader filters db db' docs docs',
      PropertiesService_remove id remover db = (Ok tt, db') ->
      PropertiesService_findAll reader filters db = Ok docs ->
      PropertiesService_findAll reader filters db' = Ok docs' ->
      forall p, In p docs' <-> In p docs /\ p_id p <> i) /\
  (forall remover reader filters db db' docs docs',
      ContactsService_remove id remover db = (Ok tt, db') ->
      ContactsService_findAll reader filters db = Ok docs ->
      ContactsService_findAll reader filters db' = Ok docs' ->
      forall c, In c docs' <-> In c docs /\ c_id c <> i) /\
  (forall remover reader filters db db' docs docs',
      CampaignsService_remove id remover db = (Ok tt, db') ->
      CampaignsService_findAll reader filters db = Ok docs ->
      CampaignsService_findAll reader filters db' = Ok docs' ->
      forall k, In k docs' <-> In k docs /\ k_id k <> i).
Proof.
  split; [|split].
  - intros remover reader filters db db' docs docs' Hrm Hl Hl'.
    unfold PropertiesService_remove, findByIdString in Hrm.
    destruct (isValid id); cbn [negb] in Hrm; [|discriminate Hrm].
    rewrite Hid in Hrm. cbn [orThrow bind] in Hrm.
    destruct (findById p_id i db) as [found|] eqn:F; [|discriminate Hrm].
    destruct (PropertiesService_mayModify remover found); [|discriminate Hrm].
    inversion Hrm; subst db'. clear Hrm.
    apply findById_id in F.
    unfold PropertiesService_findAll in Hl, Hl'.
    destruct (PropertiesService_query reader filters) as [q|] eqn:Q;
      cbn [bind] in Hl, Hl'; [|discriminate Hl].
    apply property_query_active in Q.
    inversion Hl; inversion Hl'; subst. clear Hl Hl'.
    intro p. rewrite !findSorted_In. split.
    + intros [Hin Hm]. apply In_save in Hin. destruct Hin as [[Hin Hne]|Heq].
      * split; [split; assumption|]. cbn in Hne. congruence.
      * subst p. unfold property_matches in Hm. rewrite Q in Hm.
        cbn in Hm. discriminate Hm.
    + intros [[Hin Hm] Hne]. split; [|exact Hm].
      apply In_save_other; [exact Hin|]. cbn. congruence.
  - intros remover reader filters db db' docs docs' Hrm Hl Hl'.
    unfold ContactsService_remove, findByIdString in Hrm.
    destruct (isValid id); cbn [negb] in Hrm; [|discriminate Hrm].
    rewrite Hid in Hrm. cbn [orThrow bind] in Hrm.
    destruct (findById c_id i db) as [found|] eqn:F; [|discriminate Hrm].
    destruct (match role remover with
              | ADMIN => Ok tt
              | MANAGER => _
              | _ => _
              end); [|discriminate Hrm].
    inversion Hrm; subst db'. clear Hrm.
    apply findById_id in F.
    unfold ContactsService_findAll in Hl, Hl'.
    destruct (ContactsService_query reader filters) as [q|] eqn:Q;
      cbn [bind] in Hl, Hl'; [|discriminate Hl].
    apply contact_query_active in Q.
    inversion Hl; inversion Hl'; subst. clear Hl Hl'.
    intro c. rewrite !findSorted_In. split.
    + intros [Hin Hm]. apply In_save in Hin. destruct Hin as [[Hin Hne]|Heq].
      * split; [split; assumption|]. cbn in Hne. congruence.
      * subst c. unfold contact_matches in Hm. rewrite Q in Hm.
        cbn [optMatch deactivateContact c_isActive Bool.eqb] in Hm.
        rewrite andb_false_r in Hm. discriminate Hm.
    + intros [[Hin Hm] Hne]. split; [|exact Hm].
      apply In_save_other; [exact Hin|]. cbn. congruence.
  - intros remover reader filters db db' docs docs' Hrm Hl Hl'.
    unfold CampaignsService_remove, findByIdString in Hrm.
    destruct (isValid id); cbn [negb] in Hrm; [|discriminate Hrm].
    rewrite Hid in Hrm. cbn [orThrow bind] in Hrm.
    destruct (findById k_id i db) as [found|] eqn:F; [|discriminate Hrm].
    destruct (CampaignsService_mayModify remover found); [|discriminate Hrm].
    destruct (status_eqb (k_status found) RUNNING); [discriminate Hrm|].
    inversion Hrm; subst db'. clear Hrm.
    apply findById_id in F.
    unfold CampaignsService_findAll in Hl, Hl'.
    destruct (CampaignsService_query reader filters) as [q|] eqn:Q;
      cbn [bind] in Hl, Hl'; [|discriminate Hl].
    apply campaign_query_active in Q.
    inversion Hl; inversion Hl'; subst. clear Hl Hl'.
    intro k. rewrite !findSorted_In. split.
    + intros [Hin Hm]. apply In_save in Hin. destruct Hin as [[Hin Hne]|Heq].
      * split; [split; assumption|]. cbn in Hne. congruence.
      * subst k. unfold campaign_matches in Hm. rewrite Q in Hm.
        cbn in Hm. discriminate Hm.
    + intros [[Hin Hm] Hne]. split; [|exact Hm].
      apply In_save_other; [exact Hin|]. cbn. congruence.
Qed.

(** X14. A soft-deleted document is still served by id: after a
    successful soft delete of a contact or of a campaign, [findOne] answers
    every reader as before the delete, the document now carrying
    [isActive = false]. *)
Theorem removed_documents_remain_readable (id : string) (i : ObjectId)
    (Hid : newObjectId id = Some i) :
  (forall remover reader db db',
      ContactsService_remove id remover db = (Ok tt, db') ->
      ContactsService_findOne id reader db'
      = bind (ContactsService_findOne id reader db)
             (fun c => Ok (deactivateContact c))) /\
  (forall remover reader db db',
      CampaignsService_remove id remover db = (Ok tt, db') ->
      CampaignsService_findOne id reader db'
      = bind (CampaignsService_findOne id reader db)
             (fun k => Ok (setCampaign (k_status k) (k_statistics k) false k))).
Proof.
  split.
  - intros remover reader db db' Hrm.
    unfold ContactsService_remove, findByIdString in Hrm.
    destruct (isValid id) eqn:V; cbn [negb] in Hrm; [|discriminate Hrm].
    rewrite Hid in Hrm. cbn [orThrow bind] in Hrm.
    destruct (findById c_id i db) as [found|] eqn:F; [|discriminate Hrm].
    destruct (match role remover with
              | ADMIN => Ok tt
              | MANAGER => _
              | _ => _
              end); [|discriminate Hrm].
    inversion Hrm; subst db'. clear Hrm.
    assert (F' : findById c_id i (save c_id (deactivateContact found) db)
                 = Some (deactivateContact found)).
    { apply findById_save with (d := found); [exact F|].
      now apply (findById_id _ c_id) in F. }
    unfold ContactsService_findOne. rewrite V. cbn [negb].
    rewrite (findByIdString_found c_id id i _ _ Hid F).
    rewrite (findByIdString_found c_id id i _ _ Hid F'). cbn [bind].
    cbn [deactivateContact c_agency c_assignedTo].
    destruct (role_eqb (role reader) ADMIN); [reflexivity|].
    destruct (foreignAgency (c_agency found) reader); [reflexivity|].
    now destruct (role_eqb (role reader) AGENT
                  && notAssignedTo (c_assignedTo found) reader).
  - intros remover reader db db' Hrm.
    unfold CampaignsService_remove, findByIdString in Hrm.
    destruct (isValid id) eqn:V; cbn [negb] in Hrm; [|discriminate Hrm].
    rewrite Hid in Hrm. cbn [orThrow bind] in Hrm.
    destruct (findById k_id i db) as [found|] eqn:F; [|discriminate Hrm].
    destruct (CampaignsService_mayModify remover found); [|discriminate Hrm].
    destruct (status_eqb (k_status found) RUNNING); [discriminate Hrm|].
    inversion Hrm; subst db'. clear Hrm.
    set (gone := setCampaign (k_status found) (k_statistics found) false found).
    assert (F' : findById k_id i (save k_id gone db) = Some gone).
    { apply findById_save with (d := found); [exact F|].
      now apply (findById_id _ k_id) in F. }
    unfold CampaignsService_findOne. rewrite V. cbn [negb].
    rewrite (findByIdString_found k_id id i _ _ Hid F).
    rewrite (findByIdString_found k_id id i _ _ Hid F'). cbn [bind].
    destruct (role_eqb (role reader) ADMIN); [reflexivity|].
    unfold campaignAgencyDiffers. subst gone. cbn [setCampaign k_agency].
    destruct (k_agency found); cbn [bind]; [|reflexivity].
    now destruct (negb (sameString (toString o) (agencyId reader))).
Qed.


(** ** Agencies *)

Lemma find_app_some {A} (f : A -> bool) (l : list A) (x : A) :
  f x = true -> exists y, List.find f (l ++ [x]) = Some y.
Proof.
  intro Hx. induction l as [|z r IH]; cbn [app List.find].
  - rewrite Hx. eauto.
  - destruct (f z); eauto.
Qed.

(** X16. The business identifier of an agency is unique: once [create] has
    stored an agency, every later [create] with the same cnpj, by whoever,
    fails with Conflict and changes nothing. *)
Theorem duplicate_cnpj_conflicts (freshId : ObjectId) (dto : CreateAgencyDto)
    (user : AuthenticatedUser) (st st' : Tenancy) (agency : IAgency)
    (Hcreate : AgenciesService_create freshId dto user st = (Ok agency, st')) :
  forall freshId' dto' user',
    ca_cnpj dto' = ca_cnpj dto ->
    AgenciesService_create freshId' dto' user' st' = (Throw ConflictException, st').
Proof.
  intros freshId' dto' user' Hc. revert Hcreate.
  unfold AgenciesService_create at 1.
  destruct (List.find _ (agencies st)); [discriminate|].
  destruct (newObjectId (userId user)) as [owner|]; [|discriminate].
  destruct (required (ca_name dto) && required (ca_cnpj dto)
            && required (ca_phone dto) && required (ca_email dto));
    [|discriminate].
  intro H; inversion H; subst. clear H.
  unfold AgenciesService_create. cbn [agencies].
  destruct (find_app_some
              (fun a => String.eqb (a_cnpj a) (ca_cnpj dto')) (agencies st)
              {| a_id := freshId; a_name := ca_name dto; a_cnpj := ca_cnpj dto;
                 a_owner := owner; a_members := []; a_isActive := true |})
    as [y Hy].
  { cbn [a_cnpj]. rewrite Hc. apply String.eqb_refl. }
  now rewrite Hy.
Qed.

(** X17. [create] makes the caller the owner of the new agency, with no
    member, and binds the caller to it whatever the caller was bound to
    before; every other user keeps the binding it had. *)
Theorem create_binds_creator (freshId : ObjectId) (dto : CreateAgencyDto)
    (user : AuthenticatedUser) (st st' : Tenancy) (agency : IAgency)
    (Hcreate : AgenciesService_create freshId dto user st = (Ok agency, st')) :
  newObjectId (userId user) = Some (a_owner agency) /\
  a_id agency = freshId /\ a_members agency = [] /\
  agencies st' = agencies st ++ [agency] /\
  List.length (users st') = List.length (users st) /\
  forall n u, nth_error (users st) n = Some u ->
    exists u', nth_error (users st') n = Some u' /\
      u_id u' = u_id u /\ u_role u' = u_role u /\
      u_agencyId u' = (if oid_eqb (u_id u) (a_owner agency)
                       then Some (toString freshId) else u_agencyId u).
Proof.
  revert Hcreate. unfold AgenciesService_create.
  destruct (List.find _ (agencies st)); [discriminate|].
  destruct (newObjectId (userId user)) as [owner|]; [|discriminate].
  destruct (required (ca_name dto) && required (ca_cnpj dto)
            && required (ca_phone dto) && required (ca_email dto));
    [|discriminate].
  intro H; inversion H; subst. clear H. cbn [a_owner a_id a_members agencies users].
  repeat split.
  - unfold UserModel_setAgency. now rewrite length_map.
  - intros n u Hn. unfold UserModel_setAgency.
    rewrite nth_error_map, Hn. cbn [option_map].
    destruct (oid_eqb (u_id u) owner); eexists; split; reflexivity || (repeat split).
Qed.

Lemma addMember_inv (agency targetId : string) (user : AuthenticatedUser)
    (st st1 : Tenancy) (a1 : IAgency) :
  AgenciesService_addMember agency targetId user st = (Ok a1, st1) ->
  exists i found member target,
    isValid agency = true /\ isValid targetId = true /\
    newObjectId agency = Some i /\
    findById a_id i (agencies st) = Some found /\
    (negb (role_eqb (role user) ADMIN)
     && negb (String.eqb (toString (a_owner found)) (userId user))) = false /\
    newObjectId targetId = Some member /\
    findById u_id member (users st) = Some target /\
    existsb (fun m => String.eqb (toString m) targetId) (a_members found) = false /\
    a1 = setMembers (a_members found ++ [member]) found /\
    st1 = {| agencies := save a_id a1 (agencies st);
             users := UserModel_setAgency member (Some (toString (a_id found)))
                        (users st) |}.
Proof.
  unfold AgenciesService_addMember.
  destruct (isValid agency); [|discriminate].
  destruct (isValid targetId); [|discriminate]. cbn [negb orb].
  destruct (findByIdString a_id agency (agencies st)) as [[found|]|e] eqn:F;
    [|discriminate|discriminate].
  destruct (negb (role_eqb (role user) ADMIN)
            && negb (String.eqb (toString (a_owner found)) (userId user))) eqn:G;
    [discriminate|].
  destruct (findByIdString u_id targetId (users st)) as [[target|]|e] eqn:U;
    [|discriminate|discriminate].
  destruct (existsb _ (a_members found)) eqn:M; [discriminate|].
  apply findByIdString_inv in F. destruct F as [i [Hi Hf]].
  apply findByIdString_inv in U. destruct U as [member [Hm Hu]].
  rewrite Hm. intro H. inversion H.
  exists i, found, member, target. repeat (split; try assumption); reflexivity.
Qed.

(** X18. Adding a member and removing it again, for a user other than
    the owner.  When the request writes the user id as the store prints it,
    [removeMember] by the same caller succeeds and returns the agency
    document exactly as it was before the addition.  When it writes the id
    otherwise, [removeMember] with that same id also succeeds but removes
    nothing: the member list is compared with the id as written, and the
    agency keeps the member. *)
Theorem member_added_then_removed (agency targetId : string)
    (user : AuthenticatedUser) (st st1 : Tenancy) (a1 : IAgency)
    (member : ObjectId)
    (Hadd : AgenciesService_addMember agency targetId user st = (Ok a1, st1))
    (Hcast : newObjectId targetId = Some member)
    (Howner : toString (a_owner a1) <> targetId) :
  exists i a0,
    newObjectId agency = Some i /\
    findById a_id i (agencies st) = Some a0 /\
    a_members a1 = a_members a0 ++ [member] /\
    (toString member = targetId ->
     exists st2,
       AgenciesService_removeMember agency targetId user st1 = (Ok a0, st2) /\
       findById a_id i (agencies st2) = Some a0) /\
    (toString member <> targetId ->
     exists st2,
       AgenciesService_removeMember agency targetId user st1 = (Ok a1, st2) /\
       findById a_id i (agencies st2) = Some a1).
Proof.
  apply addMember_inv in Hadd.
  destruct Hadd as [i [found [member' [target
    [Va [Vt [Hi [Hf [G [Hm [Hu [M [Ha Hst]]]]]]]]]]]]].
  assert (member' = member) by congruence. subst member'.
  exists i, found.
  assert (Hid1 : a_id a1 = i).
  { subst a1. destruct found; cbn. now apply findById_id in Hf. }
  assert (Hf1 : findById a_id i (agencies st1) = Some a1).
  { subst st1. cbn [agencies]. now apply (findById_save _ _ i _ found). }
  assert (Ho : a_owner a1 = a_owner found) by (subst a1; now destruct found).
  assert (Hmem : a_members a1 = a_members found ++ [member])
    by (subst a1; now destruct found).
  assert (Hrun : forall kept,
            setMembers
              (filter (fun m => negb (String.eqb (toString m) targetId))
                      (a_members a1)) a1 = kept ->
            exists st2,
              AgenciesService_removeMember agency targetId user st1 = (Ok kept, st2)
              /\ findById a_id i (agencies st2) = Some kept).
  { intros kept Hk. eexists.
    unfold AgenciesService_removeMember. rewrite Va, Vt. cbn [negb orb].
    rewrite (findByIdString_found a_id agency i (agencies st1) a1 Hi Hf1).
    rewrite Ho, G. rewrite <- Ho.
    destruct (String.eqb (toString (a_owner a1)) targetId) eqn:O;
      [apply String.eqb_eq in O; contradiction|].
    rewrite Hm, Hk. split; [reflexivity|]. cbn [agencies].
    apply (findById_save _ _ i _ a1); [exact Hf1|].
    rewrite <- Hk. cbn [setMembers a_id]. exact Hid1. }
  split; [exact Hi|]. split; [exact Hf|]. split; [exact Hmem|]. split.
  - intro Hcanon. apply Hrun. rewrite Hmem.
    rewrite (filter_out_last (fun m => String.eqb (toString m) targetId));
      [| exact M | rewrite Hcanon; apply String.eqb_refl].
    subst a1. destruct found; reflexivity.
  - intro Hother. apply Hrun. rewrite Hmem.
    rewrite (filter_none_out (fun m => String.eqb (toString m) targetId)).
    + rewrite <- Hmem. apply setMembers_same.
    + rewrite existsb_app, M. cbn [existsb orb].
      apply String.eqb_neq in Hother. now rewrite Hother.
Qed.

(** X19. Adding the same user again.  After a successful [addMember], the
    same request fails with Conflict and changes nothing when it writes the
    user id as the store prints it; when it writes the id otherwise, the
    request succeeds again and the member is stored a second time, since
    the membership test compares the stored ids with the id as written. *)
Theorem member_is_added_once (agency targetId : string)
    (user : AuthenticatedUser) (st st1 : Tenancy) (a1 : IAgency)
    (member : ObjectId)
    (Hadd : AgenciesService_addMember agency targetId user st = (Ok a1, st1))
    (Hcast : newObjectId targetId = Some member) :
  (toString member = targetId ->
   AgenciesService_addMember agency targetId user st1
   = (Throw ConflictException, st1)) /\
  (toString member <> targetId ->
   exists a2 st2,
     AgenciesService_addMember agency targetId user st1 = (Ok a2, st2) /\
     a_members a2 = a_members a1 ++ [member] /\
     In member (a_members a1)).
Proof.
  apply addMember_inv in Hadd.
  destruct Hadd as [i [found [member' [target
    [Va [Vt [Hi [Hf [G [Hm [Hu [M [Ha Hst]]]]]]]]]]]]].
  assert (member' = member) by congruence. subst member'.
  assert (Hid1 : a_id a1 = i).
  { subst a1. destruct found; cbn. now apply findById_id in Hf. }
  assert (Hf1 : findById a_id i (agencies st1) = Some a1).
  { subst st1. cbn [agencies]. now apply (findById_save _ _ i _ found). }
  destruct (findById_setAgency member member (Some (toString (a_id found)))
              (users st) target Hu) as [u' Hu'].
  assert (Hu1 : findById u_id member (users st1) = Some u').
  { subst st1. exact Hu'. }
  assert (Ho : a_owner a1 = a_owner found) by (subst a1; now destruct found).
  assert (Hmem : a_members a1 = a_members found ++ [member])
    by (subst a1; now destruct found).
  assert (Hex : existsb (fun m => String.eqb (toString m) targetId) (a_members a1)
                = String.eqb (toString member) targetId).
  { rewrite Hmem, existsb_app, M. cbn [existsb orb]. apply orb_false_r. }
  split.
  - intro Hcanon.
    unfold AgenciesService_addMember. rewrite Va, Vt. cbn [negb orb].
    rewrite (findByIdString_found a_id agency i (agencies st1) a1 Hi Hf1).
    rewrite Ho, G.
    rewrite (findByIdString_found u_id targetId member (users st1) u' Hm Hu1).
    rewrite Hex, Hcanon, String.eqb_refl. reflexivity.
  - intro Hother. eexists. eexists.
    unfold AgenciesService_addMember. rewrite Va, Vt. cbn [negb orb].
    rewrite (findByIdString_found a_id agency i (agencies st1) a1 Hi Hf1).
    rewrite Ho, G.
    rewrite (findByIdString_found u_id targetId member (users st1) u' Hm Hu1).
    apply String.eqb_neq in Hother. rewrite Hex, Hother, Hm.
    split; [reflexivity|]. split; [reflexivity|].
    rewrite Hmem. apply in_or_app. right. now left.
Qed.

(** X20. [removeMember] never checks that the target belongs to the agency:
    whenever it succeeds, every user document with the target id loses its
    agency, whichever agency that was, the other users are untouched and
    the member list only loses the entries that print as the target. *)
Theorem remove_member_unbinds_any_user (agency targetId : string)
    (user : AuthenticatedUser) (st st' : Tenancy) (a' : IAgency)
    (Hrem : AgenciesService_removeMember agency targetId user st = (Ok a', st')) :
  exists uid,
    newObjectId targetId = Some uid /\
    users st' = map (fun u => if oid_eqb (u_id u) uid
                              then setAgencyId None u else u) (users st) /\
    (forall u, In u (users st') -> u_id u = uid -> u_agencyId u = None) /\
    (forall m, In m (a_members a') -> toString m <> targetId).
Proof.
  revert Hrem. unfold AgenciesService_removeMember.
  destruct (negb (isValid agency) || negb (isValid targetId)); [discriminate|].
  destruct (findByIdString a_id agency (agencies st)) as [[found|]|e];
    [|discriminate|discriminate].
  destruct (negb (role_eqb (role user) ADMIN)
            && negb (String.eqb (toString (a_owner found)) (userId user)));
    [discriminate|].
  destruct (String.eqb (toString (a_owner found)) targetId); [discriminate|].
  destruct (newObjectId targetId) as [uid|]; [|discriminate].
  intro H. inversion H. subst. clear H. exists uid.
  split; [reflexivity|]. split; [reflexivity|]. split.
  - intros u Hin Hid. cbn [users] in Hin.
    exact (In_setAgency uid None _ u Hin Hid).
  - intros m Hin. cbn [setMembers a_members] in Hin.
    apply filter_In in Hin. destruct Hin as [_ Hm].
    apply negb_true_iff in Hm. intro E. rewrite E, String.eqb_refl in Hm.
    discriminate Hm.
Qed.

(** X21. Deleting an agency is an admin-only soft delete with a cascade:
    when [remove] succeeds the caller is an admin, the agency stays in the
    collection with [isActive] false and the same owner and members, no
    user is bound to it any more, and [findOne] still returns it. *)
Theorem agency_removal_cascade (id : string) (user : AuthenticatedUser)
    (st st' : Tenancy)
    (Hrem : AgenciesService_remove id user st = (Ok tt, st')) :
  role user = ADMIN /\
  exists i agency,
    newObjectId id = Some i /\
    findById a_id i (agencies st) = Some agency /\
    findById a_id i (agencies st') = Some (deactivateAgency agency) /\
    (forall u, In u (users st') -> u_agencyId u <> Some (toString i)) /\
    List.length (users st') = List.length (users st) /\
    AgenciesService_findOne id user st' = Ok (deactivateAgency agency).
Proof.
  revert Hrem. unfold AgenciesService_remove.
  destruct (isValid id) eqn:V; [|discriminate]. cbn [negb].
  destruct (role_eqb (role user) ADMIN) eqn:R; [|discriminate]. cbn [negb].
  destruct (findByIdString a_id id (agencies st)) as [[agency|]|e] eqn:F;
    [|discriminate|discriminate].
  apply findByIdString_inv in F. destruct F as [i [Hi Hf]].
  intro H. inversion H. subst st'. clear H. cbn [agencies users].
  assert (Hid : a_id agency = i) by now apply findById_id in Hf.
  assert (Hf' : findById a_id i (save a_id (deactivateAgency agency) (agencies st))
                = Some (deactivateAgency agency)).
  { apply (findById_save _ _ i _ agency); [exact Hf|]. exact Hid. }
  split; [destruct (role user); try discriminate R; reflexivity|].
  exists i, agency. split; [exact Hi|]. split; [exact Hf|]. split; [exact Hf'|].
  split; [|split].
  - intros u Hin. unfold UserModel_clearAgency in Hin.
    apply in_map_iff in Hin. destruct Hin as [v [Hv _]]. rewrite Hid in Hv.
    destruct (sameString (toString i) (u_agencyId v)) eqn:S.
    + subst u. discriminate.
    + subst u. intro E. rewrite E in S. cbn [sameString] in S.
      rewrite String.eqb_refl in S. discriminate S.
  - unfold UserModel_clearAgency. apply length_map.
  - unfold AgenciesService_findOne. rewrite V. cbn [negb agencies].
    rewrite (findByIdString_found a_id id i _ _ Hi Hf'). cbn.
    now rewrite R.
Qed.

(** X22. The business identifier stays unique: when no two agencies share
    a cnpj, a successful [create] keeps it so, and so does a successful
    [update] on a collection whose ids are distinct. *)
Theorem cnpj_stays_unique (st : Tenancy)
    (Hcnpj : NoDup (map a_cnpj (agencies st))) :
  (forall freshId dto user agency st',
      AgenciesService_create freshId dto user st = (Ok agency, st') ->
      NoDup (map a_cnpj (agencies st'))) /\
  (forall id dto user agency st',
      NoDup (map a_id (agencies st)) ->
      AgenciesService_update id dto user st = (Ok agency, st') ->
      NoDup (map a_cnpj (agencies st'))).
Proof.
  split.
  - intros freshId dto user agency st'. unfold AgenciesService_create.
    destruct (List.find _ (agencies st)) eqn:F; [discriminate|].
    destruct (newObjectId (userId user)) as [owner|]; [|discriminate].
    destruct (required (ca_name dto) && required (ca_cnpj dto)
              && required (ca_phone dto) && required (ca_email dto));
      [|discriminate].
    intro H. inversion H. subst. clear H. cbn [agencies].
    rewrite map_app. cbn [map a_cnpj].
    apply NoDup_app; [exact Hcnpj | constructor; [intros []|constructor] |].
    intros c Hc [Hin|[]]. subst c.
    apply in_map_iff in Hc. destruct Hc as [x [Ex Hx]].
    apply (find_none _ _ F) in Hx. cbn in Hx. rewrite Ex, String.eqb_refl in Hx.
    discriminate Hx.
  - intros id dto user agency st' Hids. unfold AgenciesService_update.
    destruct (negb (isValid id)); [discriminate|].
    destruct (findByIdString a_id id (agencies st)) as [[found|]|e] eqn:F;
      [|discriminate|discriminate].
    destruct (negb (role_eqb (role user) ADMIN)
              && negb (String.eqb (toString (a_owner found)) (userId user)));
      [discriminate|].
    destruct (truthy (ua_cnpj dto)
              && negb (sameString (a_cnpj found) (ua_cnpj dto))
              && existsb _ (agencies st)) eqn:T; [discriminate|].
    destruct (required (a_name (assignAgency dto found))
              && required (a_cnpj (assignAgency dto found))) eqn:Rq;
      [|discriminate].
    intro H. inversion H. subst. clear H. cbn [agencies].
    apply findByIdString_inv in F. destruct F as [i [Hi Hf]].
    assert (Hin : In found (agencies st)).
    { unfold findById in Hf. now apply find_some in Hf. }
    apply save_keeps_unique; [exact Hids | exact Hcnpj |].
    intros x Hx Hne. cbn [assignAgency a_id a_cnpj] in *.
    assert (Hold : a_cnpj x <> a_cnpj found).
    { intro E. apply Hne. f_equal.
      exact (NoDup_map_eq a_cnpj (agencies st) x found Hcnpj Hx Hin E). }
    destruct (ua_cnpj dto) as [c|] eqn:C; cbn [assign]; [|exact Hold].
    cbn [truthy sameString] in T.
    destruct (String.eqb (a_cnpj found) c) eqn:S.
    + apply String.eqb_eq in S. now subst c.
    + apply andb_prop in Rq. destruct Rq as [_ Rc]. cbn [assign] in Rc.
      unfold required in Rc. rewrite Rc in T. cbn [negb andb] in T.
      intro E. assert (Hex : existsb
                  (fun other => String.eqb (a_cnpj other) c
                                && negb (oid_eqb (a_id other) (a_id found)))
                  (agencies st) = true).
      { apply existsb_exists. exists x. split; [exact Hx|].
        rewrite E, String.eqb_refl. cbn [andb]. apply negb_true_iff.
        destruct (oid_eqb (a_id x) (a_id found)) eqn:O; [|reflexivity].
        apply oid_eqb_eq in O. contradiction. }
      rewrite Hex in T. discriminate T.
Qed.

(** ** Authentication *)

(** X23. A registered user can log in: after a successful [register] of
    a request with the e-mail and the name that the user schema requires,
    [login] with the same email and password succeeds on the new
    collection, with the identity and the role that [register] returned
    (given that [bcrypt.compare] accepts the password against its own
    hash); a password that does not compare is Unauthorized, and a second
    registration of the email is a BadRequest that stores nothing. *)
Theorem registered_user_can_log_in (freshId : ObjectId) (dto : RegisterDto)
    (users users' : list IUser) (response : AuthResponse)
    (Hemail : r_email dto <> "") (Hname : r_name dto <> "")
    (Hreg : AuthService_register freshId dto users = (Ok response, users'))
    (Hbcrypt : bcryptCompare (r_password dto) (bcryptHash (r_password dto)) = true) :
  (exists response',
      AuthService_login {| l_email := r_email dto; l_password := r_password dto |}
        users' = Ok response' /\
      ar_id response' = ar_id response /\ ar_email response' = r_email dto /\
      ar_role response' = ar_role response /\ ar_agencyId response' = None) /\
  (forall password,
      bcryptCompare password (bcryptHash (r_password dto)) = false ->
      AuthService_login {| l_email := r_email dto; l_password := password |} users'
      = Throw UnauthorizedException) /\
  (forall freshId' dto',
      r_email dto' = r_email dto ->
      AuthService_register freshId' dto' users' = (Throw BadRequestException, users')).
Proof.
  revert Hreg. unfold AuthService_register.
  destruct (List.find _ users) eqn:F; [discriminate|].
  destruct (UserModel_create _ _ _ _ _ _ _) as [user|e] eqn:C; [|discriminate].
  intro H. inversion H. subst. clear H.
  unfold UserModel_create in C.
  destruct (required (r_email dto) && required (bcryptHash (r_password dto))
            && required (r_name dto)); [|discriminate].
  destruct (parseRole _) as [r|]; [|discriminate]. inversion C. subst user. clear C.
  set (user := {| u_id := freshId; u_email := r_email dto;
                  u_password := bcryptHash (r_password dto); u_name := r_name dto;
                  u_phone := r_phone dto; u_agencyId := None; u_role := r;
                  u_isActive := true |}).
  assert (Hfind : forall e, e = r_email dto ->
            List.find (fun u => String.eqb (u_email u) e) (users ++ [user])
            = Some user).
  { intros e He. subst e. clear Hbcrypt Hemail Hname.
    induction users as [|x l IH].
    - cbn. now rewrite String.eqb_refl.
    - cbn [List.find] in F. cbn [app List.find].
      destruct (String.eqb (u_email x) (r_email dto)); [discriminate F|].
      now apply IH. }
  split; [|split].
  - unfold AuthService_login. cbn [l_email l_password].
    rewrite (Hfind _ eq_refl). cbn [u_isActive user negb u_password].
    rewrite Hbcrypt. cbn [negb]. eexists. split; [reflexivity|].
    repeat split.
  - intros password Hp. unfold AuthService_login. cbn [l_email l_password].
    rewrite (Hfind _ eq_refl). cbn [u_isActive user negb u_password].
    now rewrite Hp.
  - intros freshId' dto' He. unfold AuthService_register.
    now rewrite (Hfind _ He).
Qed.

(** X24. A deactivated user is locked out of every entry point of the
    authentication service: [login] with any password, [validateToken] with
    any token that names the user, and [refreshToken] all answer
    Unauthorized. *)
Theorem inactive_user_is_locked_out (users : list IUser) (user : IUser)
    (Hinactive : u_isActive user = false)
    (Hid : newObjectId (toString (u_id user)) = Some (u_id user))
    (Hbyid : findById u_id (u_id user) users = Some user)
    (Hbyemail : List.find (fun u => String.eqb (u_email u) (u_email user)) users
                = Some user) :
  (forall password,
      AuthService_login {| l_email := u_email user; l_password := password |} users
      = Throw UnauthorizedException) /\
  (forall token,
      jwtVerifyUserId token = Some (toString (u_id user)) ->
      AuthService_validateToken token users = Throw UnauthorizedException) /\
  AuthService_refreshToken (toString (u_id user)) users
  = Throw UnauthorizedException.
Proof.
  split; [|split].
  - intro password. unfold AuthService_login. cbn [l_email].
    now rewrite Hbyemail, Hinactive.
  - intros token Ht. unfold AuthService_validateToken. rewrite Ht.
    rewrite (findByIdString_found u_id _ _ _ _ Hid Hbyid). now rewrite Hinactive.
  - unfold AuthService_refreshToken.
    rewrite (findByIdString_found u_id _ _ _ _ Hid Hbyid). cbn.
    now rewrite Hinactive.
Qed.

(** ** Agent sessions *)

Lemma continues_refl (s : IAgentSession) : continues s s.
Proof.
  unfold continues. repeat (split; [reflexivity|]).
  exists []. split; [now rewrite app_nil_r | constructor].
Qed.

Lemma continues_trans (a b c : IAgentSession) :
  continues a b -> continues b c -> continues a c.
Proof.
  unfold continues.
  intros [Hi [Hu [Hg [Ht [Ho [x [Hx Fx]]]]]]] [Hi' [Hu' [Hg' [Ht' [Ho' [y [Hy Fy]]]]]]].
  split; [congruence|]. split; [congruence|]. split; [congruence|].
  split; [congruence|]. split; [congruence|].
  exists (x ++ y). split.
  - rewrite Hy, Hx. now rewrite app_assoc.
  - apply Forall_app. now split.
Qed.

Lemma continues_update (s : IAgentSession) (status : SessionStatus)
    (a : AgentStatus) (extra : list IMessage) (n : nat) :
  Forall (fun m => m_role m = "assistant") extra ->
  continues s (updateSession status a (s_messages s ++ extra) n s).
Proof.
  intro H. unfold continues, updateSession. cbn.
  repeat (split; [reflexivity|]). now exists extra.
Qed.

Lemma continues_status (s : IAgentSession) (a : AgentStatus) :
  continues s (setAgentStatus a s).
Proof.
  unfold continues, setAgentStatus, updateSession. cbn.
  repeat (split; [reflexivity|]).
  exists []. split; [now rewrite app_nil_r | constructor].
Qed.

Lemma continues_transcript (s : IAgentSession) (a : AgentStatus) :
  continues s (setTranscript a (s_messages s) s).
Proof.
  unfold continues, setTranscript, updateSession. cbn.
  repeat (split; [reflexivity|]).
  exists []. split; [now rewrite app_nil_r | constructor].
Qed.

Lemma stub_run {Call} (sessionId : ObjectId) (db : list IAgentSession)
    (session : IAgentSession) :
  findById s_id sessionId db = Some session ->
  exists final,
    @AgentsService_executeStubMode art Call sessionId db
    = {| run_outcome := Returned; run_sessions := save s_id final db;
         run_calls := [] |} /\
    findById s_id sessionId (save s_id final db) = Some final /\
    s_id final = sessionId /\
    continues session final /\ settled final /\ s_status final = S_COMPLETED /\
    s_messages final
    = s_messages session
      ++ [assistantMessage
            (stubResponse (orElse (s_originalGoal session)
                             "Objetivo não especificado"))].
Proof.
  intro Hf. unfold AgentsService_executeStubMode. rewrite Hf.
  pose proof (findById_id _ _ _ _ _ Hf) as Hid.
  eexists. split; [reflexivity|]. split; [|split; [|split; [|split; [|split]]]].
  - apply (findById_save _ _ sessionId db session); [exact Hf | exact Hid].
  - exact Hid.
  - apply continues_update. repeat constructor.
  - split; reflexivity.
  - reflexivity.
  - reflexivity.
Qed.

Lemma openAIToolCalls_appends (tools : list Tool) (user : AuthenticatedUser)
    (calls : list ToolCall) (messages transcript : list IMessage) :
  openAIToolCalls tools user calls messages = Some transcript ->
  exists extra, transcript = messages ++ extra /\
                Forall (fun m => m_role m = "assistant") extra.
Proof.
  revert messages. induction calls as [|c r IH]; intros messages H.
  - cbn in H. inversion H. exists []. split; [now rewrite app_nil_r | constructor].
  - cbn [openAIToolCalls] in H.
    destruct (negb (String.eqb (tc_type c) "function")); [now apply IH|].
    destruct (findTool tools (tc_name c)) as [tool|]; [|now apply IH].
    destruct (JSON_parse (tc_arguments c)) as [args|]; [|discriminate H].
    apply IH in H. destruct H as [extra [E F]].
    exists (toolMessage tool args (t_execute tool args user) :: extra). split.
    + rewrite E, <- app_assoc. reflexivity.
    + constructor; [reflexivity | exact F].
Qed.

Lemma geminiEntries_assistant (tools : list Tool) (user : AuthenticatedUser)
    (calls : list FunctionCall) :
  Forall (fun m => m_role m = "assistant") (geminiEntries tools user calls).
Proof.
  induction calls as [|c r IH]; [constructor|].
  unfold geminiEntries. cbn [flat_map].
  destruct (findTool tools (fc_name c)); [|exact IH].
  constructor; [reflexivity | exact IH].
Qed.

Lemma openAI_run_invariant (config : AiConfig) (user : AuthenticatedUser)
    (sessionId : ObjectId) (script : list (option AssistantMessage)) :
  forall (db : list IAgentSession) (session : IAgentSession),
  findById s_id sessionId db = Some session ->
  (exists final,
      findById s_id sessionId
        (run_sessions (AgentsService_executeWithOpenAI config script sessionId user db))
      = Some final /\
      continues session final /\
      (run_outcome (AgentsService_executeWithOpenAI config script sessionId user db)
       = Returned -> settled final)) /\
  (forall j, j <> sessionId ->
      findById s_id j
        (run_sessions (AgentsService_executeWithOpenAI config script sessionId user db))
      = findById s_id j db) /\
  Forall (fun call => exists s, continues session s /\ call = openAIPrompt s)
         (run_calls (AgentsService_executeWithOpenAI config script sessionId user db)) /\
  List.length
    (run_calls (AgentsService_executeWithOpenAI config script sessionId user db))
  <= S (List.length script).
Proof.
  induction script as [|reply script' IH]; intros db session Hf;
    pose proof (findById_id _ _ _ _ _ Hf) as Hid.
  - cbn [AgentsService_executeWithOpenAI]. rewrite Hf.
    destruct (hasInstance config "openai"); cbn [negb].
    + cbn [run_sessions run_outcome run_calls called finish List.length].
      split; [|split; [|split]].
      * exists session. split; [exact Hf|]. split; [apply continues_refl|discriminate].
      * reflexivity.
      * constructor; [|constructor]. exists session. split; [apply continues_refl|reflexivity].
      * lia.
    + destruct (@stub_run (list (string * string)) sessionId db session Hf)
        as [final [E [Hff [Hfi [Hc [Hs _]]]]]].
      rewrite E. cbn [run_sessions run_outcome run_calls called finish List.length].
      split; [|split; [|split]].
      * exists final. split; [exact Hff|]. split; [exact Hc|]. intros _; exact Hs.
      * intros j Hj. apply findById_save_other. congruence.
      * constructor.
      * lia.
  - cbn [AgentsService_executeWithOpenAI]. rewrite Hf.
    destruct (hasInstance config "openai"); cbn [negb].
    2:{ destruct (@stub_run (list (string * string)) sessionId db session Hf)
          as [final [E [Hff [Hfi [Hc [Hs _]]]]]].
        rewrite E. cbn [run_sessions run_outcome run_calls called finish List.length].
      split; [|split; [|split]].
        * exists final. split; [exact Hff|]. split; [exact Hc|]. intros _; exact Hs.
        * intros j Hj. apply findById_save_other. congruence.
        * constructor.
        * lia. }
    assert (Hfirst : exists s, continues session s /\ openAIPrompt session = openAIPrompt s).
    { exists session. split; [apply continues_refl | reflexivity]. }
    destruct reply as [msg|].
    2:{ cbn [run_sessions run_outcome run_calls called finish List.length].
      split; [|split; [|split]].
        * exists session. split; [exact Hf|]. split; [apply continues_refl|discriminate].
        * reflexivity.
        * constructor; [exact Hfirst|constructor].
        * lia. }
    destruct (am_tool_calls msg) as [[|c cs]|] eqn:TC.
    + (* an empty list of tool calls: the final answer *)
      cbn [run_sessions run_outcome run_calls called finish List.length].
      split; [|split; [|split]].
      * eexists. split; [apply (findById_save _ _ sessionId db session); [exact Hf|exact Hid]|].
        split; [|intros _; split; reflexivity].
        unfold setTranscript. destruct (truthy (am_content msg)).
        -- apply continues_update. repeat constructor.
        -- apply continues_transcript.
      * intros j Hj. apply findById_save_other. cbn. congruence.
      * constructor; [exact Hfirst|constructor].
      * lia.
    + (* tool calls *)
      set (session1 := setAgentStatus EXECUTING session).
      set (db1 := save s_id session1 db).
      assert (Hf1 : findById s_id sessionId db1 = Some session1).
      { apply (findById_save _ _ sessionId db session); [exact Hf|exact Hid]. }
      destruct (openAIToolCalls (getToolsForAgent user) user (c :: cs)
                  (s_messages session1)) as [transcript|] eqn:TR.
      2:{ cbn [run_sessions run_outcome run_calls called finish List.length].
      split; [|split; [|split]].
          * exists session1. split; [exact Hf1|].
            split; [apply continues_status|discriminate].
          * intros j Hj. apply findById_save_other. cbn. congruence.
          * constructor; [exact Hfirst|constructor].
          * lia. }
      apply openAIToolCalls_appends in TR. destruct TR as [extra [Etr Fextra]].
      set (session2 := setTranscript (s_agentStatus session1) transcript session1).
      set (db2 := save s_id session2 db1).
      assert (Hf2 : findById s_id sessionId db2 = Some session2).
      { apply (findById_save _ _ sessionId db1 session1); [exact Hf1|exact Hid]. }
      assert (C2 : continues session session2).
      { apply continues_trans with session1; [apply continues_status|].
        unfold session2, setTranscript. rewrite Etr.
        apply continues_update. exact Fextra. }
      destruct (IH db2 session2 Hf2) as [[final [Hff [Hc Hs]]] [Hframe [Hcalls Hlen]]].
      cbn [called run_outcome run_sessions run_calls].
      split; [|split; [|split]].
      * exists final. split; [exact Hff|]. split; [|exact Hs].
        now apply continues_trans with session2.
      * intros j Hj. rewrite (Hframe j Hj). unfold db2, db1.
        rewrite !findById_save_other; [reflexivity | cbn; congruence | cbn; congruence].
      * constructor; [exact Hfirst|].
        eapply Forall_impl; [|exact Hcalls].
        intros call [s [Cs Es]]. exists s. split; [|exact Es].
        now apply continues_trans with session2.
      * cbn [List.length]. lia.
    + (* no tool calls: the final answer *)
      cbn [run_sessions run_outcome run_calls called finish List.length].
      split; [|split; [|split]].
      * eexists. split; [apply (findById_save _ _ sessionId db session); [exact Hf|exact Hid]|].
        split; [|intros _; split; reflexivity].
        unfold setTranscript. destruct (truthy (am_content msg)).
        -- apply continues_update. repeat constructor.
        -- apply continues_transcript.
      * intros j Hj. apply findById_save_other. cbn. congruence.
      * constructor; [exact Hfirst|constructor].
      * lia.
Qed.

Lemma gemini_run_invariant (config : AiConfig) (user : AuthenticatedUser)
    (sessionId : ObjectId) (script : list (option GeminiResponse)) :
  forall (db : list IAgentSession) (session : IAgentSession),
  findById s_id sessionId db = Some session ->
  (exists final,
      findById s_id sessionId
        (run_sessions (AgentsService_executeWithGemini config script sessionId user db))
      = Some final /\
      continues session final /\
      (run_outcome (AgentsService_executeWithGemini config script sessionId user db)
       = Returned -> settled final)) /\
  (forall j, j <> sessionId ->
      findById s_id j
        (run_sessions (AgentsService_executeWithGemini config script sessionId user db))
      = findById s_id j db) /\
  Forall (fun call => exists s, continues session s /\ call = geminiCall s)
         (run_calls (AgentsService_executeWithGemini config script sessionId user db)) /\
  List.length
    (run_calls (AgentsService_executeWithGemini config script sessionId user db))
  <= S (List.length script).
Proof.
  induction script as [|reply script' IH]; intros db session Hf;
    pose proof (findById_id _ _ _ _ _ Hf) as Hid.
  - cbn [AgentsService_executeWithGemini]. rewrite Hf.
    destruct (hasInstance config "google"); cbn [negb].
    + cbn [run_sessions run_outcome run_calls called finish List.length].
      split; [|split; [|split]].
      * exists session. split; [exact Hf|]. split; [apply continues_refl|discriminate].
      * reflexivity.
      * constructor; [|constructor]. exists session. split; [apply continues_refl|reflexivity].
      * lia.
    + destruct (@stub_run GeminiCall sessionId db session Hf)
        as [final [E [Hff [Hfi [Hc [Hs _]]]]]].
      rewrite E. cbn [run_sessions run_outcome run_calls called finish List.length].
      split; [|split; [|split]].
      * exists final. split; [exact Hff|]. split; [exact Hc|]. intros _; exact Hs.
      * intros j Hj. apply findById_save_other. congruence.
      * constructor.
      * lia.
  - cbn [AgentsService_executeWithGemini]. rewrite Hf.
    destruct (hasInstance config "google"); cbn [negb].
    2:{ destruct (@stub_run GeminiCall sessionId db session Hf)
          as [final [E [Hff [Hfi [Hc [Hs _]]]]]].
        rewrite E. cbn [run_sessions run_outcome run_calls called finish List.length].
      split; [|split; [|split]].
        * exists final. split; [exact Hff|]. split; [exact Hc|]. intros _; exact Hs.
        * intros j Hj. apply findById_save_other. congruence.
        * constructor.
        * lia. }
    assert (Hfirst : exists s, continues session s /\ geminiCall session = geminiCall s).
    { exists session. split; [apply continues_refl | reflexivity]. }
    destruct reply as [msg|].
    2:{ cbn [run_sessions run_outcome run_calls called finish List.length].
      split; [|split; [|split]].
        * exists session. split; [exact Hf|]. split; [apply continues_refl|discriminate].
        * reflexivity.
        * constructor; [exact Hfirst|constructor].
        * lia. }
    destruct (g_functionCalls msg) as [[|c cs]|] eqn:TC.
    + (* an empty list of tool calls: the final answer *)
      cbn [run_sessions run_outcome run_calls called finish List.length].
      split; [|split; [|split]].
      * eexists. split; [apply (findById_save _ _ sessionId db session); [exact Hf|exact Hid]|].
        split; [|intros _; split; reflexivity].
        unfold setTranscript. destruct (negb (String.eqb (g_text msg) "")).
        -- apply continues_update. repeat constructor.
        -- apply continues_transcript.
      * intros j Hj. apply findById_save_other. cbn. congruence.
      * constructor; [exact Hfirst|constructor].
      * lia.
    + (* tool calls *)
      set (session1 := setAgentStatus EXECUTING session).
      set (db1 := save s_id session1 db).
      assert (Hf1 : findById s_id sessionId db1 = Some session1).
      { apply (findById_save _ _ sessionId db session); [exact Hf|exact Hid]. }
      set (transcript := geminiToolCalls (getToolsForAgent user) user (c :: cs)
                           (s_messages session1)).
      assert (Etr : transcript
                    = s_messages session1
                      ++ geminiEntries (getToolsForAgent user) user (c :: cs))
        by apply geminiToolCalls_entries.
      pose proof (geminiEntries_assistant (getToolsForAgent user) user (c :: cs))
        as Fextra.
      set (session2 := setTranscript (s_agentStatus session1) transcript session1).
      set (db2 := save s_id session2 db1).
      assert (Hf2 : findById s_id sessionId db2 = Some session2).
      { apply (findById_save _ _ sessionId db1 session1); [exact Hf1|exact Hid]. }
      assert (C2 : continues session session2).
      { apply continues_trans with session1; [apply continues_status|].
        unfold session2, setTranscript. rewrite Etr.
        apply continues_update. exact Fextra. }
      destruct (IH db2 session2 Hf2) as [[final [Hff [Hc Hs]]] [Hframe [Hcalls Hlen]]].
      cbn [called run_outcome run_sessions run_calls].
      split; [|split; [|split]].
      * exists final. split; [exact Hff|]. split; [|exact Hs].
        now apply continues_trans with session2.
      * intros j Hj. rewrite (Hframe j Hj). unfold db2, db1.
        rewrite !findById_save_other; [reflexivity | cbn; congruence | cbn; congruence].
      * constructor; [exact Hfirst|].
        eapply Forall_impl; [|exact Hcalls].
        intros call [s [Cs Es]]. exists s. split; [|exact Es].
        now apply continues_trans with session2.
      * cbn [List.length]. lia.
    + (* no tool calls: the final answer *)
      cbn [run_sessions run_outcome run_calls called finish List.length].
      split; [|split; [|split]].
      * eexists. split; [apply (findById_save _ _ sessionId db session); [exact Hf|exact Hid]|].
        split; [|intros _; split; reflexivity].
        unfold setTranscript. destruct (negb (String.eqb (g_text msg) "")).
        -- apply continues_update. repeat constructor.
        -- apply continues_transcript.
      * intros j Hj. apply findById_save_other. cbn. congruence.
      * constructor; [exact Hfirst|constructor].
      * lia.
Qed.

Lemma findById_recordError (i j : ObjectId) (db : list IAgentSession) :
  findById s_id j (recordError i db)
  = option_map (fun s => if oid_eqb (s_id s) i then setAgentStatus IDLE s else s)
               (findById s_id j db).
Proof.
  unfold recordError. apply (findById_map_id s_id).
  intro x. now destruct (oid_eqb (s_id x) i).
Qed.

Lemma recordError_same (i : ObjectId) (db : list IAgentSession)
    (s : IAgentSession) :
  findById s_id i db = Some s ->
  findById s_id i (recordError i db) = Some (setAgentStatus IDLE s).
Proof.
  intro H. rewrite findById_recordError, H. cbn [option_map].
  rewrite (findById_id _ _ _ _ _ H). now rewrite oid_eqb_refl.
Qed.

Lemma recordError_other (i j : ObjectId) (db : list IAgentSession) :
  j <> i -> findById s_id j (recordError i db) = findById s_id j db.
Proof.
  intro Hne. rewrite findById_recordError.
  destruct (findById s_id j db) as [s|] eqn:F; [|reflexivity]. cbn [option_map].
  rewrite (findById_id _ _ _ _ _ F).
  destruct (oid_eqb j i) eqn:E; [apply oid_eqb_eq in E; contradiction|reflexivity].
Qed.

(** X25. A run of the agent only ever appends to the transcript.  Whatever
    the provider answers, for however many rounds, the session is still
    stored under its id afterwards, belongs to the same user and agency,
    and its transcript is the old one followed by assistant entries; when
    the run returns, the agent is idle and [messageCount] is the length of
    the transcript; the provider is called at most once more than it
    answered; and no other session is touched. *)
Theorem agent_run_extends_transcript (config : AiConfig)
    (user : AuthenticatedUser) (sessionId : ObjectId)
    (db : list IAgentSession) (session : IAgentSession)
    (Hfound : findById s_id sessionId db = Some session) :
  (forall script,
      let run := AgentsService_executeWithOpenAI config script sessionId user db in
      (exists final,
          findById s_id sessionId (run_sessions run) = Some final /\
          continues session final /\
          (run_outcome run = Returned -> settled final)) /\
      (forall j, j <> sessionId ->
          findById s_id j (run_sessions run) = findById s_id j db) /\
      List.length (run_calls run) <= S (List.length script)) /\
  (forall script,
      let run := AgentsService_executeWithGemini config script sessionId user db in
      (exists final,
          findById s_id sessionId (run_sessions run) = Some final /\
          continues session final /\
          (run_outcome run = Returned -> settled final)) /\
      (forall j, j <> sessionId ->
          findById s_id j (run_sessions run) = findById s_id j db) /\
      List.length (run_calls run) <= S (List.length script)).
Proof.
  split; intros script run; subst run.
  - destruct (openAI_run_invariant config user sessionId script db session Hfound)
      as [H1 [H2 [_ H4]]].
    split; [exact H1|]. split; [exact H2 | exact H4].
  - destruct (gemini_run_invariant config user sessionId script db session Hfound)
      as [H1 [H2 [_ H4]]].
    split; [exact H1|]. split; [exact H2 | exact H4].
Qed.

(** X26. What the provider is sent.  Every OpenAI call of a run starts with
    the system prompt of the session's agent type, followed by the stored
    transcript and the assistant entries added so far.  Every Gemini call
    of a run sends the original goal of the session as its message (or
    "Continue a conversa" when there is none), never a later chat message,
    with the same system prompt. *)
Theorem provider_calls_of_a_run (config : AiConfig)
    (user : AuthenticatedUser) (sessionId : ObjectId)
    (db : list IAgentSession) (session : IAgentSession)
    (Hfound : findById s_id sessionId db = Some session) :
  (forall script,
      Forall (fun call =>
                exists extra,
                  Forall (fun m => m_role m = "assistant") extra /\
                  call = ("system", getSystemPrompt (s_agentType session))
                         :: map (fun msg => (m_role msg, m_content msg))
                                (s_messages session ++ extra))
        (run_calls (AgentsService_executeWithOpenAI config script sessionId
                      user db))) /\
  (forall script,
      Forall (fun call =>
                gc_message call
                = orElse (s_originalGoal session) "Continue a conversa" /\
                gc_system call = getSystemPrompt (s_agentType session))
        (run_calls (AgentsService_executeWithGemini config script sessionId
                      user db))).
Proof.
  split; intro script.
  - destruct (openAI_run_invariant config user sessionId script db session Hfound)
      as [_ [_ [H3 _]]].
    eapply Forall_impl; [|exact H3].
    intros call [s [[_ [_ [_ [Ht [_ [extra [Em Fe]]]]]]] Ec]].
    exists extra. split; [exact Fe|].
    subst call. unfold openAIPrompt. now rewrite Ht, Em.
  - destruct (gemini_run_invariant config user sessionId script db session Hfound)
      as [_ [_ [H3 _]]].
    eapply Forall_impl; [|exact H3].
    intros call [s [[_ [_ [_ [Ht [Ho _]]]]] Ec]].
    subst call. unfold geminiCall. cbn [gc_message gc_system].
    now rewrite Ht, Ho.
Qed.

(** X27. [executeAsync] absorbs every failure of a run on an existing
    session: it never throws, the session stays stored with a transcript
    that only grew, and whenever it returns the agent is idle; when the
    run with the configured provider threw, [executeAsync] still returns
    and the agent is idle (the error message itself is not stored: the
    session schema has no path for it).  With no API key the run is the
    demonstration mode: no provider call, one canned assistant entry,
    session completed. *)
Theorem async_run_ends_idle (config : AiConfig)
    (openaiScript : list (option AssistantMessage))
    (geminiScript : list (option GeminiResponse))
    (sessionId : string) (i : ObjectId) (user : AuthenticatedUser)
    (db : list IAgentSession) (session : IAgentSession)
    (Hid : newObjectId sessionId = Some i)
    (Hfound : findById s_id i db = Some session) :
  let run := AgentsService_executeAsync config openaiScript geminiScript
               sessionId user db in
  let thinking := save s_id (setAgentStatus THINKING session) db in
  let inner :=
    if String.eqb (cfg_provider config) "google"
    then run_outcome (AgentsService_executeWithGemini config geminiScript i
                        user thinking)
    else run_outcome (AgentsService_executeWithOpenAI config openaiScript i
                        user thinking) in
  as_outcome run <> Threw /\
  (exists final,
      findById s_id i (as_sessions run) = Some final /\
      continues session final /\
      (as_outcome run = Returned -> s_agentStatus final = IDLE) /\
      (cfg_enabled config = true -> inner = Threw ->
         as_outcome run = Returned /\ s_agentStatus final = IDLE) /\
      (cfg_enabled config = false ->
         as_outcome run = Returned /\ as_openai run = [] /\ as_gemini run = [] /\
         s_status final = S_COMPLETED /\
         s_messages final
         = s_messages session
           ++ [assistantMessage
                 (stubResponse (orElse (s_originalGoal session)
                                  "Objetivo não especificado"))])) /\
  (forall j, j <> i -> findById s_id j (as_sessions run) = findById s_id j db).
Proof.
  intros run thinking inner. subst run thinking inner.
  unfold AgentsService_executeAsync. rewrite Hid, Hfound.
  pose proof (findById_id _ _ _ _ _ Hfound) as Hi.
  set (session1 := setAgentStatus THINKING session).
  set (db1 := save s_id session1 db).
  assert (Hf1 : findById s_id i db1 = Some session1).
  { apply (findById_save _ _ i db session); [exact Hfound | exact Hi]. }
  assert (C1 : continues session session1) by apply continues_status.
  assert (Hframe1 : forall j, j <> i -> findById s_id j db1 = findById s_id j db).
  { intros j Hj. apply findById_save_other. cbn. congruence. }
  destruct (cfg_enabled config) eqn:En; cbn [negb].
  - assert (Hgen : forall {Call} (r : AgentRun Call),
              (exists final, findById s_id i (run_sessions r) = Some final /\
                  continues session1 final /\
                  (run_outcome r = Returned -> settled final)) ->
              (forall j, j <> i ->
                  findById s_id j (run_sessions r) = findById s_id j db1) ->
              let o := match run_outcome r with Threw => Returned | o => o end in
              let ss := match run_outcome r with
                        | Threw => recordError i (run_sessions r)
                        | _ => run_sessions r
                        end in
              o <> Threw /\
              (exists final, findById s_id i ss = Some final /\
                  continues session final /\
                  (o = Returned -> s_agentStatus final = IDLE) /\
                  (run_outcome r = Threw ->
                     o = Returned /\ s_agentStatus final = IDLE)) /\
              (forall j, j <> i -> findById s_id j ss = findById s_id j db)).
    { intros Call r [final [Hff [Hc Hs]]] Hfr o ss. subst o ss.
      destruct (run_outcome r) eqn:O.
      - split; [discriminate|]. split.
        + exists final. split; [exact Hff|].
          split; [now apply continues_trans with session1|].
          split; [|discriminate].
          intros _. now destruct (Hs eq_refl).
        + intros j Hj. rewrite (Hfr j Hj). now apply Hframe1.
      - split; [discriminate|]. split.
        + eexists. split; [apply recordError_same; exact Hff|].
          split; [|split; [reflexivity | intros _; split; reflexivity]].
          apply continues_trans with session1; [exact C1|].
          apply continues_trans with final; [exact Hc | apply continues_status].
        + intros j Hj. rewrite (recordError_other i j _ Hj), (Hfr j Hj).
          now apply Hframe1.
      - split; [discriminate|]. split.
        + exists final. split; [exact Hff|].
          split; [now apply continues_trans with session1|].
          split; discriminate.
        + intros j Hj. rewrite (Hfr j Hj). now apply Hframe1. }
    destruct (String.eqb (cfg_provider config) "google").
    + destruct (gemini_run_invariant config user i geminiScript db1 session1 Hf1)
        as [H1 [H2 _]].
      destruct (Hgen _ _ H1 H2) as [G1 [[final [G2 [G3 [G4 G6]]]] G5]].
      destruct (run_outcome (AgentsService_executeWithGemini config geminiScript
                               i user db1));
        cbn [as_outcome as_sessions as_openai as_gemini] in *;
        (split; [exact G1|]; split; [|exact G5]; exists final;
         split; [exact G2|]; split; [exact G3|]; split; [exact G4|];
         split; [intros _; exact G6 | discriminate]).
    + destruct (openAI_run_invariant config user i openaiScript db1 session1 Hf1)
        as [H1 [H2 _]].
      destruct (Hgen _ _ H1 H2) as [G1 [[final [G2 [G3 [G4 G6]]]] G5]].
      destruct (run_outcome (AgentsService_executeWithOpenAI config openaiScript
                               i user db1));
        cbn [as_outcome as_sessions as_openai as_gemini] in *;
        (split; [exact G1|]; split; [|exact G5]; exists final;
         split; [exact G2|]; split; [exact G3|]; split; [exact G4|];
         split; [intros _; exact G6 | discriminate]).
  - destruct (@stub_run unit i db1 session1 Hf1)
      as [final [E [Hff [Hfi [Hc [[Hs _] [Hst Hm]]]]]]].
    rewrite E. cbn [as_outcome as_sessions as_openai as_gemini run_sessions].
    split; [discriminate|]. split.
    + exists final. split; [exact Hff|].
      split; [now apply continues_trans with session1|].
      split; [intros _; exact Hs|]. split; [discriminate|]. intros _.
      repeat (split; [reflexivity|]). split; [exact Hst | exact Hm].
    + intros j Hj. rewrite findById_save_other by congruence. now apply Hframe1.
Qed.

(** X28. Anyone of the session's agency can continue a session, whatever
    their role and whatever the status of the session: [chat] appends the
    message as one user entry, sets the agent to thinking, keeps
    [messageCount] equal to the transcript length, leaves the session
    status and its owner as they were and schedules the run.  A caller who
    is neither the session's user nor of its agency is refused as
    Forbidden, an admin too, and nothing is stored. *)
Theorem colleague_can_continue_session (sessionId message : string)
    (i : ObjectId) (user : AuthenticatedUser) (db : list IAgentSession)
    (session : IAgentSession)
    (Hvalid : isValid sessionId = true)
    (Hid : newObjectId sessionId = Some i)
    (Hfound : findById s_id i db = Some session)
    (Hcolleague : agencyId user = Some (s_agencyId session))
    (Hmessage : message <> "") :
  (exists session',
      AgentsService_chat sessionId message user db
      = {| st_result := Ok session'; st_sessions := save s_id session' db;
           st_background := true |} /\
      findById s_id i (save s_id session' db) = Some session' /\
      s_messages session' = s_messages session ++ [userMessage message] /\
      s_messageCount session' = List.length (s_messages session') /\
      s_agentStatus session' = THINKING /\
      s_status session' = s_status session /\
      s_userId session' = s_userId session) /\
  (forall stranger,
      userId stranger <> s_userId session ->
      agencyId stranger <> Some (s_agencyId session) ->
      AgentsService_chat sessionId message stranger db
      = {| st_result := Throw ForbiddenException; st_sessions := db;
           st_background := false |}).
Proof.
  pose proof (findById_id _ _ _ _ _ Hfound) as Hi.
  split.
  - unfold AgentsService_chat, AgentsService_findSession. rewrite Hvalid.
    cbn [negb]. rewrite (findByIdString_found s_id _ _ _ _ Hid Hfound).
    cbn [bind]. rewrite Hcolleague. cbn [sameString].
    rewrite String.eqb_refl, andb_false_r.
    assert (Hr : required message = true).
    { unfold required. apply negb_true_iff. now apply String.eqb_neq. }
    rewrite Hr. eexists. split; [reflexivity|].
    split; [apply (findById_save _ _ i db session); [exact Hfound | exact Hi]|].
    repeat split.
  - intros stranger Hu Ha.
    unfold AgentsService_chat, AgentsService_findSession. rewrite Hvalid.
    cbn [negb]. rewrite (findByIdString_found s_id _ _ _ _ Hid Hfound).
    cbn [bind].
    assert (E1 : String.eqb (s_userId session) (userId stranger) = false).
    { apply String.eqb_neq. congruence. }
    assert (E2 : sameString (s_agencyId session) (agencyId stranger) = false).
    { destruct (agencyId stranger) as [a|]; [|reflexivity].
      cbn [sameString]. apply String.eqb_neq. congruence. }
    now rewrite E1, E2.
Qed.

(** X29. A goal started with no API key configured ends in demonstration
    mode: [executeGoal] stores the session and schedules the run, and the
    run calls no provider and leaves the session completed and idle, owned
    by the caller, with exactly two messages: the goal and the canned reply
    built from the goal. *)
Theorem goal_without_key_completes (freshId : ObjectId) (dto : ExecuteGoalDto)
    (user : AuthenticatedUser) (db : list IAgentSession)
    (config : AiConfig) (openaiScript : list (option AssistantMessage))
    (geminiScript : list (option GeminiResponse)) (session : IAgentSession)
    (Hstart : st_result (AgentsService_executeGoal freshId dto user db)
              = Ok session)
    (Hfresh : findById s_id freshId db = None)
    (Hcast : newObjectId (toString freshId) = Some freshId)
    (Hoff : cfg_enabled config = false) :
  let started := AgentsService_executeGoal freshId dto user db in
  let run := AgentsService_executeAsync config openaiScript geminiScript
               (toString (s_id session)) user (st_sessions started) in
  st_background started = true /\
  as_outcome run = Returned /\ as_openai run = [] /\ as_gemini run = [] /\
  exists final,
    findById s_id freshId (as_sessions run) = Some final /\
    s_messages final
    = [userMessage (eg_goal dto); assistantMessage (stubResponse (eg_goal dto))] /\
    s_messageCount final = 2 /\
    s_status final = S_COMPLETED /\ s_agentStatus final = IDLE /\
    s_userId final = userId user /\ agencyId user = Some (s_agencyId final).
Proof.
  intros started run. subst started run. revert Hstart.
  unfold AgentsService_executeGoal.
  destruct (agencyId user) as [agency|] eqn:A; [|discriminate].
  destruct (String.eqb agency ""); [discriminate|].
  destruct (required (userId user) && required (eg_agentType dto)
            && required (eg_goal dto)) eqn:Rq; [|discriminate].
  cbn [st_result st_sessions st_background].
  intro H. inversion H. subst session. clear H. cbn [s_id].
  apply andb_prop in Rq. destruct Rq as [_ Rg]. unfold required in Rg.
  apply negb_true_iff in Rg. apply String.eqb_neq in Rg.
  set (session := {| s_id := freshId; s_userId := userId user;
                     s_agencyId := agency; s_agentType := eg_agentType dto;
                     s_status := S_ACTIVE; s_agentStatus := IDLE;
                     s_originalGoal := Some (eg_goal dto);
                     s_messages := [userMessage (eg_goal dto)];
                     s_messageCount := 1 |}).
  assert (Hf : findById s_id freshId (db ++ [session]) = Some session)
    by now apply findById_app_fresh.
  unfold AgentsService_executeAsync. rewrite Hcast, Hf, Hoff. cbn [negb].
  set (session1 := setAgentStatus THINKING session).
  assert (Hf1 : findById s_id freshId (save s_id session1 (db ++ [session]))
                = Some session1).
  { now apply (findById_save _ _ freshId _ session). }
  destruct (@stub_run unit freshId _ session1 Hf1)
    as [final [E [Hff [Hfi [Hc [[Hs Hn] [Hst Hm]]]]]]].
  rewrite E. cbn [as_outcome as_sessions as_openai as_gemini run_sessions].
  repeat (split; [reflexivity|]).
  exists final. split; [exact Hff|].
  destruct Hc as [_ [Hu [Hg _]]].
  cbn [session1 setAgentStatus updateSession s_messages s_originalGoal session
       s_userId s_agencyId] in Hm, Hu, Hg.
  rewrite (orElse_nonempty _ _ Rg) in Hm.
  split; [exact Hm|]. split; [rewrite Hn, Hm; reflexivity|].
  split; [exact Hst|]. split; [exact Hs|]. split; [exact Hu|].
  now rewrite Hg.
Qed.

(** X30. Membership shows in [findByUser]: after a successful [addMember]
    the added user finds the agency among their agencies, and so does the
    owner. *)
Theorem added_member_finds_agency (agency targetId : string)
    (user : AuthenticatedUser) (st st1 : Tenancy) (a1 : IAgency)
    (Hadd : AgenciesService_addMember agency targetId user st = (Ok a1, st1)) :
  forall who owner,
    newObjectId (userId who) = Some owner ->
    userId who = targetId \/ owner = a_owner a1 ->
    exists found,
      AgenciesService_findByUser who st1 = Ok found /\ In a1 found.
Proof.
  apply addMember_inv in Hadd.
  destruct Hadd as [i [found [member [target
    [Va [Vt [Hi [Hf [G [Hm [Hu [M [Ha Hst]]]]]]]]]]]]].
  intros who owner Ho Hwho.
  assert (Hid1 : a_id a1 = i).
  { subst a1. destruct found; cbn. now apply findById_id in Hf. }
  assert (Hin : In a1 (agencies st1)).
  { assert (Hf1 : findById a_id i (agencies st1) = Some a1).
    { subst st1. cbn [agencies]. now apply (findById_save _ _ i _ found). }
    unfold findById in Hf1. now apply find_some in Hf1. }
  unfold AgenciesService_findByUser. rewrite Ho. cbn [orThrow bind].
  eexists. split; [reflexivity|]. apply filter_In. split; [exact Hin|].
  destruct Hwho as [Hw|Hw].
  - apply orb_true_iff. right. rewrite Hw in Ho.
    assert (owner = member) by congruence. subst owner a1.
    destruct found; cbn [a_members setMembers]. rewrite existsb_app.
    cbn [existsb]. now rewrite oid_eqb_refl, orb_true_r.
  - apply orb_true_iff. left. subst owner. apply oid_eqb_refl.
Qed.

End MoreVerification.

(** ** The further theorems at concrete inputs *)

Lemma permissions_grow_with_role_witness :
  roleRank (role viewerVera) <= roleRank (role managerCarol) /\
  rbacPermissionMiddleware "contacts:read" (Some viewerVera) = Ok tt /\
  rbacPermissionMiddleware "contacts:read" (Some managerCarol) = Ok tt.
Proof.
  split; [cbn; lia|]. split; [reflexivity|].
  apply (permissions_grow_with_role "contacts:read" viewerVera managerCarol);
    [cbn; lia | reflexivity].
Defined.

Lemma login_token_identifies_user_witness :
  @AuthService_login plainCrypto plainVerifier
    {| l_email := "carol@x.com"; l_password := "secret" |} [carolUser]
  = Ok (@authResponse plainCrypto carolUser) /\
  (forall user, In user [carolUser] ->
     @jwtVerify plainVerifier (@AuthService_generateToken plainCrypto user)
     = Some {| jwt_sub := toString (u_id user); jwt_email := u_email user;
               jwt_role := u_role user; jwt_agencyId := u_agencyId user |}) /\
  isPublicRoute "/contacts" = false /\
  exists req,
    @jwtAuthMiddleware plainVerifier
      {| req_path := "/contacts";
         req_authorization := Some ("Bearer token:" ++ carolId)%string;
         req_user := None |} = Ok req /\
    option_map role (req_user req) = Some MANAGER.
Proof.
  assert (Hv : forall user, In user [carolUser] ->
     @jwtVerify plainVerifier (@AuthService_generateToken plainCrypto user)
     = Some {| jwt_sub := toString (u_id user); jwt_email := u_email user;
               jwt_role := u_role user; jwt_agencyId := u_agencyId user |}).
  { intros user [<-|[]]. reflexivity. }
  split; [reflexivity|]. split; [exact Hv|]. split; [reflexivity|].
  eexists. split.
  - exact (@login_token_identifies_user plainCrypto plainVerifier
             {| l_email := "carol@x.com"; l_password := "secret" |} [carolUser]
             (@authResponse plainCrypto carolUser) "/contacts"
             eq_refl Hv eq_refl).
  - reflexivity.
Defined.

Lemma routes_refuse_agents_and_viewers_witness :
  (role agentAlice = AGENT \/ role agentAlice = VIEWER) /\
  contacts_delete (rt := hexRuntime) contactIdA agentAlice sampleContacts
  = (Throw ForbiddenException, sampleContacts) /\
  campaigns_execute (rt := hexRuntime) alwaysDelivers campaignId agentAlice
    [campaignPaced] sampleContacts
  = stopped ForbiddenException [campaignPaced].
Proof.
  split; [left; reflexivity|].
  destruct (@routes_refuse_agents_and_viewers hexRuntime asciiOps agentAlice
              (or_introl eq_refl)) as [_ [_ [_ [Hd [_ [_ [He _]]]]]]].
  split; [apply Hd | apply He].
Defined.

Lemma recommended_are_available_in_agency_witness :
  PropertiesService_findRecommended (rt := hexRuntime) anyPreferences agencyX 1
    sampleProperties = Ok [propertyNew] /\
  exists i, newObjectId (Runtime := hexRuntime) agencyX = Some i /\
    forall p, In p [propertyNew] ->
      In p sampleProperties /\ p_isActive p = true /\
      p_status p = "available" /\ p_agency p = i.
Proof.
  split; [reflexivity|].
  exact (proj2 (@recommended_are_available_in_agency hexRuntime anyPreferences
                  agencyX 1 sampleProperties [propertyNew] eq_refl)).
Defined.

Lemma contact_read_rule_witness :
  isValid (Runtime := hexRuntime) contactIdA = true /\
  findById c_id (oid contactIdA) sampleContacts = Some contactOfAlice /\
  ContactsService_findOne (rt := hexRuntime) contactIdA agentAlice sampleContacts
  = Ok contactOfAlice.
Proof.
  split; [reflexivity|]. split; [reflexivity|].
  exact (proj1 (@contact_read_rule hexRuntime contactIdA (oid contactIdA)
                  agentAlice sampleContacts contactOfAlice
                  eq_refl eq_refl eq_refl)).
Defined.


Lemma agent_hands_over_contact_witness :
  role agentAlice = AGENT /\
  c_assignedTo contactOfAlice = Some (oid (userId agentAlice)) /\
  exists contact',
    ContactsService_update (rt := hexRuntime) contactIdA (reassignTo bobId)
      agentAlice sampleContacts
    = (Ok contact', save c_id contact' sampleContacts) /\
    c_assignedTo contact' = Some (oid bobId) /\
    ContactsService_update (rt := hexRuntime) contactIdA noContactUpdate
      agentAlice (save c_id contact' sampleContacts)
    = (Throw ForbiddenException, save c_id contact' sampleContacts).
Proof.
  split; [reflexivity|]. split; [reflexivity|].
  destruct (@agent_hands_over_contact hexRuntime contactIdA (oid contactIdA)
              agentAlice sampleContacts contactOfAlice bobId (oid bobId))
    as [contact' [Hu [Ha Hf]]];
    try reflexivity; try discriminate.
  exists contact'. split; [exact Hu|]. split; [exact Ha | apply Hf].
Defined.

Lemma updates_touch_one_document_witness :
  c_id contactOfBob <> oid contactIdA /\
  findById c_id (c_id contactOfBob)
    (snd (ContactsService_remove (rt := hexRuntime) contactIdA managerCarol
            sampleContacts))
  = findById c_id (c_id contactOfBob) sampleContacts /\
  exists p',
    fst (PropertiesService_update (rt := hexRuntime) "fffffffffffffffffffffff1"
           moveToY managerCarol sampleProperties) = Ok p' /\
    p_agency propertyOld = oid agencyX /\ p_agency p' = oid agencyY.
Proof.
  assert (Hne : c_id contactOfBob <> oid contactIdA) by discriminate.
  split; [exact Hne|]. split.
  - destruct (@updates_touch_one_document hexRuntime contactIdA (oid contactIdA)
                (c_id contactOfBob) managerCarol eq_refl Hne)
      as [_ [_ [_ [H _]]]].
    apply H.
  - eexists. split; [reflexivity|]. split; [reflexivity|].
    assert (Hp : oid "fffffffffffffffffffffff2" <> oid "fffffffffffffffffffffff1")
      by discriminate.
    destruct (@updates_touch_one_document hexRuntime "fffffffffffffffffffffff1"
                (oid "fffffffffffffffffffffff1") (oid "fffffffffffffffffffffff2")
                managerCarol eq_refl Hp)
      as [_ [_ [_ [_ [_ [_ [H _]]]]]]].
    destruct (H moveToY sampleProperties _ eq_refl) as [p [_ [_ Ha]]].
    cbn [up_agency moveToY] in Ha.
    exact (f_equal (fun o => match o with
                             | Some a => a
                             | None => oid agencyY
                             end) (eq_sym Ha)).
Defined.

Lemma running_campaign_is_locked_witness :
  k_status campaignRunning = RUNNING /\
  role managerCarol = MANAGER /\
  CampaignsService_remove (rt := hexRuntime) campaignId managerCarol [campaignRunning]
  = (Throw BadRequestException, [campaignRunning]) /\
  CampaignsService_execute (rt := hexRuntime) alwaysDelivers campaignId
    managerCarol [campaignRunning] sampleContacts
  = stopped BadRequestException [campaignRunning].
Proof.
  split; [reflexivity|]. split; [reflexivity|].
  destruct (@running_campaign_is_locked hexRuntime alwaysDelivers campaignId
              (oid campaignId) managerCarol [campaignRunning] sampleContacts
              campaignRunning eq_refl eq_refl eq_refl eq_refl)
    as [_ [[e [Hr He]] [e' [Hx He']]]].
  split.
  - rewrite Hr. now rewrite (He eq_refl).
  - rewrite Hx. rewrite He'; [reflexivity|].
    right. exists (oid agencyX). split; reflexivity.
Defined.

Lemma update_to_running_blocks_campaign_witness :
  CampaignsService_mayModify managerCarol campaignPaced = Ok tt /\
  k_status campaignPaced <> RUNNING /\
  exists db',
    snd (CampaignsService_update (rt := hexRuntime) campaignId
           (setStatusTo RUNNING) managerCarol [campaignPaced]) = db' /\
    CampaignsService_remove (rt := hexRuntime) campaignId adminDan db'
    = (Throw BadRequestException, db') /\
    CampaignsService_execute (rt := hexRuntime) alwaysDelivers campaignId
      adminDan db' sampleContacts = stopped BadRequestException db'.
Proof.
  assert (Hs : k_status campaignPaced <> RUNNING) by discriminate.
  split; [reflexivity|]. split; [exact Hs|].
  destruct (@update_to_running_blocks_campaign hexRuntime alwaysDelivers
              campaignId (oid campaignId) managerCarol adminDan [campaignPaced]
              sampleContacts campaignPaced eq_refl eq_refl eq_refl eq_refl Hs
              eq_refl) as [db' [Hdb [_ [_ [Hr He]]]]].
  exists db'. split; [exact Hdb|]. split; [exact Hr | exact He].
Defined.

Lemma removed_documents_leave_listings_witness :
  exists db' docs docs',
    ContactsService_remove (rt := hexRuntime) contactIdA managerCarol sampleContacts
    = (Ok tt, db') /\
    ContactsService_findAll (rt := hexRuntime) managerCarol None sampleContacts
    = Ok docs /\
    ContactsService_findAll (rt := hexRuntime) managerCarol None db' = Ok docs' /\
    In contactOfAlice docs /\
    forall c, In c docs' <-> In c docs /\ c_id c <> oid contactIdA.
Proof.
  eexists. eexists. eexists.
  split; [reflexivity|]. split; [reflexivity|]. split; [reflexivity|].
  split; [vm_compute; auto 10|].
  destruct (@removed_documents_leave_listings hexRuntime contactIdA
              (oid contactIdA) eq_refl) as [_ [H _]].
  exact (H managerCarol managerCarol None sampleContacts _ _ _
           eq_refl eq_refl eq_refl).
Defined.

Lemma removed_documents_remain_readable_witness :
  exists db',
    ContactsService_remove (rt := hexRuntime) contactIdA managerCarol sampleContacts
    = (Ok tt, db') /\
    ContactsService_findOne (rt := hexRuntime) contactIdA managerCarol db'
    = Ok (deactivateContact contactOfAlice).
Proof.
  eexists. split; [reflexivity|].
  destruct (@removed_documents_remain_readable hexRuntime contactIdA
              (oid contactIdA) eq_refl) as [H _].
  exact (H managerCarol managerCarol sampleContacts _ eq_refl).
Defined.


Lemma duplicate_cnpj_conflicts_witness :
  exists agency st',
    AgenciesService_create (rt := hexRuntime) (oid "aaaaaaaaaaaaaaaaaaaaaaa9")
      agencyRequest managerCarol tenancyX = (Ok agency, st') /\
    AgenciesService_create (rt := hexRuntime) (oid "aaaaaaaaaaaaaaaaaaaaaaa8")
      agencyRequest agentAlice st' = (Throw ConflictException, st').
Proof.
  eexists. eexists. split; [reflexivity|].
  exact (@duplicate_cnpj_conflicts hexRuntime (oid "aaaaaaaaaaaaaaaaaaaaaaa9")
           agencyRequest managerCarol tenancyX _ _ eq_refl
           (oid "aaaaaaaaaaaaaaaaaaaaaaa8") agencyRequest agentAlice eq_refl).
Defined.

Lemma create_binds_creator_witness :
  exists agency st',
    AgenciesService_create (rt := hexRuntime) (oid "aaaaaaaaaaaaaaaaaaaaaaa9")
      agencyRequest managerCarol tenancyX = (Ok agency, st') /\
    newObjectId (Runtime := hexRuntime) (userId managerCarol)
    = Some (a_owner agency) /\
    a_members agency = [] /\
    agencies st' = agencies tenancyX ++ [agency] /\
    In (mkUser carolId "carol@x.com" MANAGER (Some "aaaaaaaaaaaaaaaaaaaaaaa9"))
       (users st').
Proof.
  eexists. eexists. split; [reflexivity|].
  destruct (@create_binds_creator hexRuntime (oid "aaaaaaaaaaaaaaaaaaaaaaa9")
              agencyRequest managerCarol tenancyX _ _ eq_refl)
    as [Ho [_ [Hm [Ha _]]]].
  split; [exact Ho|]. split; [exact Hm|]. split; [exact Ha|].
  cbn. tauto.
Defined.

Lemma member_added_then_removed_witness :
  (exists a1 st1,
    AgenciesService_addMember (rt := hexRuntime) agencyX carolId agentAlice tenancyX
    = (Ok a1, st1) /\
    In (oid carolId) (a_members a1) /\
    exists a0 st2,
      findById a_id (oid agencyX) (agencies tenancyX) = Some a0 /\
      AgenciesService_removeMember (rt := hexRuntime) agencyX carolId agentAlice st1
      = (Ok a0, st2) /\
      findById a_id (oid agencyX) (agencies st2) = Some a0) /\
  (exists a1 st1,
    AgenciesService_addMember (rt := hexRuntime) agencyX carolIdUpper agentAlice
      tenancyX = (Ok a1, st1) /\
    In (oid carolId) (a_members a1) /\
    exists st2,
      AgenciesService_removeMember (rt := hexRuntime) agencyX carolIdUpper
        agentAlice st1 = (Ok a1, st2) /\
      findById a_id (oid agencyX) (agencies st2) = Some a1).
Proof.
  split.
  - eexists. eexists. split; [reflexivity|]. split; [vm_compute; auto 10|].
    destruct (@member_added_then_removed hexRuntime agencyX carolId agentAlice
                tenancyX _ _ (oid carolId) eq_refl eq_refl)
      as [i [a0 [Hi [Hf [_ [Hsame _]]]]]]; [discriminate|].
    destruct (Hsame eq_refl) as [st2 [Hr Hf2]].
    injection Hi as <-. exists a0, st2. auto.
  - eexists. eexists. split; [reflexivity|]. split; [vm_compute; auto 10|].
    destruct (@member_added_then_removed hexRuntime agencyX carolIdUpper
                agentAlice tenancyX _ _ (oid carolId) eq_refl eq_refl)
      as [i [a0 [Hi [_ [_ [_ Hother]]]]]]; [discriminate|].
    destruct Hother as [st2 [Hr Hf2]]; [discriminate|].
    injection Hi as <-. exists st2. auto.
Defined.

Lemma member_is_added_once_witness :
  (exists a1 st1,
    AgenciesService_addMember (rt := hexRuntime) agencyX carolId agentAlice tenancyX
    = (Ok a1, st1) /\
    AgenciesService_addMember (rt := hexRuntime) agencyX carolId agentAlice st1
    = (Throw ConflictException, st1)) /\
  (exists a1 st1 a2 st2,
    AgenciesService_addMember (rt := hexRuntime) agencyX carolIdUpper agentAlice
      tenancyX = (Ok a1, st1) /\
    AgenciesService_addMember (rt := hexRuntime) agencyX carolIdUpper agentAlice
      st1 = (Ok a2, st2) /\
    a_members a2 = a_members a1 ++ [oid carolId] /\
    In (oid carolId) (a_members a1)).
Proof.
  split.
  - eexists. eexists. split; [reflexivity|].
    exact (proj1 (@member_is_added_once hexRuntime agencyX carolId agentAlice
                    tenancyX _ _ (oid carolId) eq_refl eq_refl) eq_refl).
  - eexists. eexists.
    destruct (proj2 (@member_is_added_once hexRuntime agencyX carolIdUpper
                       agentAlice tenancyX _ _ (oid carolId) eq_refl eq_refl))
      as [a2 [st2 [H2 [Hm Hin]]]]; [discriminate|].
    exists a2, st2. split; [reflexivity|]. auto.
Defined.

Lemma remove_member_unbinds_any_user_witness :
  In (mkUser erinId "erin@y.com" AGENT (Some agencyY)) (users tenancyXY) /\
  exists a' st',
    AgenciesService_removeMember (rt := hexRuntime) agencyX erinId agentAlice
      tenancyXY = (Ok a', st') /\
    a_members a' = [oid bobId] /\
    exists uid,
      newObjectId (Runtime := hexRuntime) erinId = Some uid /\
      users st' = map (fun u => if oid_eqb (u_id u) uid
                                then setAgencyId None u else u)
                      (users tenancyXY) /\
      (forall u, In u (users st') -> u_id u = uid -> u_agencyId u = None) /\
      (forall m, In m (a_members a') -> toString m <> erinId).
Proof.
  split; [vm_compute; auto 10|].
  eexists. eexists. split; [reflexivity|]. split; [reflexivity|].
  exact (@remove_member_unbinds_any_user hexRuntime agencyX erinId agentAlice
           tenancyXY _ _ eq_refl).
Defined.

Lemma agency_removal_cascade_witness :
  exists st',
    AgenciesService_remove (rt := hexRuntime) agencyX adminDan tenancyX
    = (Ok tt, st') /\
    (forall u, In u (users st') -> u_agencyId u <> Some agencyX) /\
    exists agency,
      AgenciesService_findOne (rt := hexRuntime) agencyX adminDan st' = Ok agency /\
      a_isActive agency = false /\ a_members agency = [oid bobId].
Proof.
  eexists. split; [reflexivity|].
  destruct (@agency_removal_cascade hexRuntime agencyX adminDan tenancyX _ eq_refl)
    as [_ [i [agency [Hi [Hf [_ [Hu [_ Ho]]]]]]]].
  injection Hi as <-. injection Hf as <-.
  split; [exact Hu|]. eexists. split; [exact Ho|]. split; reflexivity.
Defined.

Lemma cnpj_stays_unique_witness :
  NoDup (map a_cnpj (agencies tenancyXY)) /\
  exists agency st',
    AgenciesService_update (rt := hexRuntime) agencyX newCnpj agentAlice tenancyXY
    = (Ok agency, st') /\
    a_cnpj agency = "777" /\
    NoDup (map a_cnpj (agencies st')).
Proof.
  assert (Hc : NoDup (map a_cnpj (agencies tenancyXY))).
  { cbn. constructor; [cbn; intros [H|[]]; discriminate H|].
    constructor; [intros []|constructor]. }
  assert (Hi : NoDup (map a_id (agencies tenancyXY))).
  { cbn. constructor; [cbn; intros [H|[]]; discriminate H|].
    constructor; [intros []|constructor]. }
  split; [exact Hc|].
  eexists. eexists. split; [reflexivity|]. split; [reflexivity|].
  exact (proj2 (@cnpj_stays_unique hexRuntime tenancyXY Hc) agencyX newCnpj
           agentAlice _ _ Hi eq_refl).
Defined.

Lemma registered_user_can_log_in_witness :
  exists response users',
    AuthService_register (crypto := plainCrypto)
      (oid "bbbbbbbbbbbbbbbbbbbbbbb9") (registerWith None) [carolUser]
    = (Ok response, users') /\
    (exists response',
        AuthService_login (crypto := plainCrypto) (verifier := plainVerifier)
          {| l_email := "new@x.com"; l_password := "secret" |} users'
        = Ok response' /\
        ar_id response' = ar_id response /\ ar_role response' = VIEWER) /\
    AuthService_login (crypto := plainCrypto) (verifier := plainVerifier)
      {| l_email := "new@x.com"; l_password := "guess" |} users'
    = Throw UnauthorizedException.
Proof.
  eexists. eexists. split; [reflexivity|].
  assert (He : r_email (registerWith None) <> "") by discriminate.
  assert (Hn : r_name (registerWith None) <> "") by discriminate.
  destruct (@registered_user_can_log_in plainCrypto plainVerifier
              (oid "bbbbbbbbbbbbbbbbbbbbbbb9") (registerWith None) [carolUser]
              _ _ He Hn eq_refl eq_refl)
    as [[response' [Hl [Hi [_ [Hr _]]]]] [Hw _]].
  split.
  - exists response'. split; [exact Hl|]. split; [exact Hi | exact Hr].
  - exact (Hw "guess" eq_refl).
Defined.

Lemma inactive_user_is_locked_out_witness :
  u_isActive carolInactive = false /\
  AuthService_login (crypto := plainCrypto) (verifier := plainVerifier)
    {| l_email := "carol@x.com"; l_password := "secret" |} [carolInactive]
  = Throw UnauthorizedException /\
  AuthService_validateToken (rt := hexRuntime) (verifier := plainVerifier)
    ("token:" ++ carolId) [carolInactive] = Throw UnauthorizedException /\
  AuthService_refreshToken (rt := hexRuntime) (crypto := plainCrypto)
    carolId [carolInactive] = Throw UnauthorizedException.
Proof.
  split; [reflexivity|].
  destruct (@inactive_user_is_locked_out hexRuntime plainCrypto plainVerifier
              [carolInactive] carolInactive eq_refl eq_refl eq_refl eq_refl)
    as [Hl [Hv Hr]].
  split; [exact (Hl "secret")|].
  split; [exact (Hv ("token:" ++ carolId)%string eq_refl) | exact Hr].
Defined.

Lemma agent_run_extends_transcript_witness :
  findById s_id sessionId1 [session1] = Some session1 /\
  (let run := AgentsService_executeWithOpenAI openAIConfig toolsThenAnswer
                sessionId1 managerCarol [session1] in
   run_outcome run = Returned /\
   exists final,
     findById s_id sessionId1 (run_sessions run) = Some final /\
     continues session1 final /\ settled final /\
     List.length (s_messages final) = 3) /\
  (let run := AgentsService_executeWithGemini geminiConfig geminiToolsThenAnswer
                sessionId1 managerCarol [session1] in
   exists final,
     findById s_id sessionId1 (run_sessions run) = Some final /\
     continues session1 final /\
     (run_outcome run = Returned -> settled final)).
Proof.
  split; [reflexivity|].
  destruct (@agent_run_extends_transcript textAgentRuntime openAIConfig
              managerCarol sessionId1 [session1] session1 eq_refl) as [Ho _].
  destruct (@agent_run_extends_transcript textAgentRuntime geminiConfig
              managerCarol sessionId1 [session1] session1 eq_refl) as [_ Hg].
  split.
  - destruct (Ho toolsThenAnswer) as [[final [Hf [Hc Hs]]] _].
    split; [reflexivity|]. exists final.
    split; [exact Hf|]. split; [exact Hc|]. split; [exact (Hs eq_refl)|].
    vm_compute in Hf. injection Hf as <-. reflexivity.
  - exact (proj1 (Hg geminiToolsThenAnswer)).
Defined.

Lemma provider_calls_of_a_run_witness :
  findById s_id sessionId1 [session1] = Some session1 /\
  List.length
    (run_calls (AgentsService_executeWithGemini geminiConfig
                  geminiToolsThenAnswer sessionId1 managerCarol [session1])) = 2 /\
  Forall (fun call =>
            gc_message call = "Listar contatos" /\ gc_system call = "general")
    (run_calls (AgentsService_executeWithGemini geminiConfig
                  geminiToolsThenAnswer sessionId1 managerCarol [session1])).
Proof.
  split; [reflexivity|]. split; [reflexivity|].
  exact (proj2 (@provider_calls_of_a_run textAgentRuntime geminiConfig
                  managerCarol sessionId1 [session1] session1 eq_refl)
           geminiToolsThenAnswer).
Defined.

Lemma async_run_ends_idle_witness :
  let run := AgentsService_executeAsync (rt := hexRuntime) openAIConfig [None] []
               "eeeeeeeeeeeeeeeeeeeeeee1" managerCarol [session1] in
  run_outcome (AgentsService_executeWithOpenAI openAIConfig [None] sessionId1
                 managerCarol
                 (save s_id (setAgentStatus THINKING session1) [session1]))
  = Threw /\
  as_outcome run = Returned /\
  List.length (as_openai run) = 1 /\
  exists final,
    findById s_id sessionId1 (as_sessions run) = Some final /\
    continues session1 final /\ s_agentStatus final = IDLE.
Proof.
  intro run. split; [reflexivity|].
  destruct (@async_run_ends_idle hexRuntime textAgentRuntime openAIConfig
              [None] [] "eeeeeeeeeeeeeeeeeeeeeee1" sessionId1 managerCarol
              [session1] session1 eq_refl eq_refl)
    as [_ [[final [Hf [Hc [_ [He _]]]]] _]].
  split; [reflexivity|]. split; [reflexivity|].
  exists final. split; [exact Hf|]. split; [exact Hc|].
  exact (proj2 (He eq_refl eq_refl)).
Defined.

Lemma colleague_can_continue_session_witness :
  role viewerVera = VIEWER /\ userId viewerVera <> s_userId session1 /\
  (exists session',
      AgentsService_chat (rt := hexRuntime) "eeeeeeeeeeeeeeeeeeeeeee1" "E agora?"
        viewerVera [session1]
      = {| st_result := Ok session'; st_sessions := save s_id session' [session1];
           st_background := true |} /\
      s_messages session'
      = s_messages session1 ++ [userMessage "E agora?"] /\
      s_userId session' = carolId) /\
  AgentsService_chat (rt := hexRuntime) "eeeeeeeeeeeeeeeeeeeeeee1" "E agora?"
    adminDan [session1]
  = {| st_result := Throw ForbiddenException; st_sessions := [session1];
       st_background := false |}.
Proof.
  split; [reflexivity|]. split; [discriminate|].
  destruct (@colleague_can_continue_session hexRuntime textAgentRuntime
              "eeeeeeeeeeeeeeeeeeeeeee1" "E agora?" sessionId1 viewerVera
              [session1] session1 eq_refl eq_refl eq_refl eq_refl)
    as [[session' [Hc [_ [Hm [_ [_ [_ Hu]]]]]]] Hs]; [discriminate|].
  split.
  - exists session'. split; [exact Hc|]. split; [exact Hm | exact Hu].
  - apply Hs; discriminate.
Defined.

Lemma goal_without_key_completes_witness :
  exists session,
    st_result (AgentsService_executeGoal (oid "eeeeeeeeeeeeeeeeeeeeeee9")
                 goalRequest managerCarol [session1]) = Ok session /\
    let started := AgentsService_executeGoal (oid "eeeeeeeeeeeeeeeeeeeeeee9")
                     goalRequest managerCarol [session1] in
    let run := AgentsService_executeAsync (rt := hexRuntime) noKeyConfig [] []
                 (toString (s_id session)) managerCarol (st_sessions started) in
    st_background started = true /\
    as_outcome run = Returned /\ as_openai run = [] /\ as_gemini run = [] /\
    exists final,
      findById s_id (oid "eeeeeeeeeeeeeeeeeeeeeee9") (as_sessions run)
      = Some final /\
      s_messages final
      = [userMessage (art := textAgentRuntime) (eg_goal goalRequest);
         assistantMessage (@stubResponse textAgentRuntime (eg_goal goalRequest))] /\
      s_messageCount final = 2 /\
      s_status final = S_COMPLETED /\ s_agentStatus final = IDLE /\
      s_userId final = userId managerCarol /\
      agencyId managerCarol = Some (s_agencyId final).
Proof.
  eexists. split; [reflexivity|].
  exact (@goal_without_key_completes hexRuntime textAgentRuntime
           (oid "eeeeeeeeeeeeeeeeeeeeeee9") goalRequest managerCarol [session1]
           noKeyConfig [] [] _ eq_refl eq_refl eq_refl eq_refl).
Defined.

Lemma added_member_finds_agency_witness :
  exists a1 st1,
    AgenciesService_addMember (rt := hexRuntime) agencyX carolId agentAlice tenancyX
    = (Ok a1, st1) /\
    exists found,
      AgenciesService_findByUser (rt := hexRuntime) managerCarol st1 = Ok found /\
      In a1 found.
Proof.
  eexists. eexists. split; [reflexivity|].
  exact (@added_member_finds_agency hexRuntime agencyX carolId agentAlice
           tenancyX _ _ eq_refl managerCarol (oid carolId) eq_refl
           (or_introl eq_refl)).
Defined.

Lemma jwt_middleware_outcomes_witness :
  jwtAuthMiddleware (verifier := plainVerifier)
    {| req_path := "/health/live"; req_authorization := None; req_user := None |}
  = Ok {| req_path := "/health/live"; req_authorization := None;
          req_user := None |}.
Proof.
  exact (proj1 (@jwt_middleware_outcomes plainVerifier
                  {| req_path := "/health/live"; req_authorization := None;
                     req_user := None |})
           "/health" "/live" (or_intror (or_intror (or_introl eq_refl))) eq_refl).
Defined.

Lemma property_read_is_tenant_scoped_witness :
  exists views',
    PropertiesService_findOne (rt := hexRuntime) "fffffffffffffffffffffff2"
      managerCarol sampleProperties (fun _ => 0)
    = (Ok propertyNew, views') /\
    views' (p_id propertyNew) = 1 /\ views' (p_id propertyOld) = 0.
Proof.
  eexists. split; [reflexivity|].
  destruct (proj1 (@property_read_is_tenant_scoped hexRuntime
                     "fffffffffffffffffffffff2" managerCarol sampleProperties
                     (fun _ => 0))
              propertyNew _ eq_refl) as [_ [_ [H1 H2]]].
  split; [exact H1 | apply H2; discriminate].
Defined.
